(** * torchkit: file helpers, MLP layers, Waymo conversion scripts, ResNet family

    A shallow embedding of the Python sources

    - [torchkit/core/fileio/filedir.py]
    - [torchkit/core/layer/mlp.py]
    - [torchkit/datasets/waymo/utils/convert_annotations_yolo.py]
    - [torchkit/datasets/waymo/utils/copy_annotations.py]
    - [torchkit/models/classifiers/resnet.py]

    Python [str] values are Rocq [string]s (one [ascii] per character),
    Python [int]s are [Z], dictionaries with string keys are [gmap string _],
    [None]-able arguments are [option]s.  The operating system, the logging
    module, third-party libraries and the tensor engine are interfaces
    (type classes); the code of the repository is written against them. *)

From Stdlib Require Import ZArith Ascii String.
From stdpp Require Import base option list gmap strings pretty.

Local Open Scope string_scope.
Local Open Scope Z_scope.

#[local] Arguments String.append : simpl nomatch.

(** ** Python string primitives used by the sources *)

Module PyStr.

(** [s[n:]] and [s[:n]] for [0 <= n]. *)
Fixpoint drop (n : nat) (s : string) : string :=
  match n, s with
  | O, _ => s
  | S _, EmptyString => EmptyString
  | S k, String _ s' => drop k s'
  end.

Fixpoint take (n : nat) (s : string) : string :=
  match n, s with
  | O, _ => EmptyString
  | S _, EmptyString => EmptyString
  | S k, String c s' => String c (take k s')
  end.

(** [s[i:j]] for non-negative [i], [j] (out-of-range slices are clipped). *)
Definition slice (s : string) (i j : Z) : string :=
  take (Z.to_nat (j - i)) (drop (Z.to_nat i) s).

(** [s.startswith(p)]. *)
Definition startswith (s p : string) : bool := String.prefix p s.

(** [s.endswith(p)]. *)
Definition endswith (s p : string) : bool :=
  String.prefix (String.rev p) (String.rev s).

(** [sub in s]. *)
Fixpoint contains (sub s : string) : bool :=
  String.prefix sub s ||
  match s with
  | EmptyString => false
  | String _ s' => contains sub s'
  end.

(** [s.rfind(c)] for a one-character [c]: the highest index, or [-1]. *)
Fixpoint rfind_from (c : ascii) (s : string) (i : Z) (last : Z) : Z :=
  match s with
  | EmptyString => last
  | String a s' =>
      rfind_from c s' (i + 1) (if Ascii.eqb a c then i else last)
  end.

Definition rfind (s : string) (c : ascii) : Z := rfind_from c s 0 (-1).

(** [s.lstrip(c)] for a one-character [c]. *)
Fixpoint lstrip (c : ascii) (s : string) : string :=
  match s with
  | String a s' => if Ascii.eqb a c then lstrip c s' else s
  | EmptyString => s
  end.

(** [s.split(sep)] for a one-character separator: empty fields are kept. *)
Fixpoint split_on_aux (sep : ascii) (s : string) (cur : string) : list string :=
  match s with
  | EmptyString => [String.rev cur]
  | String a s' =>
      if Ascii.eqb a sep then String.rev cur :: split_on_aux sep s' EmptyString
      else split_on_aux sep s' (String a cur)
  end.

Definition split_on (sep : ascii) (s : string) : list string :=
  split_on_aux sep s EmptyString.

(** [sep.join(parts)]. *)
Fixpoint join (sep : string) (parts : list string) : string :=
  match parts with
  | [] => EmptyString
  | [p] => p
  | p :: ps => p ++ sep ++ join sep ps
  end.

(** The characters [str.split()] treats as whitespace.  A character of a
    [string] is a code point below 256; among these Python takes tab, line
    feed, vertical tab, form feed, carriage return (9-13), the four
    separators 0x1c-0x1f and space (28-32), next line (0x85, 133) and the
    no-break space (0xa0, 160). *)
Definition isspace (a : ascii) : bool :=
  let n := nat_of_ascii a in
  ((9 <=? n) && (n <=? 13))%nat || ((28 <=? n) && (n <=? 32))%nat
  || (n =? 133)%nat || (n =? 160)%nat.

(** [s.split()]: fields separated by runs of whitespace, no empty field. *)
Fixpoint split_ws_aux (s : string) (cur : string) : list string :=
  match s with
  | EmptyString =>
      match cur with EmptyString => [] | _ => [String.rev cur] end
  | String a s' =>
      if isspace a then
        match cur with
        | EmptyString => split_ws_aux s' EmptyString
        | _ => String.rev cur :: split_ws_aux s' EmptyString
        end
      else split_ws_aux s' (String a cur)
  end.

Definition split_ws (s : string) : list string := split_ws_aux s EmptyString.

(** [s.replace(old, new)] for a non-empty [old]: occurrences are found from
    the left and do not overlap.  [skip] counts the characters of a matched
    occurrence that are still to be passed over. *)
Fixpoint replace_scan (old new : string) (skip : nat) (s : string) : string :=
  match s with
  | EmptyString => EmptyString
  | String c s' =>
      match skip with
      | S k => replace_scan old new k s'
      | O =>
          if String.prefix old s
          then new ++ replace_scan old new (String.length old - 1) s'
          else String c (replace_scan old new O s')
      end
  end.

(** With an empty [old] Python inserts [new] before every character and at
    the end. *)
Fixpoint replace_empty (new : string) (s : string) : string :=
  match s with
  | EmptyString => new
  | String c s' => new ++ String c (replace_empty new s')
  end.

Definition replace (s old new : string) : string :=
  match old with
  | EmptyString => replace_empty new s
  | _ => replace_scan old new O s
  end.

(** No character of [s] is a slash: [s] can be one component of a path. *)
Definition slash_free (s : string) : bool :=
  forallb (fun c => negb (Ascii.eqb c "/")) (list_ascii_of_string s).

End PyStr.

(** ** [os.path] and [pathlib] on POSIX *)

Module PosixPath.
Import PyStr.

Definition sep : ascii := "/"%char.
Definition extsep : ascii := "."%char.

(** The [while filenameIndex < dotIndex] loop of [genericpath._splitext]:
    [Some] is the [return] inside the loop, [None] is leaving the loop. *)
Fixpoint splitext_loop (p : string) (dotIndex : Z) (fuel : nat)
    (filenameIndex : Z) : option (string * string) :=
  match fuel with
  | O => None
  | S k =>
      if filenameIndex <? dotIndex then
        if negb (String.eqb (slice p filenameIndex (filenameIndex + 1)) ".")
        then Some (slice p 0 dotIndex, drop (Z.to_nat dotIndex) p)
        else splitext_loop p dotIndex k (filenameIndex + 1)
      else None
  end.

(** [os.path.splitext(p)]. *)
Definition splitext (p : string) : string * string :=
  let sepIndex := rfind p sep in
  let dotIndex := rfind p extsep in
  if sepIndex <? dotIndex then
    (* skip all leading dots *)
    let filenameIndex := sepIndex + 1 in
    match splitext_loop p dotIndex (Z.to_nat (dotIndex - filenameIndex))
            filenameIndex with
    | Some r => r
    | None => (p, EmptyString)
    end
  else (p, EmptyString).

(** [os.path.join(a, b)]. *)
Definition join (a b : string) : string :=
  if startswith b "/" then b
  else if String.eqb a "" || endswith a "/" then a ++ b
  else a ++ "/" ++ b.

(** [os.path.join(a, b1, ..., bn)]. *)
Definition joins (a : string) (bs : list string) : string :=
  fold_left join bs a.

(** A parsed [PurePosixPath]: the root and the parts, the root being the
    first part of an absolute path (the drive is always empty on POSIX). *)
Record PurePath := { _root : string; _parts : list string }.

(** [_PosixFlavour.splitroot]. *)
Definition splitroot (part : string) : string * string :=
  match part with
  | String a _ =>
      if Ascii.eqb a sep then
        let stripped_part := lstrip sep part in
        if (String.length part - String.length stripped_part =? 2)%nat
        then ("//", stripped_part)
        else ("/", stripped_part)
      else (EmptyString, part)
  | EmptyString => (EmptyString, part)
  end.

(** [_Flavour.parse_parts] for a single argument. *)
Definition parse (path : string) : PurePath :=
  match path with
  | EmptyString => {| _root := ""; _parts := [] |}
  | _ =>
      let '(root, rel) := splitroot path in
      let parsed :=
        filter (fun x => x <> "" /\ x <> ".") (split_on sep rel) in
      {| _root := root;
         _parts := match root with
                   | EmptyString => parsed
                   | _ => root :: parsed
                   end |}
  end.

(** [PurePath.__str__]. *)
Definition to_str (p : PurePath) : string :=
  let s := match _root p with
           | EmptyString => PyStr.join "/" (_parts p)
           | r => r ++ PyStr.join "/" (tail (_parts p))
           end in
  match s with EmptyString => "." | _ => s end.

Definition anchored (p : PurePath) : bool := negb (String.eqb (_root p) "").

(** [PurePath.parent]. *)
Definition parent (p : PurePath) : PurePath :=
  if (List.length (_parts p) =? 1)%nat && anchored p then p
  else {| _root := _root p;
          _parts := firstn (List.length (_parts p) - 1) (_parts p) |}.

(** [PurePath.name]. *)
Definition name (p : PurePath) : string :=
  if (List.length (_parts p) =? (if anchored p then 1 else 0))%nat then ""
  else List.last (_parts p) "".

End PosixPath.

(** ** [fnmatch] patterns, as [glob] applies them to the names of a directory *)

Module Glob.

Inductive token := TStar | TQuestion | TLit (c : ascii).

(** The tokens of a pattern without bracket expressions; a pattern with a
    ["["] is outside this model. *)
Fixpoint tokens (pat : string) : option (list token) :=
  match pat with
  | EmptyString => Some []
  | String c pat' =>
      if Ascii.eqb c "[" then None
      else
        ts ← tokens pat';
        Some ((if Ascii.eqb c "*" then TStar
               else if Ascii.eqb c "?" then TQuestion
               else TLit c) :: ts)
  end.

(** [re.match(fnmatch.translate(pat), name)]: [*] is any run of characters,
    [?] is one character, the match covers the whole name. *)
Fixpoint wild (pat : list token) (name : string) : bool :=
  match pat with
  | [] => String.eqb name ""
  | TLit c :: pat' =>
      match name with
      | String a name' => Ascii.eqb a c && wild pat' name'
      | EmptyString => false
      end
  | TQuestion :: pat' =>
      match name with
      | String _ name' => wild pat' name'
      | EmptyString => false
      end
  | TStar :: pat' =>
      (fix star (s : string) : bool :=
         wild pat' s ||
         match s with
         | String _ s' => star s'
         | EmptyString => false
         end) name
  end.

(** [glob._ishidden]. *)
Definition ishidden (path : string) : bool := PyStr.startswith path ".".

(** [glob._glob1] on one name: hidden names are skipped unless the pattern
    itself is hidden. *)
Definition glob1_accepts (pattern name : string) : option bool :=
  ts ← tokens pattern;
  Some ((ishidden pattern || negb (ishidden name)) && wild ts name).

End Glob.

(** ** [torchkit/core/fileio/filedir.py] *)

Module Filedir.
Import PyStr.

Inductive Level := DEBUG | INFO | WARNING | ERROR | CRITICAL.
Record LogRecord := { levelname : Level; message : string }.

(** What the helpers need from the interpreter, the operating system and
    the imported packages.  An operation that raises returns [inl] of the
    exception and leaves the file system as it was. *)
Class Os := {
  FS : Type;
  Exn : Type;
  (** [isinstance(err, Exception)]: false for [KeyboardInterrupt] and the
      other direct children of [BaseException]. *)
  is_Exception : Exn -> bool;
  (** [f"{err}"]. *)
  exn_str : Exn -> string;
  os_path_exists : FS -> string -> bool;
  os_path_isfile : FS -> string -> bool;
  os_path_isdir : FS -> string -> bool;
  os_listdir : FS -> string -> Exn + list string;
  os_makedirs : FS -> string -> Exn + FS;
  os_remove : FS -> string -> Exn + FS;
  shutil_rmtree : FS -> string -> Exn + FS;
  glob_glob : FS -> string -> bool -> list string;
  (** [validators.url(path)] is [True] ([true]) or a [ValidationFailure]. *)
  validators_url : string -> bool;
  (** [torchkit.core.utils.unique]. *)
  unique : list string -> list string
}.

Section WithOs.
Context `{os : Os}.

(** The state the helpers act on: the file system, the records the root
    logger has received, and the calls [glob(pattern, recursive)] made so
    far. *)
Record World := {
  fs : FS;
  logged : list LogRecord;
  globbed : list (string * bool)
}.

(** What unwinds the Python stack: an exception, or the [SystemExit] that
    [exit(code)] raises. *)
Inductive Unwind := PyExn (e : Exn) | SystemExit (code : Z).

(** A statement: it ends normally with a value or unwinds. *)
Definition M (A : Type) : Type := World -> World * (Unwind + A).

Definition ret {A} (a : A) : M A := fun w => (w, inr a).
Definition raise {A} (u : Unwind) : M A := fun w => (w, inl u).
Definition bind {A B} (m : M A) (k : A -> M B) : M B :=
  fun w => match m w with
           | (w', inr a) => k a w'
           | (w', inl u) => (w', inl u)
           end.

(** [try: body except Exception as err: handler(err)]. *)
Definition try_except_Exception {A} (body : M A) (handler : Exn -> M A)
    : M A :=
  fun w => match body w with
           | (w', inl (PyExn err)) =>
               if is_Exception err then handler err w'
               else (w', inl (PyExn err))
           | r => r
           end.

(** [for x in xs: body(x)]. *)
Fixpoint for_each {A} (xs : list A) (body : A -> M unit) : M unit :=
  match xs with
  | [] => ret tt
  | x :: xs' => bind (body x) (fun _ => for_each xs' body)
  end.

Definition when (c : bool) (m : M unit) : M unit :=
  if c then m else ret tt.

(** Reading and changing the file system. *)
Definition ask {A} (q : FS -> A) : M A := fun w => (w, inr (q (fs w))).
Definition act (op : FS -> Exn + FS) : M unit :=
  fun w => match op (fs w) with
           | inr fs' => ({| fs := fs'; logged := logged w;
                            globbed := globbed w |}, inr tt)
           | inl e => (w, inl (PyExn e))
           end.

(** [logger.error(msg)]. *)
Definition logger_error (msg : string) : M unit :=
  fun w => ({| fs := fs w;
               logged := logged w ++ [{| levelname := ERROR;
                                         message := msg |}];
               globbed := globbed w |}, inr tt).

(** [glob(pattern, recursive=recursive)]. *)
Definition glob (pattern : string) (recursive : bool) : M (list string) :=
  fun w => ({| fs := fs w; logged := logged w;
               globbed := globbed w ++ [(pattern, recursive)] |},
            inr (glob_glob (fs w) pattern recursive)).

(** The builtin [exit(code)]. *)
Definition exit {A} (code : Z) : M A := raise (SystemExit code).

End WithOs.

Arguments World {os}.
Arguments Unwind {os}.
Arguments M {os} A.

Declare Scope py_scope.
Delimit Scope py_scope with py.
Notation "'do' x <- m ; k" := (bind m (fun x => k))
  (at level 10, x name, m at level 100, k at level 200) : py_scope.
Notation "'run' m ; k" := (bind m (fun _ => k))
  (at level 10, m at level 100, k at level 200) : py_scope.

Section Helpers.
Context `{os : Os}.
Local Open Scope py_scope.

(** *** Create *)

(** [create_dirs(paths, recreate=False)]. *)
Definition create_dirs_body (unique_dirs : list string) (recreate : bool)
    : M Z :=
  run for_each unique_dirs (fun d =>
        do e <- ask (fun fs => os_path_exists fs d);
        run when (e && recreate) (act (fun fs => shutil_rmtree fs d));
        do e' <- ask (fun fs => os_path_exists fs d);
        when (negb e') (act (fun fs => os_makedirs fs d)));
  ret 0.

Definition create_dirs (paths : list string) (recreate : bool) : M Z :=
  let unique_dirs := unique paths in
  try_except_Exception
    (create_dirs_body unique_dirs recreate)
    (fun err =>
       run logger_error ("Cannot create directory: " ++ exn_str err ++ ".");
       exit (-1)).

(** *** Validate *)

(** [is_basename(path)]. *)
Definition is_basename (path : option string) : bool :=
  match path with
  | None => false
  | Some path =>
      let parent := PosixPath.to_str (PosixPath.parent (PosixPath.parse path)) in
      if String.eqb parent "." then
        let '(root, ext) := PosixPath.splitext path in
        if negb (String.eqb ext "") then true else false
      else false
  end.

(** [is_ckpt_file(path)]: a [.ckpt] file. *)
Definition is_ckpt_file (fs : FS) (path : option string) : bool :=
  match path with
  | None => false
  | Some path =>
      if os_path_isfile fs path then
        let extension := (PosixPath.splitext path).2 in
        if bool_decide (extension ∈ [".ckpt"]) then true else false
      else false
  end.

(** [is_json_file(path)]: a [.json] file. *)
Definition is_json_file (fs : FS) (path : option string) : bool :=
  match path with
  | None => false
  | Some path =>
      if os_path_isfile fs path then
        let extension := (PosixPath.splitext path).2 in
        if bool_decide (extension ∈ [".json"]) then true else false
      else false
  end.

(** [is_name(path)]. *)
Definition is_name (path : option string) : bool :=
  match path with
  | None => false
  | Some path =>
      let name := PosixPath.name (PosixPath.parse path) in
      if String.eqb name path then true else false
  end.

(** [is_stem(path)]. *)
Definition is_stem (path : option string) : bool :=
  match path with
  | None => false
  | Some path =>
      let parent := PosixPath.to_str (PosixPath.parent (PosixPath.parse path)) in
      if String.eqb parent "." then
        let '(root, ext) := PosixPath.splitext path in
        if String.eqb ext "" then true else false
      else false
  end.

(** [is_torch_saved_file(path)]: a [.pt], [.pth], [.weights] or [.ckpt] file. *)
Definition is_torch_saved_file (fs : FS) (path : option string) : bool :=
  match path with
  | None => false
  | Some path =>
      if os_path_isfile fs path then
        let extension := (PosixPath.splitext path).2 in
        if bool_decide (extension ∈ [".pt"; ".pth"; ".weights"; ".ckpt"]) then true else false
      else false
  end.

(** [is_txt_file(path)]: a [.txt] file. *)
Definition is_txt_file (fs : FS) (path : option string) : bool :=
  match path with
  | None => false
  | Some path =>
      if os_path_isfile fs path then
        let extension := (PosixPath.splitext path).2 in
        if bool_decide (extension ∈ [".txt"]) then true else false
      else false
  end.

(** [is_url(path)]. *)
Definition is_url (path : option string) : bool :=
  match path with
  | None => false
  | Some path => if negb (validators_url path) then false else true
  end.

(** [is_url_or_file(path)]. *)
Definition is_url_or_file (fs : FS) (path : option string) : bool :=
  match path with
  | None => false
  | Some path =>
      if os_path_isfile fs path then true
      else if negb (validators_url path) then false
      else true
  end.

(** [is_weights_file(path)]: a [.pt] or [.pth] file. *)
Definition is_weights_file (fs : FS) (path : option string) : bool :=
  match path with
  | None => false
  | Some path =>
      if os_path_isfile fs path then
        let extension := (PosixPath.splitext path).2 in
        if bool_decide (extension ∈ [".pt"; ".pth"]) then true else false
      else false
  end.

(** [is_xml_file(path)]: a [.xml] file. *)
Definition is_xml_file (fs : FS) (path : option string) : bool :=
  match path with
  | None => false
  | Some path =>
      if os_path_isfile fs path then
        let extension := (PosixPath.splitext path).2 in
        if bool_decide (extension ∈ [".xml"]) then true else false
      else false
  end.

(** [is_yaml_file(path)]: a [.yaml] or [.yml] file. *)
Definition is_yaml_file (fs : FS) (path : option string) : bool :=
  match path with
  | None => false
  | Some path =>
      if os_path_isfile fs path then
        let extension := (PosixPath.splitext path).2 in
        if bool_decide (extension ∈ [".yaml"; ".yml"]) then true else false
      else false
  end.

(** *** Read *)

(** [list_subdirs(path)]: [None] for [None], else the entries of
    [os.listdir(path)] that are directories. *)
Definition list_subdirs (path : option string) : M (option (list string)) :=
  match path with
  | None => ret None
  | Some path =>
      fun w =>
        match os_listdir (fs w) path with
        | inl e => (w, inl (PyExn e))
        | inr names =>
            (w, inr (Some (List.filter
                             (fun d => os_path_isdir (fs w)
                                         (PosixPath.join path d))
                             names)))
        end
  end.

(** *** Delete *)

(** The conditional expression on the [extension] argument of
    [delete_files]. *)
Definition normalize_extension (extension : string) : string :=
  if negb (contains "." extension) then "." ++ extension else extension.

(** The pattern [delete_files] globs in the directory [d]. *)
Definition delete_pattern (d extension : string) : string :=
  PosixPath.join d ("*" ++ extension).

(** [delete_files(dirpaths, extension="", recursive=True)]. *)
Definition delete_files_loop (unique_dirs : list string)
    (extension : string) (recursive : bool) : M unit :=
  for_each unique_dirs (fun d =>
    do e <- ask (fun fs => os_path_exists fs d);
    if e then
      let pattern := delete_pattern d extension in
      do files <- glob pattern recursive;
      for_each files (fun f => act (fun fs => os_remove fs f))
    else ret tt).

Definition delete_files (dirpaths : list string) (extension : string)
    (recursive : bool) : M unit :=
  let unique_dirs := unique dirpaths in
  let extension := normalize_extension extension in
  delete_files_loop unique_dirs extension recursive.

(** The defaults of the signature. *)
Definition delete_files_default_extension : string := "".
Definition delete_files_default_recursive : bool := true.

End Helpers.

End Filedir.

(** ** An in-memory file system

    A concrete [Os] on which the helpers can be run: paths are keys of an
    association list, each a regular file or a directory. *)

Module MemFs.
Import PyStr.

Inductive Kind := RegularFile | Directory.

Inductive OSError :=
| FileNotFoundError (path : string)
| FileExistsError (path : string)
| NotADirectoryError (path : string)
| IsADirectoryError (path : string)
| KeyboardInterrupt.

Definition Files : Type := list (string * Kind).

Fixpoint lookup (fs : Files) (p : string) : option Kind :=
  match fs with
  | [] => None
  | (q, k) :: fs' => if String.eqb q p then Some k else lookup fs' p
  end.

Definition remove_key (fs : Files) (p : string) : Files :=
  List.filter (fun e => negb (String.eqb (fst e) p)) fs.

Definition remove_tree (fs : Files) (p : string) : Files :=
  List.filter (fun e => negb (String.eqb (fst e) p)
                        && negb (startswith (fst e) (p ++ "/"))) fs.

(** [os.path.dirname] and [os.path.basename]: around the last slash. *)
Definition dirname (p : string) : string :=
  let i := rfind p "/" in if i <? 0 then "" else slice p 0 i.
Definition basename (p : string) : string :=
  drop (Z.to_nat (rfind p "/" + 1)) p.

Definition strerror (errno : string) (text path : string) : string :=
  "[Errno " ++ errno ++ "] " ++ text ++ ": '" ++ path ++ "'".

Definition makedirs (fs : Files) (p : string) : OSError + Files :=
  match p, lookup fs p with
  | EmptyString, _ => inl (FileNotFoundError p)
  | _, Some _ => inl (FileExistsError p)
  | _, None => inr (fs ++ [(p, Directory)])%list
  end.

Definition rmtree (fs : Files) (p : string) : OSError + Files :=
  match lookup fs p with
  | None => inl (FileNotFoundError p)
  | Some RegularFile => inl (NotADirectoryError p)
  | Some Directory => inr (remove_tree fs p)
  end.

Definition remove (fs : Files) (p : string) : OSError + Files :=
  match lookup fs p with
  | None => inl (FileNotFoundError p)
  | Some Directory => inl (IsADirectoryError p)
  | Some RegularFile => inr (remove_key fs p)
  end.

Definition listdir (fs : Files) (p : string) : OSError + list string :=
  match lookup fs p with
  | None => inl (FileNotFoundError p)
  | Some RegularFile => inl (NotADirectoryError p)
  | Some Directory =>
      inr (List.map (fun e => basename (fst e))
             (List.filter (fun e => String.eqb (dirname (fst e)) p) fs))
  end.

(** [glob.glob] for a pattern whose magic is in its last component. *)
Definition glob (fs : Files) (pattern : string) (recursive : bool)
    : list string :=
  List.map fst
    (List.filter
       (fun e => String.eqb (dirname (fst e)) (dirname pattern)
                 && match Glob.glob1_accepts (basename pattern)
                            (basename (fst e)) with
                    | Some b => b
                    | None => false
                    end) fs).

Fixpoint dedup (seen : list string) (l : list string) : list string :=
  match l with
  | [] => []
  | x :: l' =>
      if bool_decide (x ∈ seen) then dedup seen l'
      else x :: dedup (x :: seen) l'
  end.

#[export] Instance os : Filedir.Os := {|
  Filedir.FS := Files;
  Filedir.Exn := OSError;
  Filedir.is_Exception e :=
    match e with KeyboardInterrupt => false | _ => true end;
  Filedir.exn_str e :=
    match e with
    | FileNotFoundError p => strerror "2" "No such file or directory" p
    | FileExistsError p => strerror "17" "File exists" p
    | NotADirectoryError p => strerror "20" "Not a directory" p
    | IsADirectoryError p => strerror "21" "Is a directory" p
    | KeyboardInterrupt => ""
    end;
  Filedir.os_path_exists fs p :=
    match lookup fs p with Some _ => true | None => false end;
  Filedir.os_path_isfile fs p :=
    match lookup fs p with Some RegularFile => true | _ => false end;
  Filedir.os_path_isdir fs p :=
    match lookup fs p with Some Directory => true | _ => false end;
  Filedir.os_listdir := listdir;
  Filedir.os_makedirs := makedirs;
  Filedir.os_remove := remove;
  Filedir.shutil_rmtree := rmtree;
  Filedir.glob_glob := glob;
  Filedir.validators_url p :=
    startswith p "http://" || startswith p "https://";
  Filedir.unique := dedup []
|}.

Definition world (fs : Files) : Filedir.World :=
  {| Filedir.fs := fs; Filedir.logged := []; Filedir.globbed := [] |}.

End MemFs.

(** ** [torchkit/core/layer/mlp.py] *)

Module Mlp.

(** The tensor engine.  A layer is described by the constructor call that
    made it; applying a layer reads its parameters, the training flag and
    the random generator from the engine state, under the attribute name
    the layer is registered with in its parent module. *)
Class Torch := {
  Tensor : Type;
  Engine : Type;
  (** Python floats (dropout probabilities). *)
  Float : Type;
  (** Classes that can be passed as [act_layer]: [nn.GELU], ... *)
  ActCls : Type;
  nn_GELU : ActCls;
  (** [torchkit.core.utils.to_2tuple]. *)
  to_2tuple : Float -> Float * Float;
}.

Inductive Layer `{Torch} :=
| nn_Linear (in_features out_features : Z)
| nn_Dropout (p : Float)
| act_instance (cls : ActCls).

Class TorchCall `{Torch} := {
  (** [self.<attr>(x)]. *)
  call : string -> Layer -> Tensor -> Engine -> Tensor * Engine
}.

(** Python's [a or b] on an optional integer: [None] and [0] are falsy. *)
Definition py_or (a : option Z) (b : Z) : Z :=
  match a with
  | None => b
  | Some v => if v =? 0 then b else v
  end.

Section WithTorch.
Context `{tc : TorchCall}.

Record Mlp := {
  fc1 : Layer; act : Layer; drop1 : Layer; fc2 : Layer; drop2 : Layer
}.

(** [Mlp.__init__(in_features, hidden_features=None, out_features=None,
    act_layer=nn.GELU, drop=0.0)]. *)
Definition Mlp_init (in_features : Z) (hidden_features : option Z)
    (out_features : option Z) (act_layer : ActCls) (drop : Float) : Mlp :=
  let out_features := py_or out_features in_features in
  let hidden_features := py_or hidden_features in_features in
  let drop_probs := to_2tuple drop in
  {| fc1 := nn_Linear in_features hidden_features;
     act := act_instance act_layer;
     drop1 := nn_Dropout (fst drop_probs);
     fc2 := nn_Linear hidden_features out_features;
     drop2 := nn_Dropout (snd drop_probs) |}.

(** [Mlp.forward(x)]: five rebinding assignments of [x]. *)
Definition forward (self : Mlp) (x : Tensor) (e : Engine)
    : Tensor * Engine :=
  let '(x, e) := call "fc1" (fc1 self) x e in
  let '(x, e) := call "act" (act self) x e in
  let '(x, e) := call "drop1" (drop1 self) x e in
  let '(x, e) := call "fc2" (fc2 self) x e in
  let '(x, e) := call "drop2" (drop2 self) x e in
  (x, e).

(** The composition as the specification words it, innermost first:
    [g after f] feeds the tensor and the engine state [f] leaves to [g]. *)
Definition after (g f : Tensor -> Engine -> Tensor * Engine)
    : Tensor -> Engine -> Tensor * Engine :=
  fun x e => let r := f x e in g (fst r) (snd r).

Definition composition (self : Mlp) : Tensor -> Engine -> Tensor * Engine :=
  after (call "drop2" (drop2 self))
    (after (call "fc2" (fc2 self))
       (after (call "drop1" (drop1 self))
          (after (call "act" (act self))
             (call "fc1" (fc1 self))))).

End WithTorch.

End Mlp.

(** ** [torchkit/datasets/waymo/utils]: the conversion scripts *)

Module Waymo.
Import PyStr.

Definition LF : ascii := ascii_of_nat 10.
Definition CR : ascii := ascii_of_nat 13.

(** The line boundaries of [str.splitlines] among the code points below
    256: line feed, vertical tab, form feed, carriage return (10-13), the
    separators 0x1c, 0x1d and 0x1e (28-30) and next line (0x85, 133). *)
Definition is_linebreak (a : ascii) : bool :=
  let n := nat_of_ascii a in
  ((10 <=? n) && (n <=? 13))%nat || ((28 <=? n) && (n <=? 30))%nat
  || (n =? 133)%nat.

(** [text.splitlines()]: a carriage return followed by a line feed is one
    boundary, and a final boundary does not open an empty last line. *)
Fixpoint splitlines_aux (text : string) (cur : string) (after_cr : bool)
    : list string :=
  match text with
  | EmptyString =>
      match cur with EmptyString => [] | _ => [String.rev cur] end
  | String a text' =>
      if after_cr && Ascii.eqb a LF then splitlines_aux text' cur false
      else if is_linebreak a
      then String.rev cur :: splitlines_aux text' EmptyString (Ascii.eqb a CR)
      else splitlines_aux text' (String a cur) false
  end.

Definition splitlines (text : string) : list string :=
  splitlines_aux text EmptyString false.

Inductive PyErr :=
| FileNotFoundError (path : string)
| ValueError
| IndexError
| ImageError (path : string).

(** Statements that can raise are sequenced with [x ← m; k]: the first
    exception ends the sequence. *)
#[export] Instance PyErr_bind : MBind (sum PyErr) :=
  fun A B k m => match m with inl e => inl e | inr a => k a end.

(** What [process] needs from numpy and from the parts of torchkit that are
    imported by the script. *)
Class Numeric := {
  (** [np.float32] scalars. *)
  F32 : Type;
  (** The conversion [np.array(..., dtype=np.float32)] applies to a string;
      [None] is the [ValueError] of a string that is not a number. *)
  float32_of_str : string -> option F32;
  (** [int(x)]; [None] for the values [int] refuses (nan, inf). *)
  int_of_float32 : F32 -> option Z;
  (** [f"{x}"]. *)
  format_float32 : F32 -> string;
  (** The elements of [ImageInfo.shape0]. *)
  Dim : Type;
  (** [ImageInfo.from_image_file(image_path=p).shape0]. *)
  image_shape0 : string -> option (list Dim);
  (** [torchkit.core.image.bbox_cxcywh_cxcywh_norm(cxcywh, height, width)]. *)
  bbox_cxcywh_cxcywh_norm : list F32 -> Dim -> Dim -> option (list F32);
  (** Whether [open(p, "w")] can create or truncate [p]. *)
  can_open_w : gmap string string -> string -> bool
}.

(** The text files, by path. *)
Abbreviation Texts := (gmap string string).

Section Process.
Context `{num : Numeric}.

(** [np.array(rows, dtype=np.float32)] on a list of lists of strings: an
    empty list is an empty array, rows of one common length make a matrix,
    anything else is a [ValueError]. *)
Definition np_array_float32 (rows : list (list string))
    : option (list (list F32)) :=
  match rows with
  | [] => Some []
  | r :: _ =>
      if forallb (fun r' => (List.length r' =? List.length r)%nat) rows
      then mapM (mapM float32_of_str) rows
      else None
  end.

(** [l[i:j]] on a row. *)
Definition row_slice {A} (l : list A) (i j : nat) : list A :=
  firstn (j - i) (skipn i l).

Definition index {A} (l : list A) (i : nat) : PyErr + A :=
  match l !! i with Some x => inr x | None => inl IndexError end.

Definition orelse {A} (o : option A) (e : PyErr) : PyErr + A :=
  match o with Some x => inr x | None => inl e end.

(** The string one iteration of the [for l in labels] loop writes. *)
Definition yolo_line (shape0 : list Dim) (l : list F32) : PyErr + string :=
  h ← index shape0 0;
  w ← index shape0 1;
  bbox ← orelse (bbox_cxcywh_cxcywh_norm (row_slice l 2 6) h w) ValueError;
  l1 ← index l 1;
  cls ← orelse (int_of_float32 l1) ValueError;
  b0 ← index bbox 0;
  b1 ← index bbox 1;
  b2 ← index bbox 2;
  b3 ← index bbox 3;
  inr (pretty cls ++ " " ++ format_float32 b0 ++ " " ++ format_float32 b1
       ++ " " ++ format_float32 b2 ++ " " ++ format_float32 b3
       ++ String LF "").

(** The body of [with open(new_annotation_path, "w") as fo]: every
    [fo.writelines(ss)] appends to the file; an exception leaves what was
    written so far. *)
Fixpoint write_labels (shape0 : list Dim) (labels : list (list F32))
    (fo : string) (files : Texts) : Texts * (PyErr + unit) :=
  match labels with
  | [] => (files, inr tt)
  | l :: labels' =>
      match yolo_line shape0 l with
      | inl e => (files, inl e)
      | inr ss =>
          write_labels shape0 labels' fo
            (<[fo := default "" (files !! fo) ++ ss]> files)
      end
  end.

(** The content of a file to which the strings [lines] were written, in
    order. *)
Fixpoint written (lines : list string) : string :=
  match lines with
  | [] => ""
  | ss :: lines' => ss ++ written lines'
  end.

Definition image_path_of (path : string) : string :=
  replace (replace path "annotations" "images") ".txt" ".jpeg".

Definition new_annotation_path_of (path : string) : string :=
  replace path "annotations" "annotations_yolo".

(** [process(path)]. *)
Definition process (path : string) (files : Texts)
    : Texts * (PyErr + unit) :=
  let image_path := image_path_of path in
  match image_shape0 image_path with
  | None => (files, inl (ImageError image_path))
  | Some shape0 =>
      let new_annotation_path := new_annotation_path_of path in
      match files !! path with
      | None => (files, inl (FileNotFoundError path))
      | Some text =>
          match np_array_float32 (List.map split_ws (splitlines text)) with
          | None => (files, inl ValueError)
          | Some labels =>
              if can_open_w files new_annotation_path then
                write_labels shape0 labels new_annotation_path
                  (<[new_annotation_path := ""]> files)
              else (files, inl (FileNotFoundError new_annotation_path))
          end
      end
  end.

End Process.

(** *** The top level of the two scripts

    The statements a script runs, in order, with their arguments. *)
Inductive Stmt :=
| create_dirs_call (paths : list string) (recreate : bool)
(** [Parallel(n_jobs=n)(delayed(process)(path) for path in paths)]. *)
| Parallel_call (n_jobs : Z) (delayed_process : list string)
| copyfile_call (src dst : string).

(** joblib runs the jobs of a [Parallel] call in the calling process when
    [n_jobs] is 1 and hands them to a pool of [n_jobs] workers otherwise;
    the other statements run in the calling process. *)
Definition max_concurrent_jobs (s : Stmt) : Z :=
  match s with
  | Parallel_call n_jobs _ => n_jobs
  | _ => 1
  end.

Definition splits : list string := ["train"].

Definition cameras : list string :=
  ["front"; "front_left"; "front_right"; "side_left"; "side_right"].

Definition annotation_pattern (datasets_dir split : string) : string :=
  PosixPath.joins datasets_dir
    ["waymo"; "detection2d"; split; "*"; "annotations"; "*.txt"].

Definition new_annotation_dirs (datasets_dir split : string) : list string :=
  List.map (fun camera =>
              PosixPath.joins datasets_dir
                ["waymo"; "detection2d"; split; camera; "annotations_yolo"])
           cameras.

(** [convert_annotations_yolo.py]: [glob] is [glob.glob] on the file system
    at the time of the call and [cpu_count] is
    [multiprocessing.cpu_count()]. *)
Definition convert_annotations_yolo (datasets_dir : string)
    (glob : string -> list string) (cpu_count : Z) : list Stmt :=
  List.concat
    (List.map
       (fun split =>
          let annotation_paths := glob (annotation_pattern datasets_dir split) in
          let num_jobs := cpu_count in
          [create_dirs_call (new_annotation_dirs datasets_dir split) true;
           Parallel_call num_jobs annotation_paths])
       splits).

Definition image_pattern (datasets_dir : string) : string :=
  PosixPath.joins datasets_dir
    ["waymo"; "detection2d"; "train"; "front_easy"; "images"; "*.jpeg"].

(** [copy_annotations.py]. *)
Definition copy_annotations (datasets_dir : string)
    (glob : string -> list string) : list Stmt :=
  List.map
    (fun file =>
       let annotation_file := replace file "front_easy" "front" in
       let annotation_file := replace annotation_file "images" "annotations" in
       let annotation_file := replace annotation_file ".jpeg" ".txt" in
       let new_annotation_file := replace annotation_file "front" "front_easy" in
       copyfile_call annotation_file new_annotation_file)
    (glob (image_pattern datasets_dir)).

(** The output path as the specification words it: the path with each
    directory component named [annotations] renamed to [annotations_yolo]
    and every other component, the file name included, kept. *)
Definition rename_annotations_component (path : string) : string :=
  let comps := split_on "/" path in
  let dirs := firstn (List.length comps - 1) comps in
  let file := skipn (List.length comps - 1) comps in
  PyStr.join "/"
    (List.map (fun c => if String.eqb c "annotations"
                        then "annotations_yolo" else c) dirs ++ file)%list.

End Waymo.

(** ** [torchkit/models/classifiers/resnet.py] *)

Module ResNet.

(** [torchvision.models.resnet.BasicBlock] and [Bottleneck], with their
    class attribute [expansion]. *)
Inductive Block := BasicBlock | Bottleneck.

Definition expansion (block : Block) : Z :=
  match block with BasicBlock => 1 | Bottleneck => 4 end.

Inductive NormLayer := BatchNorm2d | CustomNorm (name : string).

(** A configuration dictionary with the seven keys [__init__] reads. *)
Record CfgDict := {
  block : Block;
  layers : list Z;
  zero_init_residual : bool;
  groups : Z;
  width_per_group : Z;
  replace_stride_with_dilation : option (list bool);
  norm_layer : option NormLayer
}.

Definition predefined (block : Block) (layers : list Z) (groups : Z)
    (width_per_group : Z) : CfgDict :=
  {| block := block; layers := layers; zero_init_residual := false;
     groups := groups; width_per_group := width_per_group;
     replace_stride_with_dilation := None; norm_layer := None |}.

(** The module-level dictionary [cfgs]. *)
Definition cfgs : gmap string CfgDict :=
  list_to_map
    [ ("resnet18", predefined BasicBlock [2; 2; 2; 2] 1 64);
      ("resnet34", predefined BasicBlock [3; 4; 6; 3] 1 64);
      ("resnet50", predefined Bottleneck [3; 4; 6; 3] 1 64);
      ("resnet101", predefined Bottleneck [3; 4; 23; 3] 1 64);
      ("resnet152", predefined Bottleneck [3; 8; 36; 3] 1 64);
      ("resnext50_32x4d", predefined Bottleneck [3; 4; 6; 3] 32 4);
      ("resnext101_32x8d", predefined Bottleneck [3; 4; 23; 3] 32 8);
      ("wide_resnet50_2", predefined Bottleneck [3; 4; 6; 3] 1 (64 * 2));
      ("wide_resnet101_2", predefined Bottleneck [3; 4; 23; 3] 1 (64 * 2)) ].

(** The names of the predefined configurations, as the specification lists
    them. *)
Definition predefined_names : list string :=
  ["resnet18"; "resnet34"; "resnet50"; "resnet101"; "resnet152";
   "resnext50_32x4d"; "resnext101_32x8d"; "wide_resnet50_2";
   "wide_resnet101_2"].

(** The [cfg] argument: [Union[str, list, dict]]. *)
Inductive Cfg :=
| cfg_str (s : string)
| cfg_list (l : list CfgDict)
| cfg_dict (d : CfgDict).

(** The [pretrained] argument: [Union[bool, str, dict]]. *)
Inductive Pretrained :=
| pretrained_bool (b : bool)
| pretrained_str (s : string)
| pretrained_dict (d : gmap string string).

(** Python truthiness: [False], the empty string and the empty dictionary
    are falsy. *)
Definition truthy (p : Pretrained) : bool :=
  match p with
  | pretrained_bool b => b
  | pretrained_str s => negb (String.eqb s "")
  | pretrained_dict d => negb (bool_decide (d = ∅))
  end.

(** What [ImageClassifier.__init__] leaves in the attributes [__init__]
    reads afterwards, as functions of the arguments it is given. *)
Class ImageClassifier := {
  stored_pretrained : Pretrained -> Pretrained;
  stored_num_classes : option Z -> option Z
}.

(** [conv1x1(in_planes, out_planes, stride)] followed by
    [norm_layer(out_planes)]. *)
Record Downsample := {
  ds_in_planes : Z; ds_out_planes : Z; ds_stride : Z; ds_norm : NormLayer
}.

(** A block, by the arguments of the call [block(...)] that built it.  The
    call is recorded, not run: what torchvision's constructors do with the
    arguments is outside this file ([BasicBlock] raises [ValueError] unless
    [groups = 1] and [base_width = 64], and [NotImplementedError] for a
    dilation above 1), so a model construction that returns describes the
    constructor as far as these calls return. *)
Record BlockCall := {
  b_class : Block;
  b_inplanes : Z;
  b_planes : Z;
  b_stride : Z;
  b_downsample : option Downsample;
  b_groups : Z;
  b_base_width : Z;
  b_dilation : Z;
  b_norm_layer : NormLayer
}.

Inductive Classifier := Linear (in_features out_features : Z) | Identity.

(** The two weight-setup methods, as calls. *)
Inductive WeightSetup :=
| load_pretrained
| initialize_weights (zero_init_residual : bool).

Inductive Exc :=
| AssertionError
| ValueError
| IndexError.

#[export] Instance Exc_bind : MBind (sum Exc) :=
  fun A B k m => match m with inl e => inl e | inr a => k a end.

(** The attributes of [self] that [make_layer] reads and writes. *)
Record Self := {
  _norm_layer : NormLayer;
  inplanes : Z;
  dilation : Z;
  self_groups : Z;
  base_width : Z
}.

(** [ResNet.make_layer(block, planes, blocks, stride=1, dilate=False)]. *)
Definition make_layer (self : Self) (block : Block) (planes blocks : Z)
    (stride : Z) (dilate : bool) : list BlockCall * Self :=
  let norm_layer := _norm_layer self in
  let previous_dilation := dilation self in
  let '(self_dilation, stride) :=
    if dilate then (dilation self * stride, 1) else (dilation self, stride) in
  let downsample :=
    if negb (stride =? 1) || negb (inplanes self =? planes * expansion block)
    then Some {| ds_in_planes := inplanes self;
                 ds_out_planes := planes * expansion block;
                 ds_stride := stride;
                 ds_norm := norm_layer |}
    else None in
  let first :=
    {| b_class := block; b_inplanes := inplanes self; b_planes := planes;
       b_stride := stride; b_downsample := downsample;
       b_groups := self_groups self; b_base_width := base_width self;
       b_dilation := previous_dilation; b_norm_layer := norm_layer |} in
  let self_inplanes := planes * expansion block in
  let other :=
    {| b_class := block; b_inplanes := self_inplanes; b_planes := planes;
       b_stride := 1; b_downsample := None;
       b_groups := self_groups self; b_base_width := base_width self;
       b_dilation := self_dilation; b_norm_layer := norm_layer |} in
  (* for _ in range(1, blocks) *)
  (first :: List.repeat other (Z.to_nat (blocks - 1)),
   {| _norm_layer := norm_layer; inplanes := self_inplanes;
      dilation := self_dilation; self_groups := self_groups self;
      base_width := base_width self |}).

(** [ResNet.create_classifier(block, num_classes)]. *)
Definition create_classifier (block : Block) (num_classes : option Z)
    : Classifier :=
  match num_classes with
  | Some n => if negb (n =? 0) && (0 <? n)
              then Linear (512 * expansion block) n else Identity
  | None => Identity
  end.

(** The object [ResNet.__init__] leaves behind. *)
Record ResNetObj := {
  cfg : CfgDict;
  pretrained : Pretrained;
  num_classes : option Z;
  layer1 : list BlockCall;
  layer2 : list BlockCall;
  layer3 : list BlockCall;
  layer4 : list BlockCall;
  fc : Classifier;
  (** The weight-setup methods [__init__] has called, in order. *)
  weight_setup : list WeightSetup
}.

Definition index {A} (l : list A) (i : nat) : Exc + A :=
  match l !! i with Some x => inr x | None => inl IndexError end.

(** [if isinstance(cfg, str) and cfg in cfgs: cfg = cfgs[cfg]]. *)
Definition resolve (cfg : Cfg) : Cfg :=
  match cfg with
  | cfg_str s => match cfgs !! s with Some d => cfg_dict d | None => cfg end
  | _ => cfg
  end.

(** [assert isinstance(cfg, dict)]. *)
Definition assert_dict (cfg : Cfg) : Exc + CfgDict :=
  match cfg with cfg_dict d => inr d | _ => inl AssertionError end.

Section Init.
Context `{base : ImageClassifier}.

(** [ResNet.__init__(cfg, name, num_classes, out_indexes, pretrained)]. *)
Definition ResNet_init (cfg : Cfg) (name : option string)
    (num_classes : option Z) (out_indexes : Z) (pretrained : Pretrained)
    : Exc + ResNetObj :=
  let self_pretrained := stored_pretrained pretrained in
  let self_num_classes := stored_num_classes num_classes in
  (* NOTE: Get Hyperparameters *)
  let cfg := resolve cfg in
  cfg ← assert_dict cfg;
  let norm_layer := default BatchNorm2d (norm_layer cfg) in
  let replace_stride_with_dilation :=
    default [false; false; false] (replace_stride_with_dilation cfg) in
  if negb (List.length replace_stride_with_dilation =? 3)%nat
  then inl ValueError
  else
    let self := {| _norm_layer := norm_layer; inplanes := 64; dilation := 1;
                   self_groups := groups cfg;
                   base_width := width_per_group cfg |} in
    (* NOTE: Features *)
    n1 ← index (layers cfg) 0;
    let '(layer1, self) := make_layer self (block cfg) 64 n1 1 false in
    n2 ← index (layers cfg) 1;
    d0 ← index replace_stride_with_dilation 0;
    let '(layer2, self) := make_layer self (block cfg) 128 n2 2 d0 in
    n3 ← index (layers cfg) 2;
    d1 ← index replace_stride_with_dilation 1;
    let '(layer3, self) := make_layer self (block cfg) 256 n3 2 d1 in
    n4 ← index (layers cfg) 3;
    d2 ← index replace_stride_with_dilation 2;
    let '(layer4, self) := make_layer self (block cfg) 512 n4 2 d2 in
    (* NOTE: Head (Pool + Classifier layer) *)
    let fc := create_classifier (block cfg) self_num_classes in
    (* NOTE: Load Pretrained *)
    let calls :=
      if truthy self_pretrained then [load_pretrained]
      else [initialize_weights (zero_init_residual cfg)] in
    inr {| cfg := cfg; pretrained := self_pretrained;
           num_classes := self_num_classes;
           layer1 := layer1; layer2 := layer2; layer3 := layer3;
           layer4 := layer4; fc := fc; weight_setup := calls |}.

End Init.

(** *** The classes of the module *)

Inductive Class :=
| ResNet | ResNet18 | ResNet34 | ResNet50 | ResNet101 | ResNet152
| ResNeXt50_32X4D | ResNeXt101_32X8D | WideResNet50_2 | WideResNet101_2.

#[export] Instance Class_eq_dec : EqDecision Class.
Proof. solve_decision. Defined.

(** The default of the [name] parameter of each class's [__init__]. *)
Definition variant_name (c : Class) : string :=
  match c with
  | ResNet => "resnet"
  | ResNet18 => "resnet18"
  | ResNet34 => "resnet34"
  | ResNet50 => "resnet50"
  | ResNet101 => "resnet101"
  | ResNet152 => "resnet152"
  | ResNeXt50_32X4D => "resnext50_32x4d"
  | ResNeXt101_32X8D => "resnext101_32x8d"
  | WideResNet50_2 => "wide_resnet50_2"
  | WideResNet101_2 => "wide_resnet101_2"
  end.

(** The [cfg] each subclass passes to [super().__init__]; the base class
    takes it from its caller. *)
Definition subclass_cfg (c : Class) : option string :=
  match c with
  | ResNet => None
  | ResNet18 => Some "resnet18"
  | ResNet34 => Some "resnet34"
  | ResNet50 => Some "resnet50"
  | ResNet101 => Some "resnet101"
  | ResNet152 => Some "resnet152"
  | ResNeXt50_32X4D => Some "resnext50_32x4d"
  | ResNeXt101_32X8D => Some "resnext101_32x8d"
  | WideResNet50_2 => Some "wide_resnet50_2"
  | WideResNet101_2 => Some "wide_resnet101_2"
  end.

(** Constructing an instance of a class of the family: the base class with
    the [cfg] of the caller, a subclass with its own. *)
Definition construct `{ImageClassifier} (c : Class) (cfg : Cfg)
    (name : option string) (num_classes : option Z) (out_indexes : Z)
    (pretrained : Pretrained) : Exc + ResNetObj :=
  match subclass_cfg c with
  | None => ResNet_init cfg name num_classes out_indexes pretrained
  | Some s => ResNet_init (cfg_str s) name num_classes out_indexes pretrained
  end.

(** *** Registration *)

Record Registries := {
  BACKBONES : gmap string Class;
  CLASSIFIERS : gmap string Class;
  MODELS : gmap string Class
}.

(** Modelled from the spec: [Registry.register(name=...)] of
    [torchkit.models.builder], which is not among the sources.  The
    registries serve the dynamic lookup of a class by its name: registering
    binds the name to the class, and the decorator returns the class. *)
Definition register (name : string) (cls : Class)
    (registry : gmap string Class) : gmap string Class :=
  <[name := cls]> registry.

(** A decorated class statement: the class and the [name] given to each of
    its three decorators, top to bottom. *)
Record ClassStmt := {
  cls : Class;
  backbones_name : string;
  classifiers_name : string;
  models_name : string
}.

Definition class_stmts : list ClassStmt :=
  [ {| cls := ResNet; backbones_name := "resnet";
       classifiers_name := "resnet"; models_name := "resnet" |};
    {| cls := ResNet18; backbones_name := "resnet18";
       classifiers_name := "resnet18"; models_name := "resnet18" |};
    {| cls := ResNet34; backbones_name := "resnet34";
       classifiers_name := "resnet34"; models_name := "resnet34" |};
    {| cls := ResNet50; backbones_name := "resnet50";
       classifiers_name := "resnet50"; models_name := "resnet50" |};
    {| cls := ResNet101; backbones_name := "resnet101";
       classifiers_name := "resnet101"; models_name := "resnet101" |};
    {| cls := ResNet152; backbones_name := "resnet152";
       classifiers_name := "resnet152"; models_name := "resnet152" |};
    {| cls := ResNeXt50_32X4D; backbones_name := "resnext50_32x4d";
       classifiers_name := "resnext50_32x4d";
       models_name := "resnext50_32x4d" |};
    {| cls := ResNeXt101_32X8D; backbones_name := "resnext101_32x8d";
       classifiers_name := "resnext101_32x8d";
       models_name := "resnext101_32x8d" |};
    {| cls := WideResNet50_2; backbones_name := "wide_resnet50_2";
       classifiers_name := "wide_resnet50_2";
       models_name := "wide_resnet50_2" |};
    {| cls := WideResNet101_2; backbones_name := "wide_resnet101_2";
       classifiers_name := "wide_resnet101_2";
       models_name := "wide_resnet101_2" |} ].

(** Decorators apply bottom-up: [MODELS], then [CLASSIFIERS], then
    [BACKBONES]. *)
Definition exec_class_stmt (r : Registries) (s : ClassStmt) : Registries :=
  let models := register (models_name s) (cls s) (MODELS r) in
  let classifiers := register (classifiers_name s) (cls s) (CLASSIFIERS r) in
  let backbones := register (backbones_name s) (cls s) (BACKBONES r) in
  {| BACKBONES := backbones; CLASSIFIERS := classifiers; MODELS := models |}.

(** Importing the module runs its class statements in order. *)
Definition import_module (r : Registries) : Registries :=
  fold_left exec_class_stmt class_stmts r.

End ResNet.

(** ** Small instances of the interfaces, to run the code on *)

Module Instances.
Import PyStr.

(** Labels whose numbers are integers: a number is a [Z], written in
    decimal, and the normalisation divides centre and size by the width
    and the height of the image. *)
Definition digit_of (a : ascii) : option Z :=
  let n := nat_of_ascii a in
  if ((48 <=? n) && (n <=? 57))%nat then Some (Z.of_nat n - 48) else None.

Fixpoint digits_value (s : string) (acc : Z) : option Z :=
  match s with
  | EmptyString => Some acc
  | String a s' => d ← digit_of a; digits_value s' (10 * acc + d)
  end.

Definition integer_of_str (s : string) : option Z :=
  match s with
  | EmptyString => None
  | String "-" (String a s' as ds) => Z.opp <$> digits_value ds 0
  | _ => digits_value s 0
  end.

Definition divide_box (cxcywh : list Z) (height width : Z)
    : option (list Z) :=
  match cxcywh with
  | [cx; cy; w; h] =>
      if (height =? 0) || (width =? 0) then None
      else Some [cx / width; cy / height; w / width; h / height]
  | _ => None
  end.

#[export] Instance integral : Waymo.Numeric := {|
  Waymo.F32 := Z;
  Waymo.float32_of_str := integer_of_str;
  Waymo.int_of_float32 := Some;
  Waymo.format_float32 x := pretty x ++ ".0";
  Waymo.Dim := Z;
  Waymo.image_shape0 p :=
    if endswith p ".jpeg" then Some [1280; 1920; 3] else None;
  Waymo.bbox_cxcywh_cxcywh_norm := divide_box;
  Waymo.can_open_w _ _ := true
|}.

(** Two annotation lines, and the files of a dataset that holds them under
    a given path. *)
Definition sample_annotations : string :=
  "0 1 3840 2560 1920 1280 7" ++ String Waymo.LF "0 2 1920 1280 3840 2560 9".

Definition sample_files (path : string) : gmap string string :=
  {[ path := sample_annotations ]}.

(** A base class that stores its arguments unchanged. *)
#[export] Instance plain_base : ResNet.ImageClassifier := {|
  ResNet.stored_pretrained p := p;
  ResNet.stored_num_classes n := n
|}.

(** An engine whose tensors are integers and whose layers add a constant
    that depends on the kind of the layer. *)
#[export] Instance counting_torch : Mlp.Torch := {|
  Mlp.Tensor := Z;
  Mlp.Engine := nat;
  Mlp.Float := Z;
  Mlp.ActCls := unit;
  Mlp.nn_GELU := tt;
  Mlp.to_2tuple p := (p, p)
|}.

#[export] Instance counting_call : Mlp.TorchCall := {|
  Mlp.call _ layer x e :=
    (match layer with
     | Mlp.nn_Linear i o => x * i + o
     | Mlp.nn_Dropout p => x - p
     | Mlp.act_instance _ => Z.abs x
     end, S e)
|}.

End Instances.


(** ** [torchkit/core/fileio/filedir.py]: the other helpers *)

Module FiledirRest.
Import PyStr Filedir.

(** File metadata.  [Time] stands for the floats [os.path.getctime]
    returns and [time_gt] for their [>]. *)
Class OsStat `{Os} := {
  Time : Type;
  time_gt : Time -> Time -> bool;
  os_path_getctime : FS -> string -> Exn + Time;
  os_path_getsize : FS -> string -> Exn + Z
}.

(** The [TypeError] the interpreter raises for [name in None]. *)
Class PyErrors `{Os} := { TypeError : Exn }.

(** [os.path.basename(p)]: what follows the last slash. *)
Definition basename (p : string) : string :=
  let i := rfind p "/" + 1 in
  drop (Z.to_nat i) p.

(** [get_stem(path)]. *)
Definition get_stem (path : string) : string :=
  let basename := basename path in
  let '(stem, _) := PosixPath.splitext basename in
  stem.

Section Rest.
Context `{os : Os}.
Local Open Scope py_scope.

(** A call that reads the file system and can raise. *)
Definition query {A} (q : FS -> Exn + A) : M A :=
  fun w => match q (fs w) with
           | inr a => (w, inr a)
           | inl e => (w, inl (PyExn e))
           end.

(** [has_subdir(path, name)]: [name in subdirs], which is a [TypeError] when
    [list_subdirs] has returned [None]. *)
Definition has_subdir `{!PyErrors} (path : option string) (name : string)
    : M bool :=
  do subdirs <- list_subdirs path;
  match subdirs with
  | Some subdirs => ret (bool_decide (name ∈ subdirs))
  | None => raise (PyExn TypeError)
  end.

(** [max(rest, key=os.path.getctime)] once a first candidate is known: a
    later element wins only with a strictly greater key. *)
Fixpoint max_by_ctime `{!OsStat} (rest : list string) (best : string)
    (best_key : Time) : M string :=
  match rest with
  | [] => ret best
  | f :: rest' =>
      do key <- query (fun fs => os_path_getctime fs f);
      if time_gt key best_key then max_by_ctime rest' f key
      else max_by_ctime rest' best best_key
  end.

(** [get_latest_file(path, recursive=True)]. *)
Definition get_latest_file `{!OsStat} (path : string) (recursive : bool)
    : M (option string) :=
  do file_list <- glob path recursive;
  match file_list with
  | f :: rest =>
      (* len(file_list) > 0 *)
      do key <- query (fun fs => os_path_getctime fs f);
      do latest <- max_by_ctime rest f key;
      ret (Some latest)
  | [] => ret None
  end.

(** [sum(os.path.getsize(f) for f in files if os.path.isfile(f))] from the
    partial sum [acc]. *)
Fixpoint get_hash_sum `{!OsStat} (files : list string) (acc : Z) : M Z :=
  match files with
  | [] => ret acc
  | f :: files' =>
      do isfile <- ask (fun fs => os_path_isfile fs f);
      if isfile then
        do size <- query (fun fs => os_path_getsize fs f);
        get_hash_sum files' (acc + size)
      else get_hash_sum files' acc
  end.

(** [get_hash(files)]. *)
Definition get_hash `{!OsStat} (files : list string) : M Z :=
  get_hash_sum files 0.

(** [list_files(patterns)], from the [image_paths] gathered so far. *)
Fixpoint list_files_loop (patterns : list string) (image_paths : list string)
    : M (list string) :=
  match patterns with
  | [] => ret image_paths
  | pattern :: patterns' =>
      do absolute_paths <- glob pattern false;
      do found <- ask (fun fs => List.filter (os_path_isfile fs) absolute_paths);
      list_files_loop patterns' (image_paths ++ found)%list
  end.

Definition list_files (patterns : list string) : M (list string) :=
  list_files_loop patterns [].

(** [delete_files_matching(patterns)]. *)
Definition delete_files_matching (patterns : list string) : M unit :=
  for_each patterns (fun pattern =>
    do files <- glob pattern false;
    for_each files (fun f => act (fun fs => os_remove fs f))).

End Rest.

End FiledirRest.


(** File metadata for the in-memory file system: a path is as old as its
    place in the list, a regular file is as large as its name is long. *)
Module MemStat.

Fixpoint position (fs : MemFs.Files) (p : string) (i : Z) : option Z :=
  match fs with
  | [] => None
  | (q, _) :: fs' => if String.eqb q p then Some i else position fs' p (i + 1)
  end.

Definition getctime (fs : MemFs.Files) (p : string) : MemFs.OSError + Z :=
  match position fs p 0 with
  | Some i => inr i
  | None => inl (MemFs.FileNotFoundError p)
  end.

Definition getsize (fs : MemFs.Files) (p : string) : MemFs.OSError + Z :=
  match MemFs.lookup fs p with
  | Some MemFs.RegularFile => inr (Z.of_nat (String.length p))
  | Some MemFs.Directory => inr 4096
  | None => inl (MemFs.FileNotFoundError p)
  end.

#[export] Instance stat : FiledirRest.OsStat (H := MemFs.os) :=
  FiledirRest.Build_OsStat MemFs.os Z (fun a b => b <? a) getctime getsize.

End MemStat.


(** ** Channel counts along a sequence of blocks *)

Module ResNetShapes.
Import ResNet.

(** The channels a block gives: [planes * block.expansion]. *)
Definition out_planes (b : BlockCall) : Z := b_planes b * expansion (b_class b).

(** Every block of [bs] takes the channels the block before it gives, the
    first one taking [cin]. *)
Fixpoint channels_chain (cin : Z) (bs : list BlockCall) : Prop :=
  match bs with
  | [] => True
  | b :: bs' => b_inplanes b = cin /\ channels_chain (out_planes b) bs'
  end.

(** The channels that leave [bs] when [cin] enter. *)
Fixpoint channels_out (cin : Z) (bs : list BlockCall) : Z :=
  match bs with
  | [] => cin
  | b :: bs' => channels_out (out_planes b) bs'
  end.

(** All the blocks of a network, in the order [_forward_impl] runs them. *)
Definition all_blocks (obj : ResNetObj) : list BlockCall :=
  (layer1 obj ++ layer2 obj ++ layer3 obj ++ layer4 obj)%list.

End ResNetShapes.


(** ** [torchkit/core/layer/mlp.py]: the gated variants *)

Module MlpVariants.
Import Mlp.

(** Classes that can be passed as [gate_layer]. *)
Class Gates := { GateCls : Type }.

(** The constructor calls [__init__] makes: [nn.Linear(i, o)],
    [nn.Dropout(p)], [act_layer()] and [gate_layer(dim)].  A call returns
    the layer or raises; [raised_by] gives the exception, [None] when the
    call returns ([nn.Linear] raises [RuntimeError] for a negative width,
    [nn.Dropout] raises [ValueError] for a probability outside [0, 1]). *)
Class Constructors `{Torch} `{Gates} := {
  TorchError : Type;
  raised_by : Layer -> option TorchError;
  gate_raised_by : GateCls -> Z -> option TorchError
}.

Section Variants.
Context `{torch : Torch} `{gates : Gates} `{ctors : !Constructors}.

(** What ends [__init__] early: its own [assert], or the exception of a
    constructor call. *)
Inductive Exc := AssertionError | Raised (e : TorchError).

#[export] Instance Exc_mbind : MBind (sum Exc) :=
  fun A B k m => match m with inl e => inl e | inr a => k a end.

(** A constructor call of a layer. *)
Definition built (l : Layer) : Exc + Layer :=
  match raised_by l with Some e => inl (Raised e) | None => inr l end.

Record GluMlp := {
  glu_fc1 : Layer; glu_act : Layer; glu_drop1 : Layer;
  glu_fc2 : Layer; glu_drop2 : Layer
}.

(** [GluMlp.__init__(in_features, hidden_features=None, out_features=None,
    act_layer=nn.Sigmoid, drop=0.0)]. *)
Definition GluMlp_init (in_features : Z) (hidden_features : option Z)
    (out_features : option Z) (act_layer : ActCls) (drop : Float)
    : Exc + GluMlp :=
  let out_features := py_or out_features in_features in
  let hidden_features := py_or hidden_features in_features in
  (* assert hidden_features % 2 == 0 *)
  if negb (hidden_features mod 2 =? 0) then inl AssertionError
  else
    let drop_probs := to_2tuple drop in
    fc1 ← built (nn_Linear in_features hidden_features);
    act ← built (act_instance act_layer);
    drop1 ← built (nn_Dropout (fst drop_probs));
    fc2 ← built (nn_Linear (hidden_features / 2) out_features);
    drop2 ← built (nn_Dropout (snd drop_probs));
    inr {| glu_fc1 := fc1; glu_act := act; glu_drop1 := drop1;
           glu_fc2 := fc2; glu_drop2 := drop2 |}.

(** The gate of a [GatedMlp]: [gate_layer(hidden_features)] or
    [nn.Identity()]. *)
Inductive Gate :=
| gate_instance (cls : GateCls) (dim : Z)
| nn_Identity.

(** The call [gate_layer(dim)]. *)
Definition built_gate (cls : GateCls) (dim : Z) : Exc + Gate :=
  match gate_raised_by cls dim with
  | Some e => inl (Raised e)
  | None => inr (gate_instance cls dim)
  end.

Record GatedMlp := {
  gated_fc1 : Layer; gated_act : Layer; gated_drop1 : Layer;
  gated_gate : Gate; gated_fc2 : Layer; gated_drop2 : Layer
}.

(** [GatedMlp.__init__(in_features, hidden_features=None, out_features=None,
    act_layer=nn.GELU, gate_layer=None, drop=0.0)]: [fc1], [act] and
    [drop1] are built before the assertion on the hidden width is
    reached. *)
Definition GatedMlp_init (in_features : Z) (hidden_features : option Z)
    (out_features : option Z) (act_layer : ActCls)
    (gate_layer : option GateCls) (drop : Float) : Exc + GatedMlp :=
  let out_features := py_or out_features in_features in
  let hidden_features := py_or hidden_features in_features in
  let drop_probs := to_2tuple drop in
  fc1 ← built (nn_Linear in_features hidden_features);
  act ← built (act_instance act_layer);
  drop1 ← built (nn_Dropout (fst drop_probs));
  match gate_layer with
  | Some gate_layer =>
      (* assert hidden_features % 2 == 0 *)
      if negb (hidden_features mod 2 =? 0) then inl AssertionError
      else
        gate ← built_gate gate_layer hidden_features;
        let hidden_features := hidden_features / 2 in
        fc2 ← built (nn_Linear hidden_features out_features);
        drop2 ← built (nn_Dropout (snd drop_probs));
        inr {| gated_fc1 := fc1; gated_act := act; gated_drop1 := drop1;
               gated_gate := gate; gated_fc2 := fc2; gated_drop2 := drop2 |}
  | None =>
      let gate := nn_Identity in
      fc2 ← built (nn_Linear hidden_features out_features);
      drop2 ← built (nn_Dropout (snd drop_probs));
      inr {| gated_fc1 := fc1; gated_act := act; gated_drop1 := drop1;
             gated_gate := gate; gated_fc2 := fc2; gated_drop2 := drop2 |}
  end.

End Variants.

End MlpVariants.


(** Constructors for the counting engine: [nn.Linear] refuses a negative
    width, [nn.Dropout] a probability outside [0, 1]. *)
Module MlpInstances.

Inductive TorchError := RuntimeError | ValueError.

#[export] Instance gates : MlpVariants.Gates :=
  MlpVariants.Build_Gates unit.

#[export] Instance ctors
  : MlpVariants.Constructors (H := Instances.counting_torch) (H0 := gates) :=
  MlpVariants.Build_Constructors Instances.counting_torch gates TorchError
    (fun l => match l with
              | Mlp.nn_Linear i o =>
                  if (i <? 0) || (o <? 0) then Some RuntimeError else None
              | Mlp.nn_Dropout p =>
                  if (p <? 0) || (1 <? p) then Some ValueError else None
              | Mlp.act_instance _ => None
              end)
    (fun _ _ => None).

End MlpInstances.


(** * The code on small inputs *)

Module Runs.
Import PyStr.

Example splitext_runs :
  List.map PosixPath.splitext ["a.txt"; ".bashrc"; "a/b.c/d"; "a.b.c"; "a."; "..."]
  = [("a", ".txt"); (".bashrc", ""); ("a/b.c/d", ""); ("a.b", ".c");
     ("a", "."); ("...", "")].
Proof. reflexivity. Qed.

Example parent_runs :
  List.map (fun p => PosixPath.to_str (PosixPath.parent (PosixPath.parse p)))
    ["a"; ""; "./a"; "a/b"; "/"; "/a"; "//a"; "a.txt"]
  = ["."; "."; "."; "a"; "/"; "/"; "//"; "."].
Proof. reflexivity. Qed.

Example name_runs :
  List.map (fun p => PosixPath.name (PosixPath.parse p))
    ["a"; ""; "./a"; "a/b"; "/"; "/a"]
  = ["a"; ""; "a"; "b"; ""; "a"].
Proof. reflexivity. Qed.

Example replace_runs :
  replace "aaaa" "aa" "b" = "bb" /\
  replace "abc" "" "-" = "-a-b-c-" /\
  replace "d/annotations/x.txt" "annotations" "images" = "d/images/x.txt".
Proof. repeat split; reflexivity. Qed.

Example is_basename_runs :
  List.map Filedir.is_basename [Some "a.txt"; Some "a"; Some "x/a.txt"; Some ".bashrc"; None]
  = [true; false; false; false; false].
Proof. reflexivity. Qed.

Example is_stem_runs :
  List.map Filedir.is_stem [Some "a.txt"; Some "a"; Some "x/a.txt"; Some ".bashrc"; None]
  = [false; true; false; true; false].
Proof. reflexivity. Qed.

(** With the default extension only the name that ends in a dot goes. *)
Example delete_files_default_run :
  Filedir.delete_files (os := MemFs.os) ["d"]
    Filedir.delete_files_default_extension
    Filedir.delete_files_default_recursive
    (MemFs.world [("d", MemFs.Directory); ("d/a.txt", MemFs.RegularFile);
                  ("d/b.", MemFs.RegularFile)])
  = (@Filedir.Build_World MemFs.os
       [("d", MemFs.Directory); ("d/a.txt", MemFs.RegularFile)]
       [] [("d/*.", true)],
     inr tt).
Proof. reflexivity. Qed.

(** A directory that exists is removed and made again when [recreate] is
    set. *)
Example create_dirs_recreate_run :
  Filedir.create_dirs (os := MemFs.os) ["a"; "b"; "a"] true
    (MemFs.world [("a", MemFs.Directory); ("a/x", MemFs.RegularFile)])
  = (@Filedir.Build_World MemFs.os
       [("a", MemFs.Directory); ("b", MemFs.Directory)] [] [],
     inr 0).
Proof. reflexivity. Qed.

Example splitlines_runs :
  Waymo.splitlines ("a" ++ String Waymo.CR (String Waymo.LF "b")
                    ++ String Waymo.LF (String Waymo.LF "c"))
  = ["a"; "b"; ""; "c"] /\
  Waymo.splitlines (String Waymo.LF "") = [""] /\
  Waymo.splitlines "" = [].
Proof. repeat split; reflexivity. Qed.

Example split_ws_run : split_ws "  1 2.5  3 " = ["1"; "2.5"; "3"].
Proof. reflexivity. Qed.

Example mlp_forward_run :
  Mlp.forward (tc := Instances.counting_call)
    (Mlp.Mlp_init (H := Instances.counting_torch) 3 None (Some 5) tt 1) 2 O
  = (28, 5%nat).
Proof. reflexivity. Qed.

End Runs.

(** * Properties of the file helpers *)

Module FiledirFacts.
Import PyStr Filedir.

(** ** Strings *)

Lemma prefix_app (p s : string) : String.prefix p (p ++ s) = true.
Proof.
  induction p as [|a p IH]; simpl; [by destruct s|].
  destruct (ascii_dec a a); [exact IH | congruence].
Qed.

Lemma prefix_split (p s : string) :
  String.prefix p s = true -> exists post, s = p ++ post.
Proof.
  revert s; induction p as [|a p IH]; intros s; simpl.
  - by exists s.
  - destruct s as [|b s]; simpl; [done|].
    destruct (ascii_dec a b) as [->|]; [|done].
    intros H. destruct (IH _ H) as [post ->]. by exists post.
Qed.

Lemma app_assoc_str (a b c : string) : (a ++ b) ++ c = a ++ (b ++ c).
Proof. induction a as [|x a IH]; simpl; [done | by f_equal]. Qed.

Lemma app_empty_r (a : string) : a ++ "" = a.
Proof. induction a as [|x a IH]; simpl; [done | by f_equal]. Qed.

(** [sub in s] says that [s] has an occurrence of [sub]. *)
Lemma contains_iff (sub s : string) :
  contains sub s = true <-> exists pre post, s = pre ++ sub ++ post.
Proof.
  split.
  - induction s as [|a s IH]; cbn [contains]; intros H.
    + rewrite orb_false_r in H. destruct (prefix_split _ _ H) as [post E].
      by exists "", post.
    + apply orb_true_iff in H as [H|H].
      * destruct (prefix_split _ _ H) as [post E]. by exists "", post.
      * destruct (IH H) as (pre & post & ->). by exists (String a pre), post.
  - intros (pre & post & ->). induction pre as [|a pre IH].
    + change ("" ++ sub ++ post) with (sub ++ post).
      destruct (sub ++ post) eqn:E; cbn [contains]; rewrite <- E, prefix_app; done.
    + change (String a pre ++ sub ++ post) with (String a (pre ++ sub ++ post)).
      cbn [contains]. rewrite IH. apply orb_true_r.
Qed.

(** ** The monad *)

Section Monad.
Context `{os : Os}.

Lemma removal_keeps_globbed (files : list string) (w : World) :
  globbed (for_each files (fun f => act (fun fs => os_remove fs f)) w).1
  = globbed w.
Proof.
  revert w; induction files as [|f files IH]; intros w; simpl; [done|].
  unfold bind, act. destruct (os_remove (fs w) f); simpl; [done|].
  by rewrite IH.
Qed.

(** The calls to [glob] a run of the loop adds: one per visited directory
    that exists when it is visited, with the pattern of that directory. *)
Lemma delete_files_loop_globbed (ds : list string) (extension : string)
    (recursive : bool) (w : World) :
  exists visited,
    sublist visited ds /\
    globbed (delete_files_loop ds extension recursive w).1
    = (globbed w
       ++ List.map (fun d => (delete_pattern d extension, recursive)) visited)%list.
Proof.
  revert w; induction ds as [|d ds IH]; intros w.
  - exists []. split; [constructor|]. simpl. by rewrite app_nil_r.
  - unfold delete_files_loop. cbn [for_each]. unfold bind at 1.
    unfold bind at 1. unfold ask at 1.
    destruct (os_path_exists (fs w) d) eqn:Hex.
    + unfold bind at 1. unfold glob at 1.
      set (w1 := {| fs := fs w; logged := logged w;
                    globbed := globbed w ++ [(delete_pattern d extension, recursive)] |}).
      pose proof (removal_keeps_globbed
                    (glob_glob (fs w) (delete_pattern d extension) recursive) w1) as Hk.
      destruct (for_each _ _ w1) as [w2 [u|[]]] eqn:Hrm; simpl in Hk.
      * exists [d]. split; [apply sublist_skips_r || (constructor; apply sublist_nil_l)|].
        simpl. by rewrite Hk.
      * destruct (IH w2) as (vs & Hsub & Hg). exists (d :: vs).
        split; [by constructor|].
        unfold delete_files_loop in Hg. rewrite Hg, Hk. simpl.
        by rewrite <- app_assoc.
    + unfold ret at 1. destruct (IH w) as (vs & Hsub & Hg).
      exists vs. split; [by constructor|]. exact Hg.
Qed.

(** A loop over [xs ++ ys] is the loop over [xs] followed by the loop over
    [ys]. *)
Lemma for_each_app {A} (xs ys : list A) (body : A -> M unit) (w : World) :
  for_each (xs ++ ys) body w
  = bind (for_each xs body) (fun _ => for_each ys body) w.
Proof.
  revert w; induction xs as [|x xs IH]; intros w; [done|].
  cbn [app for_each]. unfold bind.
  destruct (body x w) as [w' [u|[]]]; [done|].
  rewrite IH. reflexivity.
Qed.

(** When the loop reaches a directory, it globs the pattern of that
    directory exactly if the directory exists at that moment. *)
Lemma delete_files_loop_reaches (d : string) (post : list string)
    (extension : string) (recursive : bool) (w1 : World) :
  exists after,
    sublist after post /\
    globbed (delete_files_loop (d :: post) extension recursive w1).1
    = (globbed w1
       ++ (if os_path_exists (fs w1) d
           then [(delete_pattern d extension, recursive)] else [])
       ++ List.map (fun d' => (delete_pattern d' extension, recursive))
            after)%list.
Proof.
  unfold delete_files_loop. cbn [for_each]. unfold bind at 1.
  unfold bind at 1. unfold ask at 1.
  destruct (os_path_exists (fs w1) d) eqn:Hex.
  - unfold bind at 1. unfold glob at 1.
    set (w2 := {| fs := fs w1; logged := logged w1;
                  globbed := globbed w1
                             ++ [(delete_pattern d extension, recursive)] |}).
    pose proof (removal_keeps_globbed
                  (glob_glob (fs w1) (delete_pattern d extension) recursive)
                  w2) as Hk.
    destruct (for_each _ _ w2) as [w3 [u|[]]] eqn:Hrm; simpl in Hk.
    + exists []. split; [apply sublist_nil_l|].
      simpl. by rewrite Hk.
    + destruct (delete_files_loop_globbed post extension recursive w3)
        as (vs & Hsub & Hg).
      exists vs. split; [done|].
      unfold delete_files_loop in Hg. rewrite Hg, Hk. simpl.
      by rewrite <- app_assoc.
  - unfold ret at 1.
    destruct (delete_files_loop_globbed post extension recursive w1)
      as (vs & Hsub & Hg).
    exists vs. split; [done|]. exact Hg.
Qed.

Lemma when_act_keeps_logged (c : bool) (op : FS -> Exn + FS) (w : World) :
  logged (when c (act op) w).1 = logged w.
Proof.
  destruct c; simpl; [|done]. unfold act. by destruct (op (fs w)).
Qed.

(** The loop of [create_dirs] does not log. *)
Lemma create_dirs_body_keeps_logged (ds : list string) (recreate : bool)
    (w : World) :
  logged (create_dirs_body ds recreate w).1 = logged w.
Proof.
  unfold create_dirs_body. unfold bind at 1.
  assert (forall w, logged (for_each ds (fun d =>
            bind (ask (fun fs => os_path_exists fs d)) (fun e =>
            bind (when (e && recreate) (act (fun fs => shutil_rmtree fs d))) (fun _ =>
            bind (ask (fun fs => os_path_exists fs d)) (fun e' =>
            when (negb e') (act (fun fs => os_makedirs fs d)))))) w).1
          = logged w) as Hloop.
  { induction ds as [|d ds IH]; intros w0; simpl; [done|].
    unfold bind at 1. unfold bind at 1. unfold ask at 1.
    unfold bind at 1.
    pose proof (when_act_keeps_logged (os_path_exists (fs w0) d && recreate)
                  (fun fs => shutil_rmtree fs d) w0) as H1.
    destruct (when _ _ w0) as [w1 [u|[]]]; simpl in H1; [done|].
    unfold bind at 1. unfold ask at 1.
    pose proof (when_act_keeps_logged (negb (os_path_exists (fs w1) d))
                  (fun fs => os_makedirs fs d) w1) as H2.
    destruct (when _ _ w1) as [w2 [u|[]]]; simpl in H2; [simpl; congruence|].
    rewrite IH. congruence. }
  specialize (Hloop w).
  destruct (for_each _ _ w) as [w1 [u|[]]]; simpl in *; done.
Qed.

End Monad.

(** ** Patterns *)

Lemma wild_star_dot (name : string) :
  Glob.wild [Glob.TStar; Glob.TLit "."] name = true
  <-> exists pre, name = pre ++ ".".
Proof.
  induction name as [|a name IH].
  - simpl. split; [done|]. intros [pre H]. by destruct pre.
  - change (Glob.wild [Glob.TStar; Glob.TLit "."] (String a name))
      with (Glob.wild [Glob.TLit "."] (String a name)
            || Glob.wild [Glob.TStar; Glob.TLit "."] name).
    rewrite orb_true_iff, IH. cbn [Glob.wild]. split.
    + intros [H|[pre ->]].
      * apply andb_true_iff in H as [Ha Hn].
        apply Ascii.eqb_eq in Ha as ->. apply String.eqb_eq in Hn as ->.
        by exists "".
      * by exists (String a pre).
    + intros [pre H]. destruct pre as [|b pre]; simpl in H.
      * injection H as -> ->. left. by rewrite Ascii.eqb_refl.
      * injection H as -> ->. right. by exists pre.
Qed.

End FiledirFacts.

(** ** The claims about [filedir.py] *)

Section FiledirClaims.
Import PyStr Filedir.
Context `{os : Os}.

(** C1, as amended.  When the loop of [create_dirs] raises an exception that
    is an instance of [Exception], the helper logs one record at level ERROR,
    [Cannot create directory: <err>.], and then calls [exit(-1)]: the call
    ends with [SystemExit(-1)] instead of returning to its caller.  The file
    system is left as it was when the exception was raised (nothing is
    retried or undone), and nothing else is logged. *)
Theorem create_dirs_logs_then_exits (paths : list string) (recreate : bool)
    (w w' : World) (err : Exn)
    (Hraise : create_dirs_body (unique paths) recreate w = (w', inl (PyExn err)))
    (Hexc : is_Exception err = true) :
  create_dirs paths recreate w
  = ({| fs := fs w';
        logged := logged w ++ [{| levelname := ERROR;
                                  message := "Cannot create directory: "
                                             ++ exn_str err ++ "." |}];
        globbed := globbed w' |},
     inl (SystemExit (-1))).
Proof.
  pose proof (FiledirFacts.create_dirs_body_keeps_logged
                (unique paths) recreate w) as Hlog.
  unfold create_dirs, try_except_Exception.
  rewrite Hraise in *. rewrite Hexc. simpl in Hlog.
  unfold bind, logger_error, exit, raise. simpl. by rewrite Hlog.
Qed.

(** C8.  On [None] every path predicate answers [False] and [list_subdirs]
    returns [None]; none of them raises or touches the file system. *)
Theorem none_path_is_refused (files : FS) (w : World) :
  is_basename None = false /\
  is_ckpt_file files None = false /\
  is_json_file files None = false /\
  is_name None = false /\
  is_stem None = false /\
  is_torch_saved_file files None = false /\
  is_txt_file files None = false /\
  is_url None = false /\
  is_url_or_file files None = false /\
  is_weights_file files None = false /\
  is_xml_file files None = false /\
  is_yaml_file files None = false /\
  list_subdirs None w = (w, inr None).
Proof. repeat split. Qed.

(** C9.  [delete_files] puts a dot in front of [extension] exactly when
    [extension] has no dot in it.  Every call to [glob] it makes is for a
    directory [d] of [unique(dirpaths)], with the pattern
    [os.path.join(d, "*" + extension)] on the normalised extension and the
    [recursive] flag; and every directory of [unique(dirpaths)] the loop
    reaches is globbed with that pattern exactly if it exists at that
    moment.  With the default extension the pattern is
    [os.path.join(d, "*.")], which accepts a name only if it ends in a dot,
    and so not [a.txt]. *)
Theorem delete_files_extension_and_pattern :
  (forall extension : string,
     ((exists pre post, extension = pre ++ "." ++ post) ->
      normalize_extension extension = extension) /\
     (~ (exists pre post, extension = pre ++ "." ++ post) ->
      normalize_extension extension = "." ++ extension)) /\
  (forall (dirpaths : list string) (extension : string) (recursive : bool)
          (w : World),
     exists visited,
       sublist visited (unique dirpaths) /\
       globbed (delete_files dirpaths extension recursive w).1
       = (globbed w
          ++ List.map (fun d => (PosixPath.join d
                                   ("*" ++ normalize_extension extension),
                                 recursive)) visited)%list) /\
  (forall (dirpaths : list string) (extension : string) (recursive : bool)
          (w w1 : World) (pre : list string) (d : string)
          (post : list string),
     unique dirpaths = (pre ++ d :: post)%list ->
     delete_files_loop pre (normalize_extension extension) recursive w
     = (w1, inr tt) ->
     exists after,
       sublist after post /\
       globbed (delete_files dirpaths extension recursive w).1
       = (globbed w1
          ++ (if os_path_exists (fs w1) d
              then [(PosixPath.join d ("*" ++ normalize_extension extension),
                     recursive)]
              else [])
          ++ List.map (fun d' => (PosixPath.join d'
                                    ("*" ++ normalize_extension extension),
                                  recursive)) after)%list) /\
  (forall d : string,
     delete_pattern d (normalize_extension delete_files_default_extension)
     = PosixPath.join d "*.") /\
  (forall name : string,
     Glob.glob1_accepts "*." name = Some true <->
     (exists pre, name = pre ++ ".") /\ startswith name "." = false) /\
  Glob.glob1_accepts "*." "a.txt" = Some false.
Proof.
  split; [|split; [|split; [|split; [|split]]]].
  - intros extension. unfold normalize_extension.
    destruct (contains "." extension) eqn:Hc; cbn [negb].
    + split; [done|]. intros Hn. exfalso. apply Hn.
      by apply (FiledirFacts.contains_iff "." extension).
    + split; [|done]. intros Hd.
      apply (FiledirFacts.contains_iff "." extension) in Hd. congruence.
  - intros dirpaths extension recursive w. unfold delete_files.
    apply FiledirFacts.delete_files_loop_globbed.
  - intros dirpaths extension recursive w w1 pre d post Hu Hpre.
    unfold delete_files. rewrite Hu.
    assert (delete_files_loop (pre ++ d :: post)
              (normalize_extension extension) recursive w
            = delete_files_loop (d :: post)
                (normalize_extension extension) recursive w1) as ->.
    { unfold delete_files_loop in *.
      rewrite FiledirFacts.for_each_app. unfold bind at 1.
      by rewrite Hpre. }
    apply FiledirFacts.delete_files_loop_reaches.
  - done.
  - intros name.
    change (Glob.glob1_accepts "*." name)
      with (Some (negb (startswith name ".")
                  && Glob.wild [Glob.TStar; Glob.TLit "."] name)).
    rewrite <- FiledirFacts.wild_star_dot.
    destruct (startswith name "."), (Glob.wild _ name); simpl;
      split; intros H; try done; try (by destruct H); by injection H.
  - reflexivity.
Qed.

(** C10.  [is_basename] holds exactly when the parent of the path is ["."]
    and the extension is not empty, [is_stem] exactly when the parent is
    ["."] and the extension is empty; they never hold together. *)
Theorem is_basename_is_stem_exclusive (p : string) :
  let parent := PosixPath.to_str (PosixPath.parent (PosixPath.parse p)) in
  let ext := (PosixPath.splitext p).2 in
  (is_basename (Some p) = true <-> parent = "." /\ ext <> "") /\
  (is_stem (Some p) = true <-> parent = "." /\ ext = "") /\
  ~ (is_basename (Some p) = true /\ is_stem (Some p) = true).
Proof.
  intros parent ext. unfold is_basename, is_stem.
  fold parent. subst ext.
  destruct (String.eqb_spec parent ".") as [-> | Hne];
    destruct (PosixPath.splitext p) as [root ext]; simpl;
    destruct (String.eqb_spec ext "") as [-> | Hext]; simpl;
    repeat split; try done; try (intros [? ?]; done).
Qed.

End FiledirClaims.

(** C9 on the in-memory file system: of the directories [a] and [b] only
    [b] exists, and it is globbed with its pattern when the loop reaches
    it. *)
Lemma delete_files_extension_and_pattern_witness :
  Filedir.globbed
    (Filedir.delete_files (os := MemFs.os) ["a"; "b"; "a"] "txt" true
       (MemFs.world [("b", MemFs.Directory);
                     ("b/1.txt", MemFs.RegularFile)])).1
  = [("b/*.txt", true)].
Proof.
  destruct (proj1 (proj2 (proj2 (delete_files_extension_and_pattern
                                   (os := MemFs.os))))
              ["a"; "b"; "a"] "txt" true
              (MemFs.world [("b", MemFs.Directory);
                            ("b/1.txt", MemFs.RegularFile)])
              (MemFs.world [("b", MemFs.Directory);
                            ("b/1.txt", MemFs.RegularFile)])
              ["a"] "b" [] eq_refl eq_refl) as (after & Hsub & Hg).
  apply sublist_nil_r in Hsub. subst after. exact Hg.
Defined.

(** C1 on the in-memory file system: creating the directory with the empty
    name raises [FileNotFoundError], which is logged before the exit. *)
Lemma create_dirs_logs_then_exits_witness :
  Filedir.create_dirs [""] false (MemFs.world [])
  = (@Filedir.Build_World MemFs.os []
       [{| Filedir.levelname := Filedir.ERROR;
           Filedir.message :=
             "Cannot create directory: [Errno 2] No such file or directory: ''." |}]
       [],
     inl (Filedir.SystemExit (-1))).
Proof.
  exact (create_dirs_logs_then_exits (os := MemFs.os) [""] false
           (MemFs.world []) (MemFs.world []) (MemFs.FileNotFoundError "")
           eq_refl eq_refl).
Defined.

(** C1 as the specification words it fails: after the exception is logged
    the helper does not go on to return to its caller, it exits. *)
Lemma create_dirs_exit_counterexample :
  Filedir.create_dirs_body (@Filedir.unique MemFs.os [""]) false
    (MemFs.world [])
  = (MemFs.world [],
     inl (@Filedir.PyExn MemFs.os (MemFs.FileNotFoundError ""))) /\
  (Filedir.create_dirs [""] false (MemFs.world [])).2
  = inl (Filedir.SystemExit (-1)) /\
  ~ (exists v : Z,
       (Filedir.create_dirs [""] false (MemFs.world [])).2 = inr v).
Proof.
  split; [reflexivity|]. split; [reflexivity|].
  intros [v H]. vm_compute in H. discriminate H.
Qed.


(** * Properties of the conversion scripts *)

Module WaymoFacts.
Import PyStr Waymo.

(** ** [str.replace] *)

Lemma prefix_false_of_contains (old s : string) :
  contains old s = false -> String.prefix old s = false.
Proof.
  destruct s; cbn [contains]; intros H; by apply orb_false_iff in H as [H _].
Qed.

(** Where nothing matches, nothing is replaced. *)
Lemma replace_scan_absent (old new s : string) :
  contains old s = false -> replace_scan old new 0 s = s.
Proof.
  induction s as [|c s IH]; [done|]. intros H.
  pose proof (prefix_false_of_contains _ _ H) as Hp.
  cbn [contains] in H. apply orb_false_iff in H as [_ H].
  cbn [replace_scan]. rewrite Hp. by rewrite IH.
Qed.

(** Passing over the rest of a matched occurrence. *)
Lemma replace_scan_skip (old new : string) (k : nat) (s : string) :
  replace_scan old new k s = replace_scan old new 0 (drop k s).
Proof.
  revert k; induction s as [|c s IH]; intros [|k]; try done.
  cbn [replace_scan drop]. apply IH.
Qed.

Lemma drop_app_length (a b : string) : drop (String.length a) (a ++ b) = b.
Proof. induction a as [|c a IH]; simpl; [by destruct b | exact IH]. Qed.

(** An occurrence at the head is replaced and the scan goes on behind it. *)
Lemma replace_scan_head (old new rest : string) (c : ascii) (old' : string) :
  old = String c old' ->
  replace_scan old new 0 (old ++ rest) = new ++ replace_scan old new 0 rest.
Proof.
  intros ->. change (String c old' ++ rest) with (String c (old' ++ rest)).
  cbn [replace_scan].
  change (String c (old' ++ rest)) with (String c old' ++ rest).
  rewrite FiledirFacts.prefix_app. f_equal.
  rewrite replace_scan_skip.
  replace (String.length (String c old') - 1)%nat with (String.length old')
    by (simpl; lia).
  by rewrite drop_app_length.
Qed.

(** A match that starts before a slash ends before it as well. *)
Lemma prefix_before_slash (old dir rest : string) :
  slash_free old = true ->
  String.prefix old (dir ++ String "/" rest) = true ->
  String.prefix old dir = true.
Proof.
  revert dir; induction old as [|a old IH]; intros dir Hfree H.
  - by destruct dir.
  - unfold slash_free in Hfree. simpl in Hfree.
    apply andb_true_iff in Hfree as [Ha Hfree].
    destruct dir as [|d dir].
    + simpl in H. destruct (ascii_dec a "/") as [->|]; [done|done].
    + change (String d dir ++ String "/" rest)
        with (String d (dir ++ String "/" rest)) in H.
      simpl in H. simpl. destruct (ascii_dec a d); [|done].
      by apply IH.
Qed.

(** The scan copies a directory prefix in which [old] does not occur, up to
    and including the slash that ends it. *)
Lemma replace_scan_dir (old new dir rest : string) (c : ascii) (old' : string) :
  old = String c old' ->
  slash_free old = true ->
  contains old dir = false ->
  replace_scan old new 0 (dir ++ String "/" rest)
  = dir ++ String "/" (replace_scan old new 0 rest).
Proof.
  intros Hold Hfree. induction dir as [|d dir IH]; intros Hdir.
  - change ("" ++ String "/" rest) with (String "/" rest).
    cbn [replace_scan].
    assert (String.prefix old (String "/" rest) = false) as ->; [|done].
    subst old. unfold slash_free in Hfree. simpl in Hfree.
    apply andb_true_iff in Hfree as [Ha _]. simpl.
    destruct (ascii_dec c "/") as [->|]; [done|done].
  - pose proof (prefix_false_of_contains _ _ Hdir) as Hp.
    cbn [contains] in Hdir. apply orb_false_iff in Hdir as [_ Hdir].
    change (String d dir ++ String "/" rest)
      with (String d (dir ++ String "/" rest)).
    cbn [replace_scan].
    change (String d (dir ++ String "/" rest))
      with (String d dir ++ String "/" rest).
    destruct (String.prefix old (String d dir ++ String "/" rest)) eqn:E.
    + apply prefix_before_slash in E; [congruence | done].
    + rewrite (IH Hdir). done.
Qed.

(** A path with one directory component [old]: only that component
    changes. *)
Lemma replace_one_component (old new dir rest : string) (c : ascii)
    (old' : string) :
  old = String c old' ->
  slash_free old = true ->
  contains old dir = false ->
  contains old rest = false ->
  replace (dir ++ "/" ++ old ++ "/" ++ rest) old new
  = dir ++ "/" ++ new ++ "/" ++ rest.
Proof.
  intros Hold Hfree Hdir Hrest.
  assert (replace (dir ++ "/" ++ old ++ "/" ++ rest) old new
          = replace_scan old new 0 (dir ++ "/" ++ old ++ "/" ++ rest)) as ->.
  { unfold replace. by rewrite Hold. }
  change ("/" ++ old ++ "/" ++ rest) with (String "/" (old ++ "/" ++ rest)).
  rewrite (replace_scan_dir old new dir _ c old' Hold Hfree Hdir).
  rewrite (replace_scan_head old new _ c old' Hold).
  change ("/" ++ rest) with ("" ++ String "/" rest).
  rewrite (replace_scan_dir old new "" rest c old' Hold Hfree); [|by subst old].
  by rewrite (replace_scan_absent _ _ _ Hrest).
Qed.

(** ** [process] *)

Section Process.
Context `{num : Numeric}.

Lemma np_array_float32_rows (rows : list (list string))
    (labels : list (list F32)) :
  np_array_float32 rows = Some labels ->
  Forall2 (fun r l => mapM float32_of_str r = Some l) rows labels.
Proof.
  unfold np_array_float32. destruct rows as [|r rows].
  - intros [= <-]. constructor.
  - destruct (forallb _ _); [|done]. intros H. by apply mapM_Some in H.
Qed.

(** What a line that was written is made of. *)
Lemma yolo_line_inr (shape0 : list Dim) (l : list F32) (ss : string) :
  yolo_line shape0 l = inr ss ->
  exists h w bbox l1 cls b0 b1 b2 b3,
    shape0 !! 0%nat = Some h /\ shape0 !! 1%nat = Some w /\
    bbox_cxcywh_cxcywh_norm (firstn 4 (skipn 2 l)) h w = Some bbox /\
    l !! 1%nat = Some l1 /\ int_of_float32 l1 = Some cls /\
    bbox !! 0%nat = Some b0 /\ bbox !! 1%nat = Some b1 /\
    bbox !! 2%nat = Some b2 /\ bbox !! 3%nat = Some b3 /\
    ss = pretty cls ++ " " ++ format_float32 b0 ++ " " ++ format_float32 b1
         ++ " " ++ format_float32 b2 ++ " " ++ format_float32 b3
         ++ String LF "".
Proof.
  unfold yolo_line, mbind, PyErr_bind, index, orelse, row_slice.
  destruct (shape0 !! 0%nat) as [h|]; [|done].
  destruct (shape0 !! 1%nat) as [w|]; [|done].
  destruct (bbox_cxcywh_cxcywh_norm _ h w) as [bbox|] eqn:Hb; [|done].
  destruct (l !! 1%nat) as [l1|]; [|done].
  destruct (int_of_float32 l1) as [cls|] eqn:Hc; [|done].
  destruct (bbox !! 0%nat) as [b0|] eqn:H0; [|done].
  destruct (bbox !! 1%nat) as [b1|] eqn:H1; [|done].
  destruct (bbox !! 2%nat) as [b2|] eqn:H2; [|done].
  destruct (bbox !! 3%nat) as [b3|] eqn:H3; [|done].
  intros [= <-]. exists h, w, bbox, l1, cls, b0, b1, b2, b3.
  repeat split; done.
Qed.

(** When every label gives a line, the loop appends them all to [fo]. *)
Lemma write_labels_all (shape0 : list Dim) (labels : list (list F32))
    (lines : list string) (fo : string) (cur : string) (files : Texts) :
  Forall2 (fun l ss => yolo_line shape0 l = inr ss) labels lines ->
  files !! fo = Some cur ->
  write_labels shape0 labels fo files
  = (<[fo := cur ++ written lines]> files, inr tt).
Proof.
  intros H. revert cur files.
  induction H as [|l ss labels lines Hl _ IH]; intros cur files Hcur.
  - cbn [write_labels written]. rewrite FiledirFacts.app_empty_r.
    by rewrite insert_id.
  - cbn [write_labels written]. rewrite Hl, Hcur. cbn [default].
    rewrite (IH (cur ++ ss)); [|by rewrite lookup_insert_eq].
    by rewrite insert_insert_eq, FiledirFacts.app_assoc_str.
Qed.

(** A run of [process] in which nothing raises: the output file holds the
    lines of the labels, and the other files are as before. *)
Lemma process_success (path : string) (files : Texts) (text : string)
    (shape0 : list Dim) (labels : list (list F32)) (lines : list string) :
  files !! path = Some text ->
  image_shape0 (image_path_of path) = Some shape0 ->
  np_array_float32 (List.map split_ws (splitlines text)) = Some labels ->
  can_open_w files (new_annotation_path_of path) = true ->
  Forall2 (fun l ss => yolo_line shape0 l = inr ss) labels lines ->
  process path files
  = (<[replace path "annotations" "annotations_yolo" := written lines]> files,
     inr tt).
Proof.
  intros Hfile Himg Hlabels Hopen Hlines.
  unfold process. rewrite Himg, Hfile, Hlabels, Hopen.
  rewrite (write_labels_all shape0 labels lines _ "");
    [|done|by rewrite lookup_insert_eq].
  by rewrite insert_insert_eq.
Qed.

End Process.

End WaymoFacts.

(** ** The claims about the conversion scripts *)

Section WaymoClaims.
Import PyStr Waymo.
Context `{num : Numeric}.

(** C7, as amended.  For an annotation file [dir/annotations/rest] in whose
    path [annotations] occurs nowhere else: when the file and its image can
    be read, the text parses as a matrix of numbers, every row yields a line
    and the output can be opened, [process] writes the file
    [dir/annotations_yolo/rest] with one line per line of the input, made of
    the integer of the second field of that line, then the four values that
    [bbox_cxcywh_cxcywh_norm] returns for fields 3 to 6 and the first two
    entries of the image's [shape0], separated by spaces and ended by a
    newline. *)
Theorem process_writes_one_line_per_input_line (dir rest : string)
    (files : Texts) (text : string) (shape0 : list Dim)
    (labels : list (list F32)) (lines : list string)
    (Hdir : contains "annotations" dir = false)
    (Hrest : contains "annotations" rest = false)
    (Hfile : files !! (dir ++ "/" ++ "annotations" ++ "/" ++ rest) = Some text)
    (Himg : image_shape0
              (image_path_of (dir ++ "/" ++ "annotations" ++ "/" ++ rest))
            = Some shape0)
    (Hlabels : np_array_float32 (List.map split_ws (splitlines text))
               = Some labels)
    (Hopen : can_open_w files
               (new_annotation_path_of
                  (dir ++ "/" ++ "annotations" ++ "/" ++ rest)) = true)
    (Hlines : Forall2 (fun l ss => yolo_line shape0 l = inr ss) labels lines) :
  process (dir ++ "/" ++ "annotations" ++ "/" ++ rest) files
  = (<[dir ++ "/" ++ "annotations_yolo" ++ "/" ++ rest := written lines]> files,
     inr tt) /\
  List.length lines = List.length (splitlines text) /\
  Forall2 (fun line l => mapM float32_of_str (split_ws line) = Some l)
    (splitlines text) labels /\
  Forall2 (fun l ss =>
             exists h w bbox l1 cls b0 b1 b2 b3,
               shape0 !! 0%nat = Some h /\ shape0 !! 1%nat = Some w /\
               bbox_cxcywh_cxcywh_norm (firstn 4 (skipn 2 l)) h w = Some bbox /\
               l !! 1%nat = Some l1 /\ int_of_float32 l1 = Some cls /\
               bbox !! 0%nat = Some b0 /\ bbox !! 1%nat = Some b1 /\
               bbox !! 2%nat = Some b2 /\ bbox !! 3%nat = Some b3 /\
               ss = pretty cls ++ " " ++ format_float32 b0 ++ " "
                    ++ format_float32 b1 ++ " " ++ format_float32 b2 ++ " "
                    ++ format_float32 b3 ++ String LF "")
    labels lines.
Proof.
  pose proof (WaymoFacts.np_array_float32_rows _ _ Hlabels) as Hrows.
  apply Forall2_fmap_l in Hrows.
  split; [|split; [|split]].
  - rewrite (WaymoFacts.process_success _ files text shape0 labels lines
               Hfile Himg Hlabels Hopen Hlines).
    by rewrite (WaymoFacts.replace_one_component "annotations"
                  "annotations_yolo" dir rest "a" "nnotations").
  - apply Forall2_length in Hrows. apply Forall2_length in Hlines.
    unfold base.length in *. congruence.
  - exact Hrows.
  - eapply Forall2_impl; [exact Hlines|].
    intros l ss H. by apply WaymoFacts.yolo_line_inr.
Qed.

End WaymoClaims.

(** C2, as amended.  For each split the YOLO script runs [create_dirs] and
    then one [Parallel] call with [n_jobs = multiprocessing.cpu_count()] and
    one delayed [process] job per globbed annotation path, so all its
    statements run in the calling process exactly when there is one CPU;
    the copy script is a plain loop of [copyfile] calls. *)
Theorem conversion_is_dispatched_to_joblib (datasets_dir : string)
    (glob : string -> list string) (cpu_count : Z) :
  Waymo.convert_annotations_yolo datasets_dir glob cpu_count
  = [Waymo.create_dirs_call (Waymo.new_annotation_dirs datasets_dir "train") true;
     Waymo.Parallel_call cpu_count
       (glob (Waymo.annotation_pattern datasets_dir "train"))] /\
  (Forall (fun s => Waymo.max_concurrent_jobs s = 1)
     (Waymo.convert_annotations_yolo datasets_dir glob cpu_count)
   <-> cpu_count = 1) /\
  Forall (fun s => Waymo.max_concurrent_jobs s = 1)
    (Waymo.copy_annotations datasets_dir glob).
Proof.
  split; [reflexivity|]. split.
  - change (Waymo.convert_annotations_yolo datasets_dir glob cpu_count)
      with [Waymo.create_dirs_call
              (Waymo.new_annotation_dirs datasets_dir "train") true;
            Waymo.Parallel_call cpu_count
              (glob (Waymo.annotation_pattern datasets_dir "train"))].
    split.
    + intros H. inversion H as [|? ? _ H']. inversion H' as [|? ? Hp _].
      exact Hp.
    + intros ->. repeat constructor.
  - unfold Waymo.copy_annotations. apply Forall_forall.
    intros s Hs. apply list_elem_of_fmap in Hs as (file & -> & _). reflexivity.
Qed.

(** C2 as the specification words it fails: on a machine with four CPUs the
    YOLO script hands its jobs to a pool of four workers. *)
Lemma conversion_parallel_counterexample :
  ~ Forall (fun s => Waymo.max_concurrent_jobs s = 1)
      (Waymo.convert_annotations_yolo "/data"
         (fun _ => ["/data/waymo/detection2d/train/front/annotations/1.txt";
                    "/data/waymo/detection2d/train/front/annotations/2.txt"])
         4).
Proof.
  intros H. inversion H as [|? ? _ H']. inversion H' as [|? ? Hp _].
  discriminate Hp.
Qed.

(** C7 on two integral annotation lines. *)
Lemma process_writes_one_line_per_input_line_witness :
  Waymo.process (num := Instances.integral) "d/annotations/x.txt"
    (Instances.sample_files "d/annotations/x.txt")
  = (<["d/annotations_yolo/x.txt" :=
         "1 2.0 2.0 1.0 1.0" ++ String Waymo.LF
           ("2 1.0 1.0 2.0 2.0" ++ String Waymo.LF "")]>
       (Instances.sample_files "d/annotations/x.txt"),
     inr tt).
Proof.
  refine (proj1 (process_writes_one_line_per_input_line
                   (num := Instances.integral)
                   "d" "x.txt"
                   (Instances.sample_files "d/annotations/x.txt")
                   Instances.sample_annotations
                   [1280; 1920; 3]
                   [[0; 1; 3840; 2560; 1920; 1280; 7];
                    [0; 2; 1920; 1280; 3840; 2560; 9]]
                   ["1 2.0 2.0 1.0 1.0" ++ String Waymo.LF "";
                    "2 1.0 1.0 2.0 2.0" ++ String Waymo.LF ""]
                   _ _ _ _ _ _ _));
    [reflexivity | reflexivity | reflexivity | reflexivity | reflexivity
    | reflexivity | repeat constructor].
Defined.

(** C7 as the specification words it fails on a file whose name contains
    [annotations]: the directory component is renamed, and so is the file. *)
Lemma process_output_path_counterexample :
  (Waymo.process (num := Instances.integral) "d/annotations/annotations_1.txt"
     (Instances.sample_files "d/annotations/annotations_1.txt")).2 = inr tt /\
  Waymo.rename_annotations_component "d/annotations/annotations_1.txt"
  = "d/annotations_yolo/annotations_1.txt" /\
  (Waymo.process (num := Instances.integral) "d/annotations/annotations_1.txt"
     (Instances.sample_files "d/annotations/annotations_1.txt")).1
    !! "d/annotations_yolo/annotations_1.txt" = None /\
  (Waymo.process (num := Instances.integral) "d/annotations/annotations_1.txt"
     (Instances.sample_files "d/annotations/annotations_1.txt")).1
    !! "d/annotations_yolo/annotations_yolo_1.txt"
  = Some ("1 2.0 2.0 1.0 1.0" ++ String Waymo.LF
            ("2 1.0 1.0 2.0 2.0" ++ String Waymo.LF "")).
Proof. repeat split; vm_compute; reflexivity. Qed.


(** * Properties of the MLP layer *)

Section MlpClaims.
Import Mlp.
Context `{tc : TorchCall}.

(** C6.  [Mlp.forward] is the composition [drop2(fc2(drop1(act(fc1(x)))))]
    and nothing else; [fc1] is a linear layer from [in_features] to
    [hidden_features], [act] an instance of [act_layer], [fc2] a linear layer
    from [hidden_features] to [out_features], [drop1] and [drop2] dropouts;
    an omitted [hidden_features] or [out_features] is [in_features]. *)
Theorem mlp_forward_is_composition :
  (forall (self : Mlp) (x : Tensor) (e : Engine),
     forward self x e = composition self x e) /\
  (forall (in_features : Z) (hidden_features out_features : option Z)
          (act_layer : ActCls) (drop : Float),
     let self := Mlp_init in_features hidden_features out_features
                   act_layer drop in
     fc1 self = nn_Linear in_features (py_or hidden_features in_features) /\
     act self = act_instance act_layer /\
     drop1 self = nn_Dropout (to_2tuple drop).1 /\
     fc2 self = nn_Linear (py_or hidden_features in_features)
                  (py_or out_features in_features) /\
     drop2 self = nn_Dropout (to_2tuple drop).2) /\
  (forall in_features : Z,
     py_or None in_features = in_features) /\
  (forall (in_features : Z) (act_layer : ActCls) (drop : Float),
     Mlp_init in_features None None act_layer drop
     = {| fc1 := nn_Linear in_features in_features;
          act := act_instance act_layer;
          drop1 := nn_Dropout (to_2tuple drop).1;
          fc2 := nn_Linear in_features in_features;
          drop2 := nn_Dropout (to_2tuple drop).2 |}).
Proof.
  split; [|by repeat split].
  intros self x e. unfold forward, composition, after.
  destruct (call "fc1" (fc1 self) x e) as [x1 e1]; cbn [fst snd].
  destruct (call "act" (act self) x1 e1) as [x2 e2]; cbn [fst snd].
  destruct (call "drop1" (drop1 self) x2 e2) as [x3 e3]; cbn [fst snd].
  destruct (call "fc2" (fc2 self) x3 e3) as [x4 e4]; cbn [fst snd].
  by destruct (call "drop2" (drop2 self) x4 e4) as [x5 e5].
Qed.

End MlpClaims.

(** * Properties of the ResNet family *)

Module ResNetFacts.
Import ResNet.

(** A stage has one block for the first call and one for each turn of the
    loop, all of the class it was asked for. *)
Lemma make_layer_blocks (self : Self) (block : Block) (planes blocks stride : Z)
    (dilate : bool) :
  1 <= blocks ->
  Z.of_nat (List.length (make_layer self block planes blocks stride dilate).1)
  = blocks /\
  Forall (fun b => b_class b = block)
    (make_layer self block planes blocks stride dilate).1.
Proof.
  intros Hb. unfold make_layer. destruct dilate; cbn [fst]; split.
  all: try (cbn [List.length]; rewrite repeat_length; lia).
  all: constructor; [done|]; apply Forall_forall; intros b Hin;
    apply list_elem_of_In, repeat_spec in Hin; by subst b.
Qed.

Section Init.
Context `{base : ImageClassifier}.

(** Whatever the arguments, a constructor that returns has run one
    weight-setup method, chosen by the truth value of [self.pretrained]. *)
Lemma ResNet_init_weight_setup (cfg0 : Cfg) (name : option string)
    (num_classes : option Z) (out_indexes : Z) (p : Pretrained)
    (obj : ResNetObj) :
  ResNet_init cfg0 name num_classes out_indexes p = inr obj ->
  weight_setup obj
  = if truthy (stored_pretrained p) then [load_pretrained]
    else [initialize_weights (zero_init_residual (cfg obj))].
Proof.
  unfold ResNet_init, mbind, Exc_bind.
  destruct (assert_dict (resolve cfg0)) as [e|d]; [done|].
  destruct (negb _); [done|].
  destruct (index (layers d) 0) as [e|n1]; [done|].
  destruct (make_layer _ _ 64 _ _ _) as [l1 s1].
  destruct (index (layers d) 1) as [e|n2]; [done|].
  destruct (index _ 0) as [e|d0]; [done|].
  destruct (make_layer _ _ 128 _ _ _) as [l2 s2].
  destruct (index (layers d) 2) as [e|n3]; [done|].
  destruct (index _ 1) as [e|d1]; [done|].
  destruct (make_layer _ _ 256 _ _ _) as [l3 s3].
  destruct (index (layers d) 3) as [e|n4]; [done|].
  destruct (index _ 2) as [e|d2]; [done|].
  destruct (make_layer _ _ 512 _ _ _) as [l4 s4].
  by intros [= <-].
Qed.

(** A configuration with four positive layer counts and no custom dilation
    builds: the stages have the configured lengths and block class. *)
Lemma ResNet_init_dict (d : CfgDict) (n1 n2 n3 n4 : Z)
    (name : option string) (num_classes : option Z) (out_indexes : Z)
    (p : Pretrained) :
  layers d = [n1; n2; n3; n4] ->
  1 <= n1 -> 1 <= n2 -> 1 <= n3 -> 1 <= n4 ->
  replace_stride_with_dilation d = None ->
  exists obj,
    ResNet_init (cfg_dict d) name num_classes out_indexes p = inr obj /\
    cfg obj = d /\
    List.map (fun stage => Z.of_nat (List.length stage))
      [layer1 obj; layer2 obj; layer3 obj; layer4 obj] = layers d /\
    Forall (Forall (fun b => b_class b = block d))
      [layer1 obj; layer2 obj; layer3 obj; layer4 obj].
Proof.
  intros Hl H1 H2 H3 H4 Hr.
  unfold ResNet_init, mbind, Exc_bind. cbn [resolve assert_dict].
  rewrite Hl, Hr. cbn [default List.length Nat.eqb negb index lookup list_lookup].
  destruct (make_layer _ (block d) 64 n1 1 false) as [l1 s1] eqn:E1.
  destruct (make_layer s1 (block d) 128 n2 2 false) as [l2 s2] eqn:E2.
  destruct (make_layer s2 (block d) 256 n3 2 false) as [l3 s3] eqn:E3.
  destruct (make_layer s3 (block d) 512 n4 2 false) as [l4 s4] eqn:E4.
  eexists. split; [reflexivity|]. cbn [cfg layer1 layer2 layer3 layer4].
  split; [done|].
  pose proof (make_layer_blocks
                {| _norm_layer := default BatchNorm2d (norm_layer d);
                   inplanes := 64; dilation := 1; self_groups := groups d;
                   base_width := width_per_group d |}
                (block d) 64 n1 1 false H1) as [L1 B1].
  pose proof (make_layer_blocks s1 (block d) 128 n2 2 false H2) as [L2 B2].
  pose proof (make_layer_blocks s2 (block d) 256 n3 2 false H3) as [L3 B3].
  pose proof (make_layer_blocks s3 (block d) 512 n4 2 false H4) as [L4 B4].
  rewrite E1 in L1, B1. rewrite E2 in L2, B2.
  rewrite E3 in L3, B3. rewrite E4 in L4, B4. cbn [fst] in *.
  split.
  - cbn [List.map]. congruence.
  - repeat constructor; assumption.
Qed.

(** A name of [cfgs] stands for its entry. *)
Lemma ResNet_init_str (n : string) (d : CfgDict) (name : option string)
    (num_classes : option Z) (out_indexes : Z) (p : Pretrained) :
  cfgs !! n = Some d ->
  ResNet_init (cfg_str n) name num_classes out_indexes p
  = ResNet_init (cfg_dict d) name num_classes out_indexes p.
Proof. intros H. unfold ResNet_init. cbn [resolve]. by rewrite H. Qed.

End Init.

(** Every predefined configuration has four positive layer counts and no
    custom dilation. *)
Lemma cfgs_predefined (n : string) :
  n ∈ predefined_names ->
  exists d n1 n2 n3 n4,
    cfgs !! n = Some d /\ layers d = [n1; n2; n3; n4] /\
    1 <= n1 /\ 1 <= n2 /\ 1 <= n3 /\ 1 <= n4 /\
    replace_stride_with_dilation d = None.
Proof.
  intros Hn. unfold predefined_names in Hn.
  repeat (apply elem_of_cons in Hn as [->|Hn]);
    [..|by apply elem_of_nil in Hn].
  all: eexists _, _, _, _, _; split; [vm_compute; reflexivity|];
    split; [reflexivity|]; repeat split; done.
Qed.

Lemma cfgs_names (n : string) :
  n ∈ predefined_names <-> is_Some (cfgs !! n).
Proof.
  split.
  - intros Hn. destruct (cfgs_predefined n Hn) as (d & ? & ? & ? & ? & H & _).
    by exists d.
  - intros [d Hd]. unfold cfgs in Hd.
    apply elem_of_list_to_map_2 in Hd.
    apply (list_elem_of_fmap_2 fst) in Hd. exact Hd.
Qed.

(** The constructor on a predefined name. *)
Lemma ResNet_init_predefined `{base : ImageClassifier} (n : string)
    (name : option string) (num_classes : option Z) (out_indexes : Z)
    (p : Pretrained) :
  n ∈ predefined_names ->
  exists d obj,
    cfgs !! n = Some d /\
    ResNet_init (cfg_str n) name num_classes out_indexes p = inr obj /\
    cfg obj = d /\
    List.map (fun stage => Z.of_nat (List.length stage))
      [layer1 obj; layer2 obj; layer3 obj; layer4 obj] = layers d /\
    Forall (Forall (fun b => b_class b = block d))
      [layer1 obj; layer2 obj; layer3 obj; layer4 obj].
Proof.
  intros Hn.
  destruct (cfgs_predefined n Hn)
    as (d & n1 & n2 & n3 & n4 & Hd & Hl & H1 & H2 & H3 & H4 & Hr).
  destruct (ResNet_init_dict d n1 n2 n3 n4 name num_classes
              out_indexes p Hl H1 H2 H3 H4 Hr) as (obj & Hobj & Hrest).
  exists d, obj. split; [done|]. split; [|done].
  by rewrite (ResNet_init_str n d).
Qed.

End ResNetFacts.

(** ** The claims about [resnet.py] *)

Section ResNetClaims.
Import ResNet.

(** C3.  After the module has been imported, looking up the variant name of
    any class of the family in [BACKBONES], [CLASSIFIERS] or [MODELS] gives
    that class, whatever the registries held before. *)
Theorem family_is_registered (r : Registries) (c : Class) :
  BACKBONES (import_module r) !! variant_name c = Some c /\
  CLASSIFIERS (import_module r) !! variant_name c = Some c /\
  MODELS (import_module r) !! variant_name c = Some c.
Proof.
  destruct c; cbn; unfold register; repeat split; by simplify_map_eq.
Qed.

Context `{base : ImageClassifier}.

(** C4.  The predefined names are the keys of [cfgs]; [ResNet(cfg=n)] for a
    predefined name [n] builds, with the entry [cfgs[n]] as its
    configuration, four stages whose lengths are the configured layer counts
    and whose blocks all have the configured class; [resnet50] is made of
    [Bottleneck] blocks with counts [[3, 4, 6, 3]]; and a [cfg] that does not
    resolve to a dictionary fails the assertion. *)
Theorem predefined_cfg_builds_configured_stages :
  (forall n : string, n ∈ predefined_names <-> is_Some (cfgs !! n)) /\
  (forall (n : string) (name : option string) (num_classes : option Z)
          (out_indexes : Z) (p : Pretrained),
     n ∈ predefined_names ->
     exists d obj,
       cfgs !! n = Some d /\
       ResNet_init (cfg_str n) name num_classes out_indexes p = inr obj /\
       cfg obj = d /\
       List.map (fun stage => Z.of_nat (List.length stage))
         [layer1 obj; layer2 obj; layer3 obj; layer4 obj] = layers d /\
       Forall (Forall (fun b => b_class b = block d))
         [layer1 obj; layer2 obj; layer3 obj; layer4 obj]) /\
  (exists d, cfgs !! "resnet50" = Some d /\
             block d = Bottleneck /\ layers d = [3; 4; 6; 3]) /\
  (forall (c : Cfg) (name : option string) (num_classes : option Z)
          (out_indexes : Z) (p : Pretrained),
     (forall d, resolve c <> cfg_dict d) ->
     ResNet_init c name num_classes out_indexes p = inl AssertionError).
Proof.
  split; [exact ResNetFacts.cfgs_names|]. split; [|split].
  - intros n name num_classes out_indexes p Hn.
    by apply ResNetFacts.ResNet_init_predefined.
  - eexists. split; [vm_compute; reflexivity|]. by split.
  - intros c name num_classes out_indexes p Hc. unfold ResNet_init.
    destruct (resolve c) as [s|l|d] eqn:E; [done|done|].
    by destruct (Hc d).
Qed.

(** C5.  If the base class keeps the truth value of the [pretrained]
    argument in [self.pretrained], a construction of any class of the family
    that returns has run exactly one weight-setup method: [load_pretrained]
    when [pretrained] is truthy, [initialize_weights] when it is falsy.  The
    constructors of the nine subclasses always get that far. *)
Theorem exactly_one_weight_setup
    (Hbase : forall p, truthy (stored_pretrained p) = truthy p)
    (c : Class) (cfg0 : Cfg) (name : option string) (num_classes : option Z)
    (out_indexes : Z) (p : Pretrained) (obj : ResNetObj)
    (Hobj : construct c cfg0 name num_classes out_indexes p = inr obj) :
  weight_setup obj
  = (if truthy p then [load_pretrained]
     else [initialize_weights (zero_init_residual (cfg obj))]) /\
  (forall c' : Class,
     c' <> ResNet ->
     exists obj', construct c' cfg0 name num_classes out_indexes p = inr obj').
Proof.
  split.
  - rewrite <- Hbase. unfold construct in Hobj.
    destruct (subclass_cfg c);
      by apply ResNetFacts.ResNet_init_weight_setup in Hobj.
  - intros c' Hc'. unfold construct.
    destruct c'; [done|..]; cbn [subclass_cfg].
    all: match goal with
         | |- context [cfg_str ?n] =>
             destruct (ResNetFacts.ResNet_init_predefined
                         n name num_classes out_indexes p)
               as (d & obj' & _ & Hinit & _)
         end; [unfold predefined_names; set_solver | by exists obj'].
Qed.

End ResNetClaims.

(** C5 on a base class that stores [pretrained] as it is given: [ResNet50]
    with [pretrained=True] loads the pretrained weights and does not
    initialise. *)
Lemma exactly_one_weight_setup_witness :
  exists obj,
    ResNet.construct (H := Instances.plain_base) ResNet.ResNet50
      (ResNet.cfg_str "") None None (-1) (ResNet.pretrained_bool true)
    = inr obj /\
    ResNet.weight_setup obj = [ResNet.load_pretrained].
Proof.
  eexists. split; [vm_compute; reflexivity|].
  refine (proj1 (exactly_one_weight_setup (base := Instances.plain_base)
                   (fun p => eq_refl) ResNet.ResNet50 (ResNet.cfg_str "")
                   None None (-1) (ResNet.pretrained_bool true) _ _)).
  vm_compute; reflexivity.
Defined.


(** * The other helpers on small inputs *)

Module MoreRuns.

Example get_stem_runs :
  List.map FiledirRest.get_stem
    ["/data/model.pth"; "archive.tar.gz"; "dir/.bashrc"; "dir/"; "noext"]
  = ["model"; "archive.tar"; ".bashrc"; ""; "noext"].
Proof. reflexivity. Qed.

Example is_name_runs :
  List.map Filedir.is_name [Some ""; Some "."; Some ".."; Some "a/b"; Some "a.txt"]
  = [true; false; true; false; true].
Proof. reflexivity. Qed.

Example list_files_run :
  (FiledirRest.list_files (os := MemFs.os) ["d/*"; "e/*"]
     (MemFs.world [("d", MemFs.Directory); ("d/1.txt", MemFs.RegularFile);
                   ("d/sub", MemFs.Directory); ("e", MemFs.Directory);
                   ("e/2.txt", MemFs.RegularFile)])).2
  = inr ["d/1.txt"; "e/2.txt"].
Proof. reflexivity. Qed.

Example get_latest_file_run :
  (FiledirRest.get_latest_file (H := MemStat.stat) "d/*.txt" true
     (MemFs.world [("d", MemFs.Directory); ("d/1.txt", MemFs.RegularFile);
                   ("d/2.txt", MemFs.RegularFile)])).2
  = inr (Some "d/2.txt") /\
  (FiledirRest.get_latest_file (H := MemStat.stat) "d/*.json" true
     (MemFs.world [("d", MemFs.Directory); ("d/1.txt", MemFs.RegularFile)])).2
  = inr None.
Proof. split; reflexivity. Qed.

Example delete_files_matching_run :
  (FiledirRest.delete_files_matching (os := MemFs.os) ["d/*.txt"]
     (MemFs.world [("d", MemFs.Directory); ("d/1.txt", MemFs.RegularFile);
                   ("d/2.json", MemFs.RegularFile)])).1
  = @Filedir.Build_World MemFs.os
      [("d", MemFs.Directory); ("d/2.json", MemFs.RegularFile)] []
      [("d/*.txt", false)].
Proof. reflexivity. Qed.

Example GluMlp_init_runs :
  MlpVariants.GluMlp_init (torch := Instances.counting_torch)
    (gates := MlpInstances.gates) (ctors := MlpInstances.ctors) 3 None None tt 0
  = inl MlpVariants.AssertionError /\
  match MlpVariants.GluMlp_init (torch := Instances.counting_torch)
    (gates := MlpInstances.gates) (ctors := MlpInstances.ctors) 3 (Some 8) None tt 0 with
  | inr m => MlpVariants.glu_fc1 m = Mlp.nn_Linear 3 8 /\
             MlpVariants.glu_fc2 m = Mlp.nn_Linear 4 3
  | inl _ => False
  end.
Proof. repeat split; reflexivity. Qed.

(** [nn.Linear] is called before the assertion of [GatedMlp.__init__]: a
    negative width is refused by [nn.Linear], with or without a gate. *)
Example GatedMlp_init_runs :
  MlpVariants.GatedMlp_init (torch := Instances.counting_torch)
    (gates := MlpInstances.gates) (ctors := MlpInstances.ctors) (-1) None None tt None 0
  = inl (@MlpVariants.Raised _ _ MlpInstances.ctors
           MlpInstances.RuntimeError) /\
  MlpVariants.GatedMlp_init (torch := Instances.counting_torch)
    (gates := MlpInstances.gates) (ctors := MlpInstances.ctors) (-3) None None tt (Some tt) 0
  = inl (@MlpVariants.Raised _ _ MlpInstances.ctors
           MlpInstances.RuntimeError) /\
  MlpVariants.GatedMlp_init (torch := Instances.counting_torch)
    (gates := MlpInstances.gates) (ctors := MlpInstances.ctors) 3 None None tt (Some tt) 0
  = inl MlpVariants.AssertionError /\
  match MlpVariants.GatedMlp_init (torch := Instances.counting_torch)
    (gates := MlpInstances.gates) (ctors := MlpInstances.ctors) 4 None None tt (Some tt) 0 with
  | inr m => MlpVariants.gated_gate m
             = MlpVariants.gate_instance (gates := MlpInstances.gates) tt 4 /\
             MlpVariants.gated_fc2 m = Mlp.nn_Linear 2 4
  | inl _ => False
  end.
Proof. repeat split; reflexivity. Qed.

(** The characters [split()] and [splitlines()] cut at. *)
Example isspace_code_points :
  List.filter (fun n => PyStr.isspace (ascii_of_nat n)) (seq 0 256)
  = [9; 10; 11; 12; 13; 28; 29; 30; 31; 32; 133; 160]%nat.
Proof. reflexivity. Qed.

Example is_linebreak_code_points :
  List.filter (fun n => Waymo.is_linebreak (ascii_of_nat n)) (seq 0 256)
  = [10; 11; 12; 13; 28; 29; 30; 133]%nat.
Proof. reflexivity. Qed.

Example next_line_and_no_break_space_run :
  Waymo.splitlines
    (String "a" (String (ascii_of_nat 133) (String Waymo.LF "b")))
  = ["a"; ""; "b"] /\
  PyStr.split_ws (String "1" (String (ascii_of_nat 160) "2")) = ["1"; "2"].
Proof. split; reflexivity. Qed.

Example make_layer_zero_blocks_run :
  List.length
    (ResNet.make_layer
       {| ResNet._norm_layer := ResNet.BatchNorm2d; ResNet.inplanes := 64;
          ResNet.dilation := 1; ResNet.self_groups := 1;
          ResNet.base_width := 64 |}
       ResNet.Bottleneck 64 0 1 false).1
  = 1%nat.
Proof. reflexivity. Qed.

End MoreRuns.


(** * More about the file helpers *)

Module FiledirRestFacts.
Import PyStr Filedir FiledirRest.

Section Outcomes.
Context `{os : Os}.

Lemma bind_run {A B} (m : M A) (k : A -> M B) (w : World) :
  bind m k w = match m w with
               | (w', inr a) => k a w'
               | (w', inl u) => (w', inl u)
               end.
Proof. reflexivity. Qed.

(** A loop whose body ends normally or with an exception does so too. *)
Lemma for_each_result {A} (xs : list A) (body : A -> M unit) :
  (forall x w, (exists w', body x w = (w', inr tt)) \/
               (exists w' e, body x w = (w', inl (PyExn e)))) ->
  forall w, (exists w', for_each xs body w = (w', inr tt)) \/
            (exists w' e, for_each xs body w = (w', inl (PyExn e))).
Proof.
  intros Hbody. induction xs as [|x xs IH]; intros w; [left; by exists w|].
  cbn [for_each]. unfold bind.
  destruct (Hbody x w) as [[w' ->]|(w' & e & ->)]; [apply IH|].
  right. by exists w', e.
Qed.

(** A loop whose body does nothing on every element does nothing. *)
Lemma for_each_noop {A} (xs : list A) (body : A -> M unit) (w : World) :
  Forall (fun x => body x w = (w, inr tt)) xs ->
  for_each xs body w = (w, inr tt).
Proof.
  induction 1 as [|x xs Hx _ IH]; [done|].
  cbn [for_each]. unfold bind. by rewrite Hx.
Qed.

(** The loop of [create_dirs] ends normally or with an exception of the
    operating system, never with [SystemExit]. *)
Lemma create_dirs_body_result (ds : list string) (recreate : bool) (w : World) :
  (exists w', create_dirs_body ds recreate w = (w', inr 0)) \/
  (exists w' e, create_dirs_body ds recreate w = (w', inl (PyExn e))).
Proof.
  unfold create_dirs_body. rewrite (bind_run (for_each ds _)).
  match goal with |- context [for_each ds ?F] =>
    destruct (for_each_result ds F) with (w := w) as [[w' ->]|(w' & e & ->)]
  end.
  - intros d w0. unfold bind, ask, when, act, ret.
    destruct (os_path_exists (fs w0) d && recreate).
    + destruct (shutil_rmtree (fs w0) d) as [e|fs1];
        [right; eexists _, e; reflexivity|].
      cbn. destruct (negb (os_path_exists fs1 d)); cbn;
        [|left; eexists; reflexivity].
      destruct (os_makedirs fs1 d) as [e|fs2];
        [right; eexists _, e; reflexivity | left; eexists; reflexivity].
    + destruct (negb (os_path_exists (fs w0) d)); cbn;
        [|left; eexists; reflexivity].
      destruct (os_makedirs (fs w0) d) as [e|fs2];
        [right; eexists _, e; reflexivity | left; eexists; reflexivity].
  - left. exists w'. reflexivity.
  - right. exists w', e. reflexivity.
Qed.

(** Directories that are all there are left alone when [recreate] is off. *)
Lemma create_dirs_body_noop (ds : list string) (w : World) :
  Forall (fun d => os_path_exists (fs w) d = true) ds ->
  create_dirs_body ds false w = (w, inr 0).
Proof.
  intros H. unfold create_dirs_body. rewrite (bind_run (for_each ds _)).
  rewrite for_each_noop; [done|].
  eapply Forall_impl; [exact H|]. intros d Hd. cbv beta in Hd.
  unfold bind, ask, when, ret. rewrite Hd. cbn. rewrite Hd. reflexivity.
Qed.

(** Directories none of which is there: nothing is globbed or removed. *)
Lemma delete_files_loop_noop (ds : list string) (extension : string)
    (recursive : bool) (w : World) :
  Forall (fun d => os_path_exists (fs w) d = false) ds ->
  delete_files_loop ds extension recursive w = (w, inr tt).
Proof.
  intros H. unfold delete_files_loop. apply for_each_noop.
  eapply Forall_impl; [exact H|]. intros d Hd. cbv beta in Hd.
  unfold bind, ask, ret. rewrite Hd. reflexivity.
Qed.

End Outcomes.

End FiledirRestFacts.

(** ** Further properties of [filedir.py] *)

Section FiledirExtras.
Import PyStr Filedir FiledirRest.
Context `{os : Os}.

(** X1.  [create_dirs] has three outcomes: it returns 0 and logs nothing;
    or an [Exception] was raised, one ERROR record is logged and the call
    ends with [SystemExit(-1)]; or an exception that is not an [Exception]
    was raised and leaves the call as it is, with nothing logged.  It never
    returns another value and never exits with another code. *)
Theorem create_dirs_outcomes (paths : list string) (recreate : bool)
    (w : World) :
  let r := create_dirs paths recreate w in
  (r.2 = inr 0 /\ logged r.1 = logged w) \/
  (exists err,
     is_Exception err = true /\ r.2 = inl (SystemExit (-1)) /\
     logged r.1 = (logged w ++ [{| levelname := ERROR;
                                   message := "Cannot create directory: "
                                              ++ exn_str err ++ "." |}])%list) \/
  (exists err,
     is_Exception err = false /\ r.2 = inl (PyExn err) /\
     logged r.1 = logged w).
Proof.
  pose proof (FiledirFacts.create_dirs_body_keeps_logged
                (unique paths) recreate w) as Hlog.
  unfold create_dirs, try_except_Exception. cbv zeta.
  destruct (FiledirRestFacts.create_dirs_body_result (unique paths) recreate w)
    as [[w' E]|(w' & e & E)]; rewrite E in *; cbn [fst snd] in *.
  - by left.
  - destruct (is_Exception e) eqn:He.
    + right. left. exists e. split; [done|].
      unfold bind, logger_error, exit, raise. cbn. by rewrite Hlog.
    + right. right. by exists e.
Qed.

(** X2.  When every directory of [unique(paths)] exists and [recreate] is
    off, [create_dirs] returns 0 and changes nothing: no directory is removed
    or made, nothing is logged. *)
Theorem create_dirs_existing_is_noop (paths : list string) (w : World)
    (Hall : Forall (fun d => os_path_exists (fs w) d = true) (unique paths)) :
  create_dirs paths false w = (w, inr 0).
Proof.
  unfold create_dirs, try_except_Exception.
  by rewrite (FiledirRestFacts.create_dirs_body_noop _ _ Hall).
Qed.

(** X3.  When no directory of [unique(dirpaths)] exists, [delete_files]
    does nothing at all: it globs no pattern and removes no file, whatever
    the extension. *)
Theorem delete_files_missing_dirs_is_noop (dirpaths : list string)
    (extension : string) (recursive : bool) (w : World)
    (Hnone : Forall (fun d => os_path_exists (fs w) d = false)
               (unique dirpaths)) :
  delete_files dirpaths extension recursive w = (w, inr tt).
Proof.
  unfold delete_files. by apply FiledirRestFacts.delete_files_loop_noop.
Qed.

End FiledirExtras.

Lemma create_dirs_existing_is_noop_witness :
  Filedir.create_dirs (os := MemFs.os) ["a"; "b"; "a"] false
    (MemFs.world [("a", MemFs.Directory); ("b", MemFs.RegularFile)])
  = (MemFs.world [("a", MemFs.Directory); ("b", MemFs.RegularFile)], inr 0).
Proof.
  apply (create_dirs_existing_is_noop (os := MemFs.os)).
  repeat constructor.
Defined.

Lemma delete_files_missing_dirs_is_noop_witness :
  Filedir.delete_files (os := MemFs.os) ["x"; "y"] "txt" true
    (MemFs.world [("a", MemFs.Directory); ("a/1.txt", MemFs.RegularFile)])
  = (MemFs.world [("a", MemFs.Directory); ("a/1.txt", MemFs.RegularFile)],
     inr tt).
Proof.
  apply (delete_files_missing_dirs_is_noop (os := MemFs.os)).
  repeat constructor.
Defined.

(** ** Characters and paths *)

Module PathFacts.
Import PyStr.

(** [c not in s], for a character [c]. *)
Local Abbreviation absent c s := (contains (String c "") s = false).

Lemma contains_char_cons (c a : ascii) (s : string) :
  contains (String c "") (String a s)
  = Ascii.eqb a c || contains (String c "") s.
Proof.
  cbn [contains]. f_equal. simpl.
  destruct (ascii_dec c a) as [->|Hne].
  - rewrite Ascii.eqb_refl. by destruct s.
  - symmetry. apply Ascii.eqb_neq. congruence.
Qed.

Lemma contains_char_nil (c : ascii) : contains (String c "") "" = false.
Proof. reflexivity. Qed.

Lemma contains_char_rev_app (c : ascii) (x acc : string) :
  contains (String c "") (String.rev_app x acc)
  = contains (String c "") x || contains (String c "") acc.
Proof.
  revert acc; induction x as [|a x IH]; intros acc; [done|].
  cbn [String.rev_app]. rewrite IH, !contains_char_cons.
  destruct (Ascii.eqb a c), (contains (String c "") x),
    (contains (String c "") acc); done.
Qed.

Lemma take_drop (n : nat) (s : string) : take n s ++ drop n s = s.
Proof.
  revert s; induction n as [|n IH]; intros [|a s]; try done.
  cbn [take drop]. change (String a (take n s) ++ drop n s)
    with (String a (take n s ++ drop n s)). by rewrite IH.
Qed.

Lemma absent_take (c : ascii) (n : nat) (s : string) :
  absent c s -> absent c (take n s).
Proof.
  intros H. destruct (contains (String c "") (take n s)) eqn:E; [|done].
  apply FiledirFacts.contains_iff in E as (pre & post & E).
  assert (contains (String c "") s = true) as Hs; [|congruence].
  apply FiledirFacts.contains_iff. exists pre, (post ++ drop n s).
  rewrite <- (take_drop n s) at 1. rewrite E.
  by rewrite !FiledirFacts.app_assoc_str.
Qed.

Lemma absent_drop (c : ascii) (n : nat) (s : string) :
  absent c s -> absent c (drop n s).
Proof.
  revert s; induction n as [|n IH]; intros [|a s] H; try done.
  cbn [drop]. apply IH. rewrite contains_char_cons in H.
  by apply orb_false_iff in H as [_ H].
Qed.

(** A string without the separator is one field. *)
Lemma split_on_aux_absent (sep : ascii) (s cur : string) :
  absent sep s -> split_on_aux sep s cur = [String.rev_app cur s].
Proof.
  revert cur; induction s as [|a s IH]; intros cur H; [done|].
  rewrite contains_char_cons in H. apply orb_false_iff in H as [Ha H].
  cbn [split_on_aux]. rewrite Ha. by rewrite IH.
Qed.

(** No field holds the separator. *)
Lemma split_on_aux_fields (sep : ascii) (s cur : string) :
  absent sep cur ->
  Forall (fun x => absent sep x) (split_on_aux sep s cur).
Proof.
  revert cur; induction s as [|a s IH]; intros cur H; cbn [split_on_aux].
  - constructor; [|constructor]. unfold String.rev.
    by rewrite contains_char_rev_app, H.
  - destruct (Ascii.eqb a sep) eqn:Ha.
    + constructor; [|by apply IH]. unfold String.rev.
      by rewrite contains_char_rev_app, H.
    + apply IH. by rewrite contains_char_cons, Ha, H.
Qed.

(** [rfind] gives [-1] when the character is absent, and otherwise the place
    of an occurrence after which there is no other. *)
Lemma rfind_from_spec (c : ascii) (s : string) (i last : Z) :
  (rfind_from c s i last = last /\ absent c s) \/
  (i <= rfind_from c s i last /\
   exists rest,
     drop (Z.to_nat (rfind_from c s i last - i)) s = String c rest /\
     absent c rest).
Proof.
  revert i last; induction s as [|a s IH]; intros i last; [by left|].
  cbn [rfind_from].
  destruct (IH (i + 1) (if Ascii.eqb a c then i else last))
    as [[Hr Ha]|(Hle & rest & Hd & Ha)].
  - rewrite Hr. destruct (Ascii.eqb a c) eqn:E.
    + right. split; [lia|]. exists s. rewrite Z.sub_diag.
      apply Ascii.eqb_eq in E as ->. done.
    + left. split; [done|]. by rewrite contains_char_cons, E.
  - right. split; [lia|]. exists rest. split; [|done].
    replace (Z.to_nat (rfind_from c s (i + 1)
                         (if Ascii.eqb a c then i else last) - i))
      with (S (Z.to_nat (rfind_from c s (i + 1)
                           (if Ascii.eqb a c then i else last) - (i + 1))))
      by lia.
    exact Hd.
Qed.

Lemma rfind_spec (c : ascii) (s : string) :
  (rfind s c = -1 /\ absent c s) \/
  (0 <= rfind s c /\
   exists rest, drop (Z.to_nat (rfind s c)) s = String c rest /\ absent c rest).
Proof.
  unfold rfind. destruct (rfind_from_spec c s 0 (-1)) as [H|(Hle & rest & H)].
  - by left.
  - right. split; [done|]. exists rest. by rewrite Z.sub_0_r in H.
Qed.

Lemma drop_S (n : nat) (s : string) (a : ascii) (rest : string) :
  drop n s = String a rest -> drop (S n) s = rest.
Proof.
  revert s; induction n as [|n IH]; intros [|b s] H; try done.
  - by injection H as _ ->.
  - cbn [drop] in *. by apply IH.
Qed.

(** The base name has no slash. *)
Lemma basename_absent (p : string) : absent "/" (FiledirRest.basename p).
Proof.
  unfold FiledirRest.basename. cbv zeta.
  destruct (rfind_spec "/" p) as [[-> H]|(Hle & rest & Hd & H)].
  - by apply absent_drop.
  - replace (Z.to_nat (rfind p "/" + 1)) with (S (Z.to_nat (rfind p "/")))
      by lia.
    by rewrite (drop_S _ _ _ _ Hd).
Qed.

(** [splitext] cuts the path in two, and an extension that is not empty
    starts with the dot. *)
Lemma splitext_spec (p : string) :
  (PosixPath.splitext p).1 ++ (PosixPath.splitext p).2 = p /\
  ((PosixPath.splitext p).2 = "" \/
   exists rest, (PosixPath.splitext p).2 = String "." rest /\ absent "." rest) /\
  exists n, (PosixPath.splitext p).1 = take n p.
Proof.
  assert ((p, "").1 ++ (p, "").2 = p /\
          ((p, "").2 = "" \/
           exists rest, (p, "").2 = String "." rest /\ absent "." rest) /\
          exists n, (p, "").1 = take n p) as Hwhole.
  { cbn [fst snd]. split; [apply FiledirFacts.app_empty_r|].
    split; [by left|]. exists (String.length p).
    clear. induction p as [|a p IH]; [done|]. cbn [String.length take].
    by rewrite <- IH. }
  unfold PosixPath.splitext. cbv zeta.
  destruct (rfind p PosixPath.sep <? rfind p PosixPath.extsep) eqn:Hlt;
    [|exact Hwhole].
  destruct (PosixPath.splitext_loop _ _ _ _) as [r|] eqn:Hloop; [|exact Hwhole].
  assert (r = (slice p 0 (rfind p PosixPath.extsep),
               drop (Z.to_nat (rfind p PosixPath.extsep)) p)) as ->.
  { revert Hloop.
    generalize (Z.to_nat (rfind p PosixPath.extsep
                          - (rfind p PosixPath.sep + 1))).
    generalize (rfind p PosixPath.sep + 1).
    intros i fuel. revert i.
    induction fuel as [|fuel IH]; intros i; cbn [PosixPath.splitext_loop];
      [done|].
    destruct (i <? rfind p PosixPath.extsep); [|done].
    destruct (negb _); [by intros [= <-]|]. apply IH. }
  cbn [fst snd]. unfold slice. rewrite Z.sub_0_r. cbn [Z.to_nat drop].
  split; [by change (drop 0 p) with p; rewrite take_drop|].
  split; [|by exists (Z.to_nat (rfind p PosixPath.extsep))].
  right. destruct (rfind_spec PosixPath.extsep p) as [[Hr _]|(_ & rest & Hd & Ha)].
  - apply Z.ltb_lt in Hlt. rewrite Hr in Hlt.
    destruct (rfind_spec PosixPath.sep p) as [[Hs _]|[Hs _]]; lia.
  - by exists rest.
Qed.

End PathFacts.

(** ** Further properties of the path predicates *)

Module NameFacts.
Import PyStr.

Lemma last_Forall {A} (P : A -> Prop) (l : list A) (d : A) :
  Forall P l -> P d -> P (List.last l d).
Proof.
  induction 1 as [|x l Hx Hl IH]; intros Hd; [done|].
  destruct l; [done|]. by apply IH.
Qed.

(** The name of a parsed path has no slash. *)
Lemma name_absent (p : string) :
  contains "/" (PosixPath.name (PosixPath.parse p)) = false.
Proof.
  unfold PosixPath.name.
  destruct (_ =? _)%nat eqn:Hlen; [done|].
  destruct p as [|a s]; [done|].
  unfold PosixPath.parse in *.
  destruct (PosixPath.splitroot (String a s)) as [root rel].
  cbn [PosixPath._parts PosixPath._root PosixPath.anchored] in *.
  assert (Forall (fun x => contains "/" x = false)
            (filter (fun x => x <> "" /\ x <> ".")
               (split_on PosixPath.sep rel))) as Hparsed.
  { apply Forall_forall. intros x Hx.
    apply list_elem_of_filter in Hx as [_ Hx].
    pose proof (PathFacts.split_on_aux_fields "/" rel "" eq_refl) as Hf.
    rewrite Forall_forall in Hf. by apply Hf. }
  destruct root as [|r root].
  - by apply last_Forall.
  - unfold PosixPath.anchored in Hlen. cbn in Hlen.
    destruct (filter _ _) as [|x parsed] eqn:E; [done|].
    change (List.last (String r root :: x :: parsed) "")
      with (List.last (x :: parsed) "").
    by apply last_Forall.
Qed.

(** A non-empty path without a slash is parsed as itself, or as nothing when
    it is the dot. *)
Lemma parse_single (p : string) :
  contains "/" p = false ->
  PosixPath.parse p
  = {| PosixPath._root := "";
       PosixPath._parts := if bool_decide (p = "" \/ p = ".") then [] else [p] |}.
Proof.
  intros H. destruct p as [|a s]; [done|].
  unfold PosixPath.parse, PosixPath.splitroot.
  rewrite PathFacts.contains_char_cons in H.
  apply orb_false_iff in H as [Ha Hs]. unfold PosixPath.sep. rewrite Ha.
  unfold split_on.
  rewrite (PathFacts.split_on_aux_absent "/" (String a s) "");
    [|by rewrite PathFacts.contains_char_cons, Ha, Hs].
  cbn [String.rev_app]. f_equal.
  rewrite filter_cons, filter_nil.
  case_bool_decide as Hd; destruct (decide _) as [Hk|Hk]; try done.
  - destruct Hd as [Hd|Hd]; by destruct Hk.
  - exfalso. apply Hd. apply not_and_l in Hk as [Hk|Hk].
    + left. by destruct (decide (String a s = "")).
    + right. by destruct (decide (String a s = ".")).
Qed.

(** The parent of a path without a slash is the current directory. *)
Lemma parent_single (p : string) :
  contains "/" p = false ->
  PosixPath.to_str (PosixPath.parent (PosixPath.parse p)) = ".".
Proof.
  intros H. rewrite (parse_single p H). by case_bool_decide.
Qed.

End NameFacts.

Section NameExtras.
Import PyStr Filedir FiledirRest.

(** X4.  [is_name] accepts exactly the strings that have no slash and are
    not the single dot; the empty string is a name. *)
Theorem is_name_iff (p : string) :
  is_name (Some p) = true <-> contains "/" p = false /\ p <> ".".
Proof.
  unfold is_name. split.
  - destruct (String.eqb_spec (PosixPath.name (PosixPath.parse p)) p)
      as [E|]; [|done]. intros _.
    split; [rewrite <- E; apply NameFacts.name_absent|].
    intros ->. by vm_compute in E.
  - intros [H Hdot]. rewrite (NameFacts.parse_single p H).
    case_bool_decide as Hd.
    + destruct Hd as [-> | ->]; done.
    + unfold PosixPath.name. cbn. by rewrite String.eqb_refl.
Qed.

(** X5.  A path without a slash is a stem or a basename, and not both:
    [is_stem] is the negation of [is_basename] on it. *)
Theorem slashless_is_stem_or_basename (p : string)
    (Hp : contains "/" p = false) :
  is_stem (Some p) = negb (is_basename (Some p)).
Proof.
  unfold is_stem, is_basename. rewrite (NameFacts.parent_single p Hp).
  cbn [String.eqb Ascii.eqb Bool.eqb].
  destruct (PosixPath.splitext p) as [root ext].
  by destruct (String.eqb ext "").
Qed.

(** X6.  [get_stem] returns a string without a slash that starts the base
    name of the path; what it leaves of the base name is nothing, or an
    extension made of a dot and characters that are not dots. *)
Theorem get_stem_spec (path : string) :
  contains "/" (get_stem path) = false /\
  exists ext,
    basename path = get_stem path ++ ext /\
    (ext = "" \/
     exists rest, ext = String "." rest /\ contains "." rest = false).
Proof.
  unfold get_stem. cbv zeta.
  pose proof (PathFacts.splitext_spec (basename path)) as (Hcat & Hext & n & Hn).
  destruct (PosixPath.splitext (basename path)) as [stem ext].
  cbn [fst snd] in *. split.
  - rewrite Hn. apply PathFacts.absent_take, PathFacts.basename_absent.
  - exists ext. by split.
Qed.

Context `{os : Os}.

(** X7.  The file kinds: [is_torch_saved_file] holds exactly for weights
    files, checkpoint files and regular files with the extension [.weights];
    at most one of the kinds ckpt, json, txt, weights, xml and yaml holds for
    a path; and whatever has a kind is accepted by [is_url_or_file]. *)
Theorem file_kinds (files : FS) (path : option string) :
  is_torch_saved_file files path
  = is_weights_file files path || is_ckpt_file files path
    || match path with
       | Some p => os_path_isfile files p
                   && String.eqb (PosixPath.splitext p).2 ".weights"
       | None => false
       end /\
  (List.length
     (List.filter (fun b : bool => b)
        [is_ckpt_file files path; is_json_file files path;
         is_txt_file files path; is_weights_file files path;
         is_xml_file files path; is_yaml_file files path]) <= 1)%nat /\
  (is_torch_saved_file files path || is_json_file files path
   || is_txt_file files path || is_xml_file files path
   || is_yaml_file files path = true ->
   is_url_or_file files path = true).
Proof.
  destruct path as [p|].
  2: { split; [reflexivity|]. split; [cbn; lia|]. cbn. done. }
  unfold is_torch_saved_file, is_weights_file, is_ckpt_file, is_json_file,
    is_txt_file, is_xml_file, is_yaml_file, is_url_or_file.
  destruct (os_path_isfile files p).
  2: { split; [reflexivity|]. split; [cbn; lia|]. cbn. done. }
  generalize ((PosixPath.splitext p).2). intros ext.
  destruct (decide (ext ∈ [".ckpt"; ".json"; ".txt"; ".pt"; ".pth"; ".xml";
                           ".yaml"; ".yml"; ".weights"])) as [Hin|Hout].
  - repeat (apply elem_of_cons in Hin as [->|Hin]);
      [..|by apply elem_of_nil in Hin].
    all: split; [vm_compute; reflexivity|];
      split; [vm_compute; lia | intros _; reflexivity].
  - assert (forall l : list string,
              l ⊆ [".ckpt"; ".json"; ".txt"; ".pt"; ".pth"; ".xml"; ".yaml";
                   ".yml"; ".weights"] -> ext ∉ l) as Hsub
      by (intros l Hl Hx; by apply Hout, Hl).
    assert (String.eqb ext ".weights" = false) as ->.
    { apply String.eqb_neq. intros ->. apply Hout.
      apply (bool_decide_unpack _). by vm_compute. }
    rewrite !bool_decide_eq_false_2
      by (apply Hsub; intros x Hx;
          repeat (apply elem_of_cons in Hx as [->|Hx];
                  [apply (bool_decide_unpack _); by vm_compute|]);
          by apply elem_of_nil in Hx).
    split; [reflexivity|]. split; [cbn; lia | intros _; reflexivity].
Qed.

End NameExtras.

Lemma slashless_is_stem_or_basename_witness :
  Filedir.is_stem (Some "model.pth")
  = negb (Filedir.is_basename (Some "model.pth")).
Proof. exact (slashless_is_stem_or_basename "model.pth" eq_refl). Defined.

(** ** Further properties of the reading and deleting helpers *)

Module ReadFacts.
Import PyStr Filedir FiledirRest.

Section Read.
Context `{os : Os}.

(** The loop of [list_files] neither raises nor touches the files: it adds
    one non-recursive call to [glob] per pattern and the regular files among
    the matches. *)
Lemma list_files_loop_run (patterns : list string) (image_paths : list string)
    (w : World) :
  list_files_loop patterns image_paths w
  = ({| fs := fs w; logged := logged w;
        globbed := globbed w ++ List.map (fun p => (p, false)) patterns |},
     inr (image_paths
          ++ List.concat
               (List.map (fun p => List.filter (os_path_isfile (fs w))
                                     (glob_glob (fs w) p false))
                  patterns))%list).
Proof.
  revert image_paths w; induction patterns as [|p patterns IH];
    intros image_paths w.
  - cbn. rewrite !app_nil_r. by destruct w.
  - cbn [list_files_loop]. unfold bind at 1, glob at 1.
    unfold bind at 1, ask at 1. rewrite IH. cbn [fs logged globbed].
    cbn [List.map List.concat]. by rewrite <- !app_assoc.
Qed.

Context `{st : !OsStat}.

(** Reading sizes does not change the world. *)
Lemma get_hash_sum_world (files : list string) (acc : Z) (w : World) :
  (get_hash_sum files acc w).1 = w.
Proof.
  revert acc; induction files as [|f files IH]; intros acc; [done|].
  cbn [get_hash_sum]. unfold bind at 1, ask at 1.
  destruct (os_path_isfile (fs w) f); [|apply IH].
  unfold bind at 1, query at 1.
  destruct (os_path_getsize (fs w) f); [done|apply IH].
Qed.

(** The sum does not depend on the order of the files. *)
Lemma get_hash_sum_perm (files files' : list string) :
  Permutation files files' ->
  forall (acc h : Z) (w : World),
    get_hash_sum files acc w = (w, inr h) ->
    get_hash_sum files' acc w = (w, inr h).
Proof.
  induction 1 as [|x l l' _ IH|x y l|l l' l'' _ IH1 _ IH2]; intros acc h w.
  - done.
  - cbn [get_hash_sum]. unfold bind at 1 3, ask at 1 2.
    destruct (os_path_isfile (fs w) x); [|apply IH].
    unfold bind at 1 2, query at 1 2.
    destruct (os_path_getsize (fs w) x); [done|apply IH].
  - cbn [get_hash_sum]. unfold bind, ask, query.
    destruct (os_path_isfile (fs w) x) eqn:Ex,
      (os_path_isfile (fs w) y) eqn:Ey,
      (os_path_getsize (fs w) x) as [ex|sx] eqn:Sx,
      (os_path_getsize (fs w) y) as [ey|sy] eqn:Sy;
      repeat (cbn; rewrite ?Ex, ?Ey, ?Sx, ?Sy); try done.
    by replace (acc + sy + sx) with (acc + sx + sy) by lia.
  - intros H. by apply IH2, IH1.
Qed.

(** What [max] keeps: the result is the first candidate or one of the rest,
    its creation time can be read, and neither the first candidate nor any
    of the rest is later, as long as [>] is a strict weak order. *)
Lemma max_by_ctime_spec (rest : list string) :
  (forall a b, time_gt a b = true -> time_gt b a = false) ->
  (forall a b c, time_gt a c = true ->
                 time_gt a b = true \/ time_gt b c = true) ->
  forall (best : string) (kb : Time) (w w' : World) (m : string),
    max_by_ctime rest best kb w = (w', inr m) ->
    os_path_getctime (fs w) best = inr kb ->
    w' = w /\ m ∈ best :: rest /\
    exists km,
      os_path_getctime (fs w) m = inr km /\
      time_gt kb km = false /\
      Forall (fun f => exists kf, os_path_getctime (fs w) f = inr kf /\
                                  time_gt kf km = false) rest.
Proof.
  intros Hasym Hneg. induction rest as [|f rest IH];
    intros best kb w w' m Hrun Hbest.
  - injection Hrun as <- <-. split; [done|]. split; [by left|].
    exists kb. split; [done|]. split; [|constructor].
    destruct (time_gt kb kb) eqn:E; [|done]. by rewrite (Hasym _ _ E) in E.
  - cbn [max_by_ctime] in Hrun. unfold bind at 1, query at 1 in Hrun.
    destruct (os_path_getctime (fs w) f) as [e|kf] eqn:Hf; [done|].
    destruct (time_gt kf kb) eqn:Hgt.
    + destruct (IH f kf w w' m Hrun Hf) as (-> & Hin & km & Hm & Hle & Hall).
      split; [done|]. split; [by right|].
      exists km. split; [done|]. split.
      * destruct (time_gt kb km) eqn:E; [|done].
        destruct (Hneg _ kf _ E) as [H|H]; [|congruence].
        rewrite (Hasym _ _ Hgt) in H. discriminate.
      * constructor; [by exists kf|done].
    + destruct (IH best kb w w' m Hrun Hbest)
        as (-> & Hin & km & Hm & Hle & Hall).
      split; [done|]. split.
      { apply elem_of_cons in Hin as [->|Hin]; [by left|by do 2 right]. }
      exists km. split; [done|]. split; [done|].
      constructor; [|done]. exists kf. split; [done|].
      destruct (time_gt kf km) eqn:E; [|done].
      destruct (Hneg _ kb _ E) as [H|H]; congruence.
Qed.

End Read.

End ReadFacts.

Section ReadExtras.
Import PyStr Filedir FiledirRest.
Context `{os : Os}.

(** X8.  [has_subdir] on [None] raises [TypeError] (it does not answer
    [False]); on a path it raises what [os.listdir] raises, and otherwise
    answers whether [name] is an entry of the directory for which
    [os.path.join(path, name)] is a directory. *)
Theorem has_subdir_spec `{!PyErrors} (name : string) (w : World) :
  has_subdir None name w = (w, inl (PyExn TypeError)) /\
  forall path : string,
    has_subdir (Some path) name w
    = match os_listdir (fs w) path with
      | inl e => (w, inl (PyExn e))
      | inr names =>
          (w, inr (bool_decide
                     (name ∈ names /\
                      os_path_isdir (fs w) (PosixPath.join path name) = true)))
      end.
Proof.
  split; [reflexivity|]. intros path.
  unfold has_subdir, bind, list_subdirs.
  destruct (os_listdir (fs w) path) as [e|names]; [done|].
  unfold ret. do 2 f_equal. apply bool_decide_ext.
  rewrite !list_elem_of_In, filter_In. tauto.
Qed.

(** X9.  [list_files] never raises and never changes a file.  It calls
    [glob] once per pattern, in order and not recursively, and returns the
    matches of the patterns in that order, directories left out: every path
    it returns is a regular file. *)
Theorem list_files_spec (patterns : list string) (w : World) :
  list_files patterns w
  = ({| fs := fs w; logged := logged w;
        globbed := globbed w ++ List.map (fun p => (p, false)) patterns |},
     inr (List.concat
            (List.map (fun p => List.filter (os_path_isfile (fs w))
                                  (glob_glob (fs w) p false))
               patterns))) /\
  forall found,
    (list_files patterns w).2 = inr found ->
    Forall (fun f => os_path_isfile (fs w) f = true) found.
Proof.
  unfold list_files. rewrite ReadFacts.list_files_loop_run. cbn [app snd].
  split; [done|]. intros found [= <-].
  apply Forall_forall. intros f Hf. apply list_elem_of_In in Hf.
  apply in_concat in Hf as (l & Hl & Hf).
  apply in_map_iff in Hl as (p & <- & _).
  by apply filter_In in Hf as [_ Hf].
Qed.

Context `{st : !OsStat}.

(** X10.  The value of [get_hash] does not depend on the order of the
    files: a call that returns [h] on a list returns [h] on every
    permutation of it.  Reading the sizes changes nothing. *)
Theorem get_hash_order_independent (files files' : list string) (h : Z)
    (w : World)
    (Hperm : Permutation files files')
    (Hrun : (get_hash files w).2 = inr h) :
  get_hash files' w = (w, inr h) /\ get_hash files w = (w, inr h).
Proof.
  unfold get_hash in *.
  assert (get_hash_sum files 0 w = (w, inr h)) as Hw.
  { pose proof (ReadFacts.get_hash_sum_world files 0 w) as Hfst.
    destruct (get_hash_sum files 0 w) as [w' r]. cbn in *. congruence. }
  split; [|done]. by apply (ReadFacts.get_hash_sum_perm files files').
Qed.

(** X11.  [get_latest_file] returns [None] exactly when the pattern matches
    nothing.  When it returns a path, the path is one of the matches, and no
    match has a later creation time, as long as [>] on the times is a strict
    weak order. *)
Theorem get_latest_file_spec (path : string) (recursive : bool)
    (w w' : World) (latest : option string)
    (Hasym : forall a b, time_gt a b = true -> time_gt b a = false)
    (Hneg : forall a b c, time_gt a c = true ->
                          time_gt a b = true \/ time_gt b c = true)
    (Hrun : get_latest_file path recursive w = (w', inr latest)) :
  fs w' = fs w /\
  match latest with
  | None => glob_glob (fs w) path recursive = []
  | Some m =>
      m ∈ glob_glob (fs w) path recursive /\
      exists km,
        os_path_getctime (fs w) m = inr km /\
        Forall (fun f => exists kf, os_path_getctime (fs w) f = inr kf /\
                                    time_gt kf km = false)
          (glob_glob (fs w) path recursive)
  end.
Proof.
  unfold get_latest_file in Hrun. unfold bind at 1, glob at 1 in Hrun.
  destruct (glob_glob (fs w) path recursive) as [|f rest] eqn:Hglob.
  - injection Hrun as <- <-. done.
  - unfold bind at 1, query at 1 in Hrun. cbn [fs] in Hrun.
    destruct (os_path_getctime (fs w) f) as [e|kf] eqn:Hf; [done|].
    unfold bind at 1 in Hrun.
    destruct (max_by_ctime rest f kf _) as [w1 [u|m]] eqn:Hmax; [done|].
    injection Hrun as <- <-.
    destruct (ReadFacts.max_by_ctime_spec rest Hasym Hneg f kf _ _ _ Hmax Hf)
      as (-> & Hin & km & Hm & Hle & Hall).
    split; [done|]. split; [done|].
    exists km. split; [done|]. constructor; [by exists kf|done].
Qed.

End ReadExtras.

Lemma get_hash_order_independent_witness :
  FiledirRest.get_hash (H := MemStat.stat) ["b"; "a.txt"; "d"]
    (MemFs.world [("a.txt", MemFs.RegularFile); ("b", MemFs.RegularFile);
                  ("d", MemFs.Directory)])
  = (MemFs.world [("a.txt", MemFs.RegularFile); ("b", MemFs.RegularFile);
                  ("d", MemFs.Directory)], inr 6).
Proof.
  refine (proj1 (get_hash_order_independent (st := MemStat.stat)
                   ["a.txt"; "b"; "d"] ["b"; "a.txt"; "d"] 6
                   (MemFs.world [("a.txt", MemFs.RegularFile);
                                 ("b", MemFs.RegularFile);
                                 ("d", MemFs.Directory)]) _ eq_refl)).
  apply perm_swap.
Defined.

Lemma get_latest_file_spec_witness :
  "d/2.txt" ∈ Filedir.glob_glob (Os := MemFs.os)
                [("d", MemFs.Directory); ("d/1.txt", MemFs.RegularFile);
                 ("d/2.txt", MemFs.RegularFile)] "d/*.txt" true.
Proof.
  refine (proj1 (proj2 (get_latest_file_spec (os := MemFs.os)
                   (st := MemStat.stat) "d/*.txt" true
                   (MemFs.world [("d", MemFs.Directory);
                                 ("d/1.txt", MemFs.RegularFile);
                                 ("d/2.txt", MemFs.RegularFile)])
                   _ (Some "d/2.txt") _ _ eq_refl))).
  - intros a b H. cbn in *. apply Z.ltb_lt in H. apply Z.ltb_ge. lia.
  - intros a b c H. cbn in *. apply Z.ltb_lt in H.
    destruct (Z.ltb_spec b a); [by left|right]. apply Z.ltb_lt. lia.
Defined.

Section DeleteExtras.
Import PyStr Filedir FiledirRest.
Context `{os : Os}.

(** X12.  [delete_files_matching] globs its patterns in order, never
    recursively, and stops at the first removal that raises: the calls to
    [glob] it makes are those for the first [k] patterns, and for all of them
    when it returns. *)
Theorem delete_files_matching_globs_in_order (patterns : list string)
    (w : World) :
  exists k : nat,
    (k <= List.length patterns)%nat /\
    globbed (delete_files_matching patterns w).1
    = (globbed w ++ List.map (fun p => (p, false)) (firstn k patterns))%list /\
    ((delete_files_matching patterns w).2 = inr tt ->
     k = List.length patterns).
Proof.
  revert w; induction patterns as [|p patterns IH]; intros w.
  - exists O. cbn. by rewrite app_nil_r.
  - set (w1 := {| fs := fs w; logged := logged w;
                  globbed := globbed w ++ [(p, false)] |}).
    assert (delete_files_matching (p :: patterns) w
            = match for_each (glob_glob (fs w) p false)
                      (fun f => act (fun fs => os_remove fs f)) w1 with
              | (w2, inr _) => delete_files_matching patterns w2
              | (w2, inl u) => (w2, inl u)
              end) as -> by reflexivity.
    pose proof (FiledirFacts.removal_keeps_globbed
                  (glob_glob (fs w) p false) w1) as Hk.
    destruct (for_each _ _ w1) as [w2 [u|[]]] eqn:Hrm; cbn [fst snd] in *.
    + exists 1%nat. cbn [List.length firstn List.map].
      split; [lia|]. split; [by rewrite Hk|done].
    + destruct (IH w2) as (k & Hle & Hg & Hdone). exists (S k).
      cbn [List.length firstn List.map]. split; [lia|]. split.
      * rewrite Hg, Hk. unfold w1. cbn [globbed]. by rewrite <- app_assoc.
      * intros H. by rewrite (Hdone H).
Qed.

End DeleteExtras.


(** * More about the ResNet family *)

Module ShapeFacts.
Import ResNet ResNetShapes.

Lemma channels_chain_app (cin : Z) (a b : list BlockCall) :
  channels_chain cin (a ++ b)
  <-> channels_chain cin a /\ channels_chain (channels_out cin a) b.
Proof.
  revert cin; induction a as [|x a IH]; intros cin; cbn; [tauto|].
  rewrite IH. tauto.
Qed.

Lemma channels_out_app (cin : Z) (a b : list BlockCall) :
  channels_out cin (a ++ b) = channels_out (channels_out cin a) b.
Proof. revert cin; induction a as [|x a IH]; intros cin; cbn; [done|apply IH]. Qed.

Lemma channels_chain_repeat (b : BlockCall) (n : nat) :
  b_inplanes b = out_planes b ->
  channels_chain (out_planes b) (List.repeat b n) /\
  channels_out (out_planes b) (List.repeat b n) = out_planes b.
Proof. intros H. induction n as [|n IH]; cbn; [done|]. tauto. Qed.

(** A stage takes the channels [self.inplanes] holds on entry and gives
    [planes * block.expansion], which is what [self.inplanes] holds on
    exit. *)
Lemma make_layer_chain (self : Self) (block : Block) (planes blocks stride : Z)
    (dilate : bool) :
  let r := make_layer self block planes blocks stride dilate in
  channels_chain (inplanes self) r.1 /\
  channels_out (inplanes self) r.1 = planes * expansion block /\
  inplanes r.2 = planes * expansion block.
Proof.
  unfold make_layer. destruct dilate; cbn [fst snd inplanes channels_chain
    channels_out b_inplanes].
  all: match goal with
       | |- context [List.repeat ?b ?n] =>
           destruct (channels_chain_repeat b n eq_refl) as [Hc Ho]
       end; unfold out_planes in *; cbn [b_planes b_class] in *; done.
Qed.

(** The number of blocks of a stage. *)
Lemma make_layer_stage_length (self : Self) (block : Block)
    (planes blocks stride : Z) (dilate : bool) (stage : list BlockCall)
    (self' : Self) :
  make_layer self block planes blocks stride dilate = (stage, self') ->
  Z.of_nat (List.length stage) = Z.max 1 blocks.
Proof.
  unfold make_layer. destruct dilate; intros [= <- _];
    cbn [List.length]; rewrite repeat_length; lia.
Qed.

End ShapeFacts.

Section ResNetExtras.
Import ResNet ResNetShapes.

(** X13.  A stage built by [make_layer] has [max(1, blocks)] blocks: the
    first block is always built, so a layer count of zero or less still
    gives one block. *)
Theorem make_layer_length (self : Self) (block : Block)
    (planes blocks stride : Z) (dilate : bool) :
  Z.of_nat (List.length (make_layer self block planes blocks stride dilate).1)
  = Z.max 1 blocks.
Proof.
  unfold make_layer. destruct dilate; cbn [fst List.length];
    rewrite repeat_length; lia.
Qed.

(** X14.  In a stage built by [make_layer] the shapes of the residual sums
    agree.  The first block takes [self.inplanes] channels; it has a
    downsample exactly when its stride is not 1 or it changes the number of
    channels, and the downsample maps the block's input channels to its
    output channels with the block's stride.  Every other block has stride
    1, no downsample, and takes the [planes * block.expansion] channels it
    gives; these are the channels [self.inplanes] holds afterwards. *)
Theorem make_layer_residual_shapes (self : Self) (block : Block)
    (planes blocks stride : Z) (dilate : bool) :
  let r := make_layer self block planes blocks stride dilate in
  exists first others,
    r.1 = first :: others /\
    b_inplanes first = inplanes self /\
    (b_downsample first = None <->
     b_stride first = 1 /\ inplanes self = planes * expansion block) /\
    (forall ds, b_downsample first = Some ds ->
       ds_in_planes ds = b_inplanes first /\
       ds_out_planes ds = out_planes first /\
       ds_stride ds = b_stride first) /\
    Forall (fun b => b_stride b = 1 /\ b_downsample b = None /\
                     b_inplanes b = out_planes b /\
                     b_dilation b = dilation r.2) others /\
    Forall (fun b => b_class b = block /\ b_planes b = planes /\
                     b_groups b = self_groups self /\
                     b_base_width b = base_width self) (first :: others) /\
    inplanes r.2 = planes * expansion block.
Proof.
  unfold make_layer.
  set (st := if dilate then (dilation self * stride, 1)
             else (dilation self, stride)).
  assert (st.2 = if dilate then 1 else stride) as Hst by (by destruct dilate).
  destruct st as [d s']. cbn [snd] in Hst. cbv zeta. cbn [fst snd].
  eexists _, _. split; [reflexivity|]. cbn [b_inplanes b_downsample b_stride].
  split; [done|]. split; [|split; [|split; [|split]]].
  - destruct (s' =? 1) eqn:E1; cbn [negb orb].
    + apply Z.eqb_eq in E1.
      destruct (inplanes self =? planes * expansion block) eqn:E2; cbn [negb].
      * apply Z.eqb_eq in E2. done.
      * apply Z.eqb_neq in E2. split; [done|]. intros [_ H]. done.
    + apply Z.eqb_neq in E1. split; [done|]. intros [H _]. done.
  - intros ds. destruct (_ || _); [|done]. intros [= <-]. done.
  - apply Forall_forall. intros b Hb.
    apply list_elem_of_In, repeat_spec in Hb. subst b. done.
  - constructor; [done|]. apply Forall_forall. intros b Hb.
    apply list_elem_of_In, repeat_spec in Hb. subst b. done.
  - done.
Qed.

(** X15.  [make_layer] keeps the product of stride and dilation: with
    [dilate] the first block has stride 1 and [self.dilation] is multiplied
    by the stride, without it the stride is used and the dilation stays; in
    both cases the first block is built with the dilation from before. *)
Theorem make_layer_stride_or_dilation (self : Self) (block : Block)
    (planes blocks stride : Z) (dilate : bool) :
  let r := make_layer self block planes blocks stride dilate in
  exists first others,
    r.1 = first :: others /\
    b_stride first * dilation r.2 = stride * dilation self /\
    b_dilation first = dilation self /\
    (dilate = true -> b_stride first = 1) /\
    (dilate = false -> dilation r.2 = dilation self).
Proof.
  unfold make_layer. destruct dilate; cbv zeta; cbn [fst snd];
    eexists _, _; (split; [reflexivity|]);
    cbn [b_stride b_dilation dilation]; repeat split; try done; lia.
Qed.

Context `{base : ImageClassifier}.

(** X16.  With a dictionary as [cfg] the constructor raises [ValueError]
    when [replace_stride_with_dilation] is given and does not have three
    entries: this is checked before any layer is built.  With the default
    norm layer and an empty [layers] it raises [IndexError], at [layers[0]].
    Whenever it returns, the dilation list was omitted or has three entries,
    [layers] has at least four entries, the dictionary is the [cfg] of the
    network, and stage [i] has [max(1, layers[i])] blocks. *)
Theorem ResNet_init_dict_outcome (d : CfgDict) (name : option string)
    (num_classes : option Z) (out_indexes : Z) (p : Pretrained) :
  let r := ResNet_init (cfg_dict d) name num_classes out_indexes p in
  let bad_dilation :=
    exists l, replace_stride_with_dilation d = Some l /\
              List.length l <> 3%nat in
  (bad_dilation -> r = inl ValueError) /\
  (~ bad_dilation -> norm_layer d = None -> layers d = [] ->
   r = inl IndexError) /\
  (forall obj, r = inr obj ->
     ~ bad_dilation /\
     (4 <= List.length (layers d))%nat /\
     cfg obj = d /\
     Forall2 (fun stage n => Z.of_nat (List.length stage) = Z.max 1 n)
       [layer1 obj; layer2 obj; layer3 obj; layer4 obj]
       (firstn 4 (layers d))).
Proof.
  cbv zeta. unfold ResNet_init, mbind, Exc_bind. cbn [resolve assert_dict].
  split; [|split].
  - intros (l & -> & Hl). cbn [default from_option id].
    apply Nat.eqb_neq in Hl. by rewrite Hl.
  - intros Hgood _ Hempty.
    assert (List.length (default [false; false; false]
                           (replace_stride_with_dilation d)) = 3%nat) as H3.
    { destruct (replace_stride_with_dilation d) as [l|] eqn:E; [|done].
      destruct (decide (List.length l = 3%nat)); [done|].
      exfalso. apply Hgood. by exists l. }
    rewrite H3, Hempty. reflexivity.
  - intros obj.
    destruct (negb (List.length (default [false; false; false]
                                   (replace_stride_with_dilation d)) =? 3)%nat)
      eqn:H3; [done|].
    apply negb_false_iff, Nat.eqb_eq in H3.
    assert (~ (exists l, replace_stride_with_dilation d = Some l /\
                         List.length l <> 3%nat)) as Hgood.
    { intros (l & E & Hl). rewrite E in H3. by apply Hl. }
    destruct (default _ _) as [|d0 [|d1 [|d2 [|? ?]]]]; try done.
    destruct (layers d) as [|n1 [|n2 [|n3 [|n4 ns]]]];
      cbn [index lookup list_lookup];
      repeat match goal with
             | |- context [make_layer ?a ?b ?c ?e ?f ?g] =>
                 let E := fresh "E" in
                 destruct (make_layer a b c e f g) eqn:E
             end; try done.
    intros [= <-]. cbn [cfg layer1 layer2 layer3 layer4 List.length firstn].
    split; [exact Hgood|]. split; [lia|]. split; [done|].
    repeat constructor;
      eapply ShapeFacts.make_layer_stage_length; eassumption.
Qed.

(** X17.  With a string as [cfg] the constructor returns exactly for the
    nine predefined names; any other string fails the assertion (it is not
    looked up as a file), and so does a list. *)
Theorem ResNet_init_str_outcome (s : string) (l : list CfgDict)
    (name : option string) (num_classes : option Z) (out_indexes : Z)
    (p : Pretrained) :
  (((s ∈ predefined_names) /\
    (exists obj, ResNet_init (cfg_str s) name num_classes out_indexes p
                 = inr obj)) \/
   ((s ∉ predefined_names) /\
    ResNet_init (cfg_str s) name num_classes out_indexes p
    = inl AssertionError)) /\
  ResNet_init (cfg_list l) name num_classes out_indexes p
  = inl AssertionError.
Proof.
  split; [|done].
  destruct (decide (s ∈ predefined_names)) as [Hin|Hout].
  - left. split; [done|].
    destruct (ResNetFacts.ResNet_init_predefined s name num_classes
                out_indexes p Hin) as (d & obj & _ & H & _).
    by exists obj.
  - right. split; [done|].
    unfold ResNet_init. cbn [resolve].
    destruct (cfgs !! s) as [d|] eqn:E; [|done].
    exfalso. apply Hout. apply ResNetFacts.cfgs_names. by exists d.
Qed.

(** X18.  In every network the constructor returns, each block takes the
    channels the block before it gives, from the 64 channels of the stem
    through the four stages; 512 times the expansion of the block class
    leave the last stage, and that is the input width of the classifier
    when there is one.  The classifier is linear exactly when the stored
    [num_classes] is a positive number. *)
Theorem ResNet_channels_chain (cfg0 : Cfg) (name : option string)
    (num_classes : option Z) (out_indexes : Z) (p : Pretrained)
    (obj : ResNetObj)
    (Hobj : ResNet_init cfg0 name num_classes out_indexes p = inr obj) :
  channels_chain 64 (all_blocks obj) /\
  channels_out 64 (all_blocks obj) = 512 * expansion (block (cfg obj)) /\
  fc obj = match stored_num_classes num_classes with
           | Some n => if 0 <? n
                       then Linear (channels_out 64 (all_blocks obj)) n
                       else Identity
           | None => Identity
           end.
Proof.
  revert Hobj. unfold ResNet_init, mbind, Exc_bind.
  destruct (assert_dict (resolve cfg0)) as [e|d]; [done|].
  destruct (negb _); [done|].
  destruct (index (layers d) 0) as [e|n1]; [done|].
  match goal with |- context [make_layer ?s ?b 64 ?n ?st ?dl] =>
    pose proof (ShapeFacts.make_layer_chain s b 64 n st dl) as (C1 & O1 & I1);
    destruct (make_layer s b 64 n st dl) as [l1 s1] end.
  destruct (index (layers d) 1) as [e|n2]; [done|].
  destruct (index _ 0) as [e|d0]; [done|].
  pose proof (ShapeFacts.make_layer_chain s1 (block d) 128 n2 2 d0)
    as (C2 & O2 & I2).
  destruct (make_layer s1 (block d) 128 n2 2 d0) as [l2 s2].
  destruct (index (layers d) 2) as [e|n3]; [done|].
  destruct (index _ 1) as [e|d1]; [done|].
  pose proof (ShapeFacts.make_layer_chain s2 (block d) 256 n3 2 d1)
    as (C3 & O3 & I3).
  destruct (make_layer s2 (block d) 256 n3 2 d1) as [l3 s3].
  destruct (index (layers d) 3) as [e|n4]; [done|].
  destruct (index _ 2) as [e|d2]; [done|].
  pose proof (ShapeFacts.make_layer_chain s3 (block d) 512 n4 2 d2)
    as (C4 & O4 & I4).
  destruct (make_layer s3 (block d) 512 n4 2 d2) as [l4 s4].
  intros [= <-]. unfold all_blocks. cbn [layer1 layer2 layer3 layer4 cfg fc].
  cbn [fst snd inplanes] in *.
  assert (channels_out 64 (l1 ++ l2 ++ l3 ++ l4) = 512 * expansion (block d))
    as Hout.
  { rewrite !ShapeFacts.channels_out_app. rewrite O1, <- I1, O2, <- I2, O3,
      <- I3. exact O4. }
  split; [|split; [exact Hout|]].
  - rewrite !ShapeFacts.channels_chain_app.
    rewrite O1, <- I1, O2, <- I2, O3, <- I3. done.
  - rewrite Hout. unfold create_classifier.
    destruct (stored_num_classes num_classes) as [n|]; [|done].
    destruct (Z.ltb_spec 0 n), (Z.eqb_spec n 0); cbn; try done; lia.
Qed.

(** With [register] as modelled, importing the module changes the three
    registries only at the ten names of the family: every other name is bound
    as before. *)
Theorem import_module_frame (r : Registries) (name : string)
    (Hname : name ∉ ["resnet"; "resnet18"; "resnet34"; "resnet50";
                     "resnet101"; "resnet152"; "resnext50_32x4d";
                     "resnext101_32x8d"; "wide_resnet50_2";
                     "wide_resnet101_2"]) :
  BACKBONES (import_module r) !! name = BACKBONES r !! name /\
  CLASSIFIERS (import_module r) !! name = CLASSIFIERS r !! name /\
  MODELS (import_module r) !! name = MODELS r !! name.
Proof.
  repeat (apply not_elem_of_cons in Hname as [? Hname]).
  cbn; unfold register; repeat split; by simplify_map_eq.
Qed.

End ResNetExtras.

Lemma ResNet_channels_chain_witness :
  exists obj,
    ResNet.ResNet_init (base := Instances.plain_base)
      (ResNet.cfg_str "resnet18") None (Some 1000) (-1)
      (ResNet.pretrained_bool false) = inr obj /\
    ResNet.fc obj = ResNet.Linear 512 1000.
Proof.
  eexists. split; [vm_compute; reflexivity|].
  refine (eq_trans
            (proj2 (proj2 (ResNet_channels_chain (base := Instances.plain_base)
                             (ResNet.cfg_str "resnet18") None (Some 1000) (-1)
                             (ResNet.pretrained_bool false) _ _))) _).
  - vm_compute; reflexivity.
  - vm_compute; reflexivity.
Defined.

Lemma import_module_frame_witness :
  ResNet.MODELS
    (ResNet.import_module
       {| ResNet.BACKBONES := ∅; ResNet.CLASSIFIERS := ∅;
          ResNet.MODELS := {[ "vgg16" := ResNet.ResNet ]} |}) !! "vgg16"
  = Some ResNet.ResNet.
Proof.
  refine (eq_trans
            (proj2 (proj2 (import_module_frame
               {| ResNet.BACKBONES := ∅; ResNet.CLASSIFIERS := ∅;
                  ResNet.MODELS := {[ "vgg16" := ResNet.ResNet ]} |}
               "vgg16" _))) _).
  - apply (bool_decide_unpack _). by vm_compute.
  - by vm_compute.
Defined.


(** * More about the MLP layers *)

Section MlpExtras.
Import Mlp MlpVariants.
Context `{torch : Torch} `{gates : Gates} `{ctors : !Constructors}.

(** X19.  [GluMlp.__init__] fails its assertion exactly when the hidden
    width it settles on is odd; as an omitted [hidden_features] (or 0) stands
    for [in_features], a [GluMlp] with an odd [in_features] and no hidden
    width cannot be built.  When it is built, [fc2] takes half the features
    [fc1] gives, and the two halves make up the whole. *)
Theorem GluMlp_init_spec (in_features : Z) (hidden_features out_features : option Z)
    (act_layer : ActCls) (drop : Float) :
  let h := py_or hidden_features in_features in
  (GluMlp_init in_features hidden_features out_features act_layer drop
   = inl AssertionError <-> Z.odd h = true) /\
  (forall m,
     GluMlp_init in_features hidden_features out_features act_layer drop
     = inr m ->
     glu_fc1 m = nn_Linear in_features h /\
     glu_fc2 m = nn_Linear (h / 2) (py_or out_features in_features) /\
     2 * (h / 2) = h) /\
  (Z.odd in_features = true ->
   GluMlp_init in_features None out_features act_layer drop
   = inl AssertionError).
Proof.
  cbv zeta. unfold GluMlp_init.
  set (h := py_or hidden_features in_features).
  assert (negb (h mod 2 =? 0) = Z.odd h) as Hodd.
  { rewrite Zmod_odd. by destruct (Z.odd h). }
  rewrite Hodd. split; [|split].
  - destruct (Z.odd h); [done|].
    split; [|done]. unfold mbind, Exc_mbind, built.
    repeat (destruct (raised_by _); [done|]). done.
  - intros m. destruct (Z.odd h) eqn:E; [done|].
    unfold mbind, Exc_mbind, built.
    repeat (destruct (raised_by _); [done|]). intros [= <-].
    cbn [glu_fc1 glu_fc2]. repeat split.
    pose proof (Z.div_mod h 2 ltac:(lia)) as Hdm.
    rewrite Zmod_odd, E in Hdm. lia.
  - intros Hin. cbn [py_or].
    assert (negb (in_features mod 2 =? 0) = Z.odd in_features) as ->.
    { rewrite Zmod_odd. by destruct (Z.odd in_features). }
    by rewrite Hin.
Qed.

(** X20.  [GatedMlp.__init__] builds [fc1], [act] and [drop1] before it
    reaches its assertion.  So the assertion fails exactly when a gate layer
    is given, the hidden width is odd and these three constructor calls have
    returned; a width [nn.Linear] refuses for [fc1] is reported by
    [nn.Linear], with or without a gate and whatever the parity.  The call
    returns whenever none of its constructor calls raises and, with a gate
    layer, the hidden width is even.  When it returns, the first three
    layers and [drop2] are those of [Mlp]; without a gate layer the gate is
    [nn.Identity()] and [fc2] is that of [Mlp]; with one the hidden width is
    even, the gate is built on the full hidden width and [fc2] takes half of
    it. *)
Theorem GatedMlp_init_spec (in_features : Z)
    (hidden_features out_features : option Z) (act_layer : ActCls)
    (gate_layer : option GateCls) (drop : Float) :
  let h := py_or hidden_features in_features in
  let o := py_or out_features in_features in
  let mlp := Mlp_init in_features hidden_features out_features act_layer
               drop in
  let r := GatedMlp_init in_features hidden_features out_features act_layer
             gate_layer drop in
  (r = inl AssertionError <->
   is_Some gate_layer /\ Z.odd h = true /\
   Forall (fun l => raised_by l = None) [fc1 mlp; act mlp; drop1 mlp]) /\
  (forall e, raised_by (nn_Linear in_features h) = Some e ->
             r = inl (Raised e)) /\
  (Forall (fun l => raised_by l = None)
     [fc1 mlp; act mlp; drop1 mlp; drop2 mlp] ->
   match gate_layer with
   | None => raised_by (nn_Linear h o) = None
   | Some g => Z.odd h = false /\ gate_raised_by g h = None /\
               raised_by (nn_Linear (h / 2) o) = None
   end ->
   exists m, r = inr m) /\
  (forall m, r = inr m ->
     gated_fc1 m = fc1 mlp /\ gated_act m = act mlp /\
     gated_drop1 m = drop1 mlp /\ gated_drop2 m = drop2 mlp /\
     match gate_layer with
     | None => gated_gate m = nn_Identity /\ gated_fc2 m = fc2 mlp
     | Some g => Z.odd h = false /\ 2 * (h / 2) = h /\
                 gated_gate m = gate_instance g h /\
                 gated_fc2 m = nn_Linear (h / 2) o
     end).
Proof.
  cbv zeta. unfold GatedMlp_init, Mlp_init. cbn [fc1 act drop1 fc2 drop2].
  set (h := py_or hidden_features in_features).
  set (o := py_or out_features in_features).
  assert (negb (h mod 2 =? 0) = Z.odd h) as Hodd.
  { rewrite Zmod_odd. by destruct (Z.odd h). }
  assert (Z.odd h = false -> 2 * (h / 2) = h) as Hhalf.
  { intros E. pose proof (Z.div_mod h 2 ltac:(lia)) as Hdm.
    rewrite Zmod_odd, E in Hdm. lia. }
  unfold mbind, Exc_mbind, built, built_gate. rewrite Hodd.
  split; [|split; [|split]].
  - split.
    + destruct (raised_by (nn_Linear in_features h)) eqn:E1; [done|].
      destruct (raised_by (act_instance act_layer)) eqn:E2; [done|].
      destruct (raised_by (nn_Dropout (to_2tuple drop).1)) eqn:E3; [done|].
      destruct gate_layer as [g|].
      * destruct (Z.odd h) eqn:E.
        -- intros _. split; [by eexists|]. split; [done|].
           by repeat constructor.
        -- destruct (gate_raised_by g h); [done|].
           repeat (destruct (raised_by _); [done|]). done.
      * repeat (destruct (raised_by _); [done|]). done.
    + intros ([g ->] & E & Hall).
      inversion Hall as [|? ? E1 Hall1]; subst.
      inversion Hall1 as [|? ? E2 Hall2]; subst.
      inversion Hall2 as [|? ? E3 _]; subst.
      by rewrite E1, E2, E3, E.
  - intros e E1. by rewrite E1.
  - intros Hall Hrest.
    inversion Hall as [|? ? E1 Hall1]; subst.
    inversion Hall1 as [|? ? E2 Hall2]; subst.
    inversion Hall2 as [|? ? E3 Hall3]; subst.
    inversion Hall3 as [|? ? E4 _]; subst.
    rewrite E1, E2, E3.
    destruct gate_layer as [g|].
    + destruct Hrest as (E & Eg & E5). rewrite E, Eg, E5, E4. by eexists.
    + rewrite Hrest, E4. by eexists.
  - intros m.
    destruct (raised_by (nn_Linear in_features h)); [done|].
    destruct (raised_by (act_instance act_layer)); [done|].
    destruct (raised_by (nn_Dropout (to_2tuple drop).1)); [done|].
    destruct gate_layer as [g|].
    + destruct (Z.odd h) eqn:E; [done|].
      destruct (gate_raised_by g h); [done|].
      repeat (destruct (raised_by _); [done|]). intros [= <-].
      cbn [gated_fc1 gated_act gated_drop1 gated_drop2 gated_gate gated_fc2].
      repeat split. by apply Hhalf.
    + repeat (destruct (raised_by _); [done|]). intros [= <-].
      cbn [gated_fc1 gated_act gated_drop1 gated_drop2 gated_gate gated_fc2].
      repeat split.
Qed.

End MlpExtras.

(** * More about the conversion scripts *)

Module JoinFacts.
Import PyStr.

Lemma rev_app_app (a b acc : string) :
  String.rev_app (a ++ b) acc = String.rev_app b (String.rev_app a acc).
Proof.
  revert acc; induction a as [|x a IH]; intros acc; [done|].
  change (String x a ++ b) with (String x (a ++ b)). cbn [String.rev_app].
  apply IH.
Qed.

(** The first character of a reversed string is the last character of the
    string, whatever is put behind. *)
Lemma prefix1_rev_app (c : ascii) (b acc acc' : string) :
  b <> "" ->
  String.prefix (String c "") (String.rev_app b acc)
  = String.prefix (String c "") (String.rev_app b acc').
Proof.
  revert acc acc'; induction b as [|x b IH]; intros acc acc' Hb; [done|].
  cbn [String.rev_app]. destruct b as [|y b].
  - cbn [String.rev_app]. simpl.
    destruct (ascii_dec c x); [by destruct acc, acc'|done].
  - by apply IH.
Qed.

Lemma endswith_app (a b : string) :
  b <> "" -> endswith (a ++ b) "/" = endswith b "/".
Proof.
  intros Hb. unfold endswith, String.rev. rewrite rev_app_app.
  by apply prefix1_rev_app.
Qed.

(** A path to which [os.path.join] adds a slash: not empty and without a
    slash at its end. *)
Local Abbreviation open_ended a :=
  (String.eqb a "" || endswith a "/" = false).

Lemma join_open_ended (a b : string) :
  open_ended a -> startswith b "/" = false ->
  PosixPath.join a b = a ++ "/" ++ b.
Proof. intros Ha Hb. unfold PosixPath.join. by rewrite Hb, Ha. Qed.

Lemma open_ended_app (a b : string) :
  b <> "" -> endswith b "/" = false -> open_ended (a ++ "/" ++ b).
Proof.
  intros Hb He. apply orb_false_iff. split.
  - by destruct a.
  - rewrite endswith_app; [|by destruct b].
    change ("/" ++ b) with ("" ++ "/" ++ b).
    change ("" ++ "/" ++ b) with (String "/" "" ++ b).
    by rewrite endswith_app.
Qed.

Lemma prefix_app_r (p s t : string) :
  String.prefix p s = true -> String.prefix p (s ++ t) = true.
Proof.
  intros H. apply FiledirFacts.prefix_split in H as [post ->].
  rewrite FiledirFacts.app_assoc_str. apply FiledirFacts.prefix_app.
Qed.

(** A string without slashes occurs in [x/y] only if it occurs in [x] or in
    [y]. *)
Lemma contains_across_slash (old x y : string) (c : ascii) (old' : string) :
  old = String c old' -> slash_free old = true ->
  contains old (x ++ String "/" y) = contains old x || contains old y.
Proof.
  intros Hold Hfree. induction x as [|a x IH].
  - change ("" ++ String "/" y) with (String "/" y). cbn [contains].
    assert (String.prefix old (String "/" y) = false) as ->.
    { subst old. unfold slash_free in Hfree. simpl in Hfree.
      apply andb_true_iff in Hfree as [Ha _]. simpl.
      destruct (ascii_dec c "/") as [->|]; done. }
    assert (String.prefix old "" = false) as -> by (by subst old).
    done.
  - change (String a x ++ String "/" y) with (String a (x ++ String "/" y)).
    cbn [contains]. rewrite IH.
    change (String a (x ++ String "/" y)) with (String a x ++ String "/" y).
    assert (String.prefix old (String a x ++ String "/" y)
            = String.prefix old (String a x)) as ->.
    { destruct (String.prefix old (String a x)) eqn:E.
      - by apply prefix_app_r.
      - destruct (String.prefix old (String a x ++ String "/" y)) eqn:E';
          [|done].
        apply WaymoFacts.prefix_before_slash in E'; [congruence|done]. }
    by rewrite orb_assoc.
Qed.

Lemma startswith_slash_absent (s : string) :
  contains "/" s = false -> startswith s "/" = false.
Proof. intros H. by apply WaymoFacts.prefix_false_of_contains in H. Qed.

End JoinFacts.

Module ProcessFacts.
Import PyStr Waymo.

Section Process.
Context `{num : Numeric}.

(** How far the loop gets: the lines of the first [k] labels are in the
    file, and either all labels were written or label [k] raised. *)
Lemma write_labels_prefix (shape0 : list Dim) (labels : list (list F32))
    (fo cur : string) (files : Texts) :
  files !! fo = Some cur ->
  exists (k : nat) (lines : list string),
    Forall2 (fun l ss => yolo_line shape0 l = inr ss) (firstn k labels) lines /\
    (write_labels shape0 labels fo files).1
    = <[fo := cur ++ written lines]> files /\
    (((write_labels shape0 labels fo files).2 = inr tt /\
      k = List.length labels) \/
     (exists e l, (write_labels shape0 labels fo files).2 = inl e /\
                  labels !! k = Some l /\ yolo_line shape0 l = inl e)).
Proof.
  revert cur files; induction labels as [|l labels IH]; intros cur files Hcur.
  - exists O, []. cbn. rewrite FiledirFacts.app_empty_r, insert_id by done.
    split; [constructor|]. split; [done|]. by left.
  - cbn [write_labels]. destruct (yolo_line shape0 l) as [e|ss] eqn:Hl.
    + exists O, []. cbn. rewrite FiledirFacts.app_empty_r, insert_id by done.
      split; [constructor|]. split; [done|]. right. by exists e, l.
    + rewrite Hcur. change (default "" (Some cur)) with cur.
      destruct (IH (cur ++ ss) (<[fo := cur ++ ss]> files))
        as (k & lines & Hlines & Hfiles & Hend);
        [by rewrite lookup_insert_eq|].
      exists (S k), (ss :: lines). cbn [firstn written].
      split; [by constructor|]. split.
      * rewrite Hfiles, insert_insert_eq.
        by rewrite FiledirFacts.app_assoc_str.
      * destruct Hend as [[Hok ->]|(e & l' & He & Hk & Hl')].
        -- by left.
        -- right. by exists e, l'.
Qed.

End Process.

End ProcessFacts.

Section WaymoExtras.
Import PyStr Waymo.
Context `{num : Numeric}.

(** X21.  [process] changes no file but its output: whatever happens, every
    path other than the new annotation path holds what it held before. *)
Theorem process_frame (path : string) (files : Texts) (q : string)
    (Hq : q <> new_annotation_path_of path) :
  (process path files).1 !! q = files !! q.
Proof.
  unfold process.
  destruct (image_shape0 _) as [shape0|]; [|done].
  destruct (files !! path) as [text|]; [|done].
  destruct (np_array_float32 _) as [labels|]; [|done].
  destruct (can_open_w _ _); [|done].
  destruct (ProcessFacts.write_labels_prefix shape0 labels
              (new_annotation_path_of path) ""
              (<[new_annotation_path_of path := ""]> files))
    as (k & lines & _ & -> & _); [by rewrite lookup_insert_eq|].
  by rewrite !lookup_insert_ne.
Qed.

(** X22.  Once the output file is open, [process] leaves it holding the
    lines of the labels it got through, in order: all of them when it
    returns, and those before the first label that raised when it raises
    (the old content of the output file is gone in both cases). *)
Theorem process_partial_output (path : string) (files : Texts)
    (text : string) (shape0 : list Dim) (labels : list (list F32))
    (Hfile : files !! path = Some text)
    (Himg : image_shape0 (image_path_of path) = Some shape0)
    (Hlabels : np_array_float32 (List.map split_ws (splitlines text))
               = Some labels)
    (Hopen : can_open_w files (new_annotation_path_of path) = true) :
  exists (k : nat) (lines : list string),
    Forall2 (fun l ss => yolo_line shape0 l = inr ss) (firstn k labels) lines /\
    (process path files).1 !! new_annotation_path_of path
    = Some (written lines) /\
    (((process path files).2 = inr tt /\ k = List.length labels) \/
     (exists e l, (process path files).2 = inl e /\
                  labels !! k = Some l /\ yolo_line shape0 l = inl e)).
Proof.
  unfold process. rewrite Himg, Hfile, Hlabels, Hopen.
  destruct (ProcessFacts.write_labels_prefix shape0 labels
              (new_annotation_path_of path) ""
              (<[new_annotation_path_of path := ""]> files))
    as (k & lines & Hlines & Hfiles & Hend); [by rewrite lookup_insert_eq|].
  exists k, lines. split; [done|]. split; [|done].
  rewrite Hfiles. by rewrite lookup_insert_eq.
Qed.

(** X23.  For a path in which [annotations] does not occur the output path
    is the input path itself: a run that succeeds overwrites the annotation
    file with its conversion. *)
Theorem process_overwrites_input (path : string) (files : Texts)
    (text : string) (shape0 : list Dim) (labels : list (list F32))
    (lines : list string)
    (Hpath : contains "annotations" path = false)
    (Hfile : files !! path = Some text)
    (Himg : image_shape0 (image_path_of path) = Some shape0)
    (Hlabels : np_array_float32 (List.map split_ws (splitlines text))
               = Some labels)
    (Hopen : can_open_w files (new_annotation_path_of path) = true)
    (Hlines : Forall2 (fun l ss => yolo_line shape0 l = inr ss) labels lines) :
  new_annotation_path_of path = path /\
  process path files = (<[path := written lines]> files, inr tt).
Proof.
  assert (replace path "annotations" "annotations_yolo" = path) as Hsame
    by (by apply (WaymoFacts.replace_scan_absent "annotations")).
  split; [exact Hsame|].
  rewrite (WaymoFacts.process_success path files text shape0 labels lines
             Hfile Himg Hlabels Hopen Hlines).
  by rewrite Hsame.
Qed.

(** X24.  A file in which two lines have different numbers of fields (a
    blank line among label lines, say) is refused with [ValueError] before
    the output is opened: no file is changed. *)
Theorem process_ragged_rows (path : string) (files : Texts) (text : string)
    (shape0 : list Dim) (line1 line2 : string)
    (Hfile : files !! path = Some text)
    (Himg : image_shape0 (image_path_of path) = Some shape0)
    (H1 : line1 ∈ splitlines text)
    (H2 : line2 ∈ splitlines text)
    (Hdiff : List.length (split_ws line1) <> List.length (split_ws line2)) :
  process path files = (files, inl ValueError).
Proof.
  unfold process. rewrite Himg, Hfile.
  assert (np_array_float32 (List.map split_ws (splitlines text)) = None)
    as ->; [|done].
  unfold np_array_float32.
  destruct (List.map split_ws (splitlines text)) as [|r rows] eqn:E.
  - apply list_elem_of_In, (in_map split_ws) in H1. rewrite E in H1.
    destruct H1.
  - destruct (forallb _ (r :: rows)) eqn:Hall; [|done].
    exfalso. rewrite forallb_forall in Hall.
    apply list_elem_of_In, (in_map split_ws) in H1.
    apply list_elem_of_In, (in_map split_ws) in H2. rewrite E in H1, H2.
    apply Hall, Nat.eqb_eq in H1. apply Hall, Nat.eqb_eq in H2. congruence.
Qed.

End WaymoExtras.

Lemma process_frame_witness :
  (Waymo.process (num := Instances.integral) "d/annotations/x.txt"
     (Instances.sample_files "d/annotations/x.txt")).1 !! "d/annotations/x.txt"
  = Some Instances.sample_annotations.
Proof.
  refine (eq_trans (process_frame (num := Instances.integral)
                      "d/annotations/x.txt"
                      (Instances.sample_files "d/annotations/x.txt")
                      "d/annotations/x.txt" _) _).
  - vm_compute. discriminate.
  - reflexivity.
Defined.

Lemma process_partial_output_witness :
  exists (k : nat) (lines : list string),
    (Waymo.process (num := Instances.integral) "d/annotations/x.txt"
       {[ "d/annotations/x.txt" := "0 1 2 3 4" ]}).1
      !! "d/annotations_yolo/x.txt" = Some (Waymo.written lines) /\
    (Waymo.process (num := Instances.integral) "d/annotations/x.txt"
       {[ "d/annotations/x.txt" := "0 1 2 3 4" ]}).2 = inl Waymo.ValueError.
Proof.
  destruct (process_partial_output (num := Instances.integral)
              "d/annotations/x.txt" {[ "d/annotations/x.txt" := "0 1 2 3 4" ]}
              "0 1 2 3 4" [1280; 1920; 3] [[0; 1; 2; 3; 4]])
    as (k & lines & _ & Hout & _);
    [reflexivity | reflexivity | reflexivity | reflexivity |].
  exists k, lines. split; [exact Hout|reflexivity].
Defined.

Lemma process_overwrites_input_witness :
  Waymo.process (num := Instances.integral) "d/labels/x.txt"
    (Instances.sample_files "d/labels/x.txt")
  = (<["d/labels/x.txt" :=
         "1 2.0 2.0 1.0 1.0" ++ String Waymo.LF
           ("2 1.0 1.0 2.0 2.0" ++ String Waymo.LF "")]>
       (Instances.sample_files "d/labels/x.txt"),
     inr tt).
Proof.
  refine (proj2 (process_overwrites_input (num := Instances.integral)
                   "d/labels/x.txt" (Instances.sample_files "d/labels/x.txt")
                   Instances.sample_annotations [1280; 1920; 3]
                   [[0; 1; 3840; 2560; 1920; 1280; 7];
                    [0; 2; 1920; 1280; 3840; 2560; 9]]
                   ["1 2.0 2.0 1.0 1.0" ++ String Waymo.LF "";
                    "2 1.0 1.0 2.0 2.0" ++ String Waymo.LF ""]
                   _ _ _ _ _ _));
    [reflexivity | reflexivity | reflexivity | reflexivity | reflexivity
    | repeat constructor].
Defined.

Lemma process_ragged_rows_witness :
  Waymo.process (num := Instances.integral) "d/annotations/x.txt"
    {[ "d/annotations/x.txt" := "0 1 2 3 4 5" ++ String Waymo.LF "0 1" ]}
  = ({[ "d/annotations/x.txt" := "0 1 2 3 4 5" ++ String Waymo.LF "0 1" ]},
     inl Waymo.ValueError).
Proof.
  refine (process_ragged_rows (num := Instances.integral)
            "d/annotations/x.txt" _ ("0 1 2 3 4 5" ++ String Waymo.LF "0 1")
            [1280; 1920; 3] "0 1 2 3 4 5" "0 1" _ _ _ _ _).
  - reflexivity.
  - reflexivity.
  - apply (bool_decide_unpack _). by vm_compute.
  - apply (bool_decide_unpack _). by vm_compute.
  - vm_compute. discriminate.
Defined.

Section LayoutExtras.
Import PyStr Waymo.

(** X25.  The YOLO script makes the directories its jobs write to.  For a
    dataset directory that is not empty, does not end in a slash and does
    not contain [annotations], and an annotation file of one of the five
    cameras whose name has no slash and does not contain [annotations], the
    output path of [process] is that file name inside one of the directories
    the script has passed to [create_dirs] before. *)
Theorem converted_file_lands_in_created_dir (datasets_dir camera name : string)
    (glob : string -> list string) (cpu_count : Z)
    (Hd : String.eqb datasets_dir "" || endswith datasets_dir "/" = false)
    (Hda : contains "annotations" datasets_dir = false)
    (Hcam : camera ∈ cameras)
    (Hname : contains "/" name = false)
    (Hna : contains "annotations" name = false) :
  exists dirs dir,
    convert_annotations_yolo datasets_dir glob cpu_count !! 0%nat
    = Some (create_dirs_call dirs true) /\
    dir ∈ dirs /\
    new_annotation_path_of
      (PosixPath.joins datasets_dir
         ["waymo"; "detection2d"; "train"; camera; "annotations"; name])
    = PosixPath.join dir name.
Proof.
  exists (new_annotation_dirs datasets_dir "train"),
    (PosixPath.joins datasets_dir
       ["waymo"; "detection2d"; "train"; camera; "annotations_yolo"]).
  split; [reflexivity|]. split.
  { unfold new_annotation_dirs.
    apply list_elem_of_In, in_map_iff. exists camera.
    split; [done|]. by apply list_elem_of_In. }
  pose proof (JoinFacts.startswith_slash_absent name Hname) as Hstart.
  unfold new_annotation_path_of, PosixPath.joins. cbn [fold_left].
  unfold cameras in Hcam.
  repeat (apply elem_of_cons in Hcam as [->|Hcam]);
    [..|by apply elem_of_nil in Hcam].
  all: repeat match goal with
       | |- context [PosixPath.join ?a ?b] =>
           lazymatch a with
           | context [PosixPath.join] => fail
           | _ => rewrite (JoinFacts.join_open_ended a b);
                  [|first [exact Hd | by apply JoinFacts.open_ended_app]
                   |first [exact Hstart | reflexivity]]
           end
       end.
  all: match goal with
       | |- replace ((?D ++ "/" ++ "annotations") ++ "/" ++ ?nm) _ _ = _ =>
           rewrite (FiledirFacts.app_assoc_str D ("/" ++ "annotations")
                      ("/" ++ nm));
           change (("/" ++ "annotations") ++ "/" ++ nm)
             with ("/" ++ "annotations" ++ "/" ++ nm);
           rewrite (WaymoFacts.replace_one_component "annotations"
                      "annotations_yolo" D nm "a" "nnotations"
                      eq_refl eq_refl);
           [by rewrite (FiledirFacts.app_assoc_str D
                          ("/" ++ "annotations_yolo") ("/" ++ nm))
           | | exact Hna]
       end.
  all: repeat match goal with
       | |- context [contains ?o (?x ++ "/" ++ ?y)] =>
           change (contains o (x ++ "/" ++ y))
             with (contains o (x ++ String "/" y));
           rewrite (JoinFacts.contains_across_slash o x y "a" "nnotations"
                      eq_refl eq_refl)
       end.
  all: by rewrite Hda.
Qed.

End LayoutExtras.

Lemma converted_file_lands_in_created_dir_witness :
  exists dirs dir,
    Waymo.convert_annotations_yolo "/data" (fun _ => []) 8 !! 0%nat
    = Some (Waymo.create_dirs_call dirs true) /\
    dir ∈ dirs /\
    Waymo.new_annotation_path_of
      "/data/waymo/detection2d/train/side_left/annotations/17.txt"
    = PosixPath.join dir "17.txt".
Proof.
  refine (converted_file_lands_in_created_dir "/data" "side_left" "17.txt"
            (fun _ => []) 8 _ _ _ _ _).
  - reflexivity.
  - reflexivity.
  - apply (bool_decide_unpack _). by vm_compute.
  - reflexivity.
  - reflexivity.
Defined.
